(** * pystata core: command execution and nested sessions

    A shallow embedding of [src/stata.py] ([_stata_wrk1], [_stata_wrk2],
    [_get_user_input] and [run]) together with the properties of the
    command-execution coordinator stated in the specification.

    Python text ([str], Python 3) is a sequence of Unicode code points.
    The engine (the Stata shared library behind [config.stlib]), the user
    at the prompt and the temporary-file service are external: they are
    represented by the answers they give, and every call the core makes
    to them is recorded, in order, in the trace of the world. *)

From Stdlib Require Import List ZArith NArith Bool String Ascii Lia.
Import ListNotations.

Local Open Scope Z_scope.

(* ===================================================================== *)
(** ** Python strings                                                     *)
(* ===================================================================== *)

Module PyStr.

(** A Python 3 [str]: its code points. *)
Definition pystr := list N.

(** An ASCII literal of the source text. *)
Definition lit (x : string) : pystr :=
  map N_of_ascii (list_ascii_of_string x).

Fixpoint eqb (a b : pystr) : bool :=
  match a, b with
  | [], [] => true
  | x :: a', y :: b' => N.eqb x y && eqb a' b'
  | _, _ => false
  end.

(** [str.isspace] on one code point: the Unicode white space that
    [str.strip()] removes. *)
Definition isspace (c : N) : bool :=
  (((9 <=? c) && (c <=? 13)) || ((28 <=? c) && (c <=? 32))
   || (c =? 133) || (c =? 160) || (c =? 5760)
   || ((8192 <=? c) && (c <=? 8202))
   || (c =? 8232) || (c =? 8233) || (c =? 8239) || (c =? 8287)
   || (c =? 12288))%N.

Fixpoint lstrip (x : pystr) : pystr :=
  match x with
  | [] => []
  | c :: r => if isspace c then lstrip r else x
  end.

Definition rstrip (x : pystr) : pystr := rev (lstrip (rev x)).

(** [x.strip()] *)
Definition strip (x : pystr) : pystr := rstrip (lstrip x).

(** The line boundaries of [str.splitlines], CR apart (CR LF is one
    boundary and is handled in [splitlines_from]). *)
Definition is_linebreak (c : N) : bool :=
  ((c =? 10) || (c =? 11) || (c =? 12) || (c =? 28) || (c =? 29)
   || (c =? 30) || (c =? 133) || (c =? 8232) || (c =? 8233))%N.

(** [cur] holds the current line, last character first. *)
Fixpoint splitlines_from (cur : pystr) (x : pystr) : list pystr :=
  match x with
  | [] => match cur with [] => [] | _ => [rev cur] end
  | c :: r =>
      if (c =? 13)%N then
        match r with
        | d :: r' =>
            if (d =? 10)%N then rev cur :: splitlines_from [] r'
            else rev cur :: splitlines_from [] r
        | [] => rev cur :: splitlines_from [] r
        end
      else if is_linebreak c then rev cur :: splitlines_from [] r
      else splitlines_from (c :: cur) r
  end.

(** [x.splitlines()] *)
Definition splitlines (x : pystr) : list pystr := splitlines_from [] x.

(** [x[:n]] *)
Definition prefix (n : nat) (x : pystr) : pystr := firstn n x.

(** [len(x) == 0] *)
Definition is_empty (x : pystr) : bool :=
  match x with [] => true | _ => false end.

(** A surrogate code point (U+D800 to U+DFFF): a [str] can hold one on
    its own, UTF-8 cannot encode it. *)
Definition is_surrogate (c : N) : bool := ((55296 <=? c) && (c <=? 57343))%N.

(** Whether [x.encode("utf-8")] succeeds. *)
Definition utf8_encodable (x : pystr) : bool :=
  forallb (fun c => negb (is_surrogate c)) x.

End PyStr.

Import PyStr.

Notation "'py' x" := (lit x%string) (at level 9, x at level 0, only parsing).


(** Line feed, as in the source's ["\n"]. *)
Definition NL : pystr := [10%N].

(* ===================================================================== *)
(** ** The world outside the core                                         *)
(* ===================================================================== *)

(** What the engine answers to one [StataSO_Execute]: it returns a
    return code, having put [chunks] in its output buffer, or the user
    interrupts the call and Python raises [KeyboardInterrupt] in it. *)
Inductive Reply :=
| Returns (rc : Z) (chunks : list pystr)
| Interrupted.

(** Calls that leave the core, in the order they are made. The text of
    [Execute] is the argument of [config.get_encode_str]. *)
Inductive Event :=
| ClearOutputBuffer                        (* config.stlib.StataSO_ClearOutputBuffer() *)
| Execute (cmd : pystr) (echo : bool)      (* config.stlib.StataSO_Execute(cmd, echo) *)
| SetBreak                                 (* config.stlib.StataSO_SetBreak() *)
| Output (text : pystr) (newline : bool)   (* _print_no_streaming_output(text, newline) *)
| Print (text : pystr)                     (* print(text) *)
| Displayln (text : pystr)                 (* sfi.SFIToolkit.displayln(text) *)
| Input (prompt : pystr)                   (* input(prompt) *)
| GetTempFile (path : pystr)               (* sfi.SFIToolkit.getTempFile() *)
| WriteFile (path content : pystr)         (* a [with open(path, 'w')] block leaves [content] *)
| TimerStart (otype : Z) (real_cmd : option pystr) (colon : option bool)
             (mode : option Z)             (* stout.RepeatTimer(...).start() *)
| QueuePut (rc : Z)                        (* queue.put(rc) *)
| TimerJoin                                (* outputter.join() *)
| TimerDone                                (* outputter.done() *)
| GrDisplay.                               (* gr_display_func() *)

Record World := mkWorld {
  trace    : list Event;      (* calls made so far, oldest first *)
  replies  : list Reply;      (* the engine's answers to the next Execute calls *)
  outbuf   : list pystr;      (* chunks waiting in the engine's output buffer *)
  rc2      : Z;               (* the module's global rc2 *)
  tempname : nat -> pystr;    (* the names getTempFile hands out *)
  ntemp    : nat              (* how many it has handed out *)
}.

(** [config.stconfig] and [config.get_stipython()]. *)
Record Config := mkConfig {
  streamout : bool;           (* stconfig['streamout'] == 'on' *)
  grshow    : bool;           (* stconfig['grshow'] *)
  stipython : Z               (* get_stipython() *)
}.

Inductive Exn :=
| SystemError (msg : pystr)
| TypeError (msg : pystr)
| KeyboardInterrupt
| EOFError
| UnicodeEncodeError.

Inductive Res (A : Type) :=
| Ret (a : A)
| Raise (e : Exn).
Arguments Ret {A} a.
Arguments Raise {A} e.

(** A Python statement: it changes the world and returns or raises. *)
Definition M (A : Type) : Type := World -> Res A * World.

Definition ret {A} (a : A) : M A := fun w => (Ret a, w).

Definition bind {A B} (m : M A) (k : A -> M B) : M B :=
  fun w => match m w with
           | (Ret a, w') => k a w'
           | (Raise e, w') => (Raise e, w')
           end.

Definition raise {A} (e : Exn) : M A := fun w => (Raise e, w).

Declare Scope stmt_scope.
Delimit Scope stmt_scope with stmt.
Notation "x <- m ; k" := (bind m (fun x => k))
  (at level 61, m at next level, right associativity) : stmt_scope.
Notation "m ;; k" := (bind m (fun _ => k))
  (at level 61, right associativity) : stmt_scope.
Local Open Scope stmt_scope.

(** [try: body  except KeyboardInterrupt: handler] *)
Definition try_except_KeyboardInterrupt (body handler : M unit) : M unit :=
  fun w => match body w with
           | (Raise KeyboardInterrupt, w') => handler w'
           | r => r
           end.

Definition when (b : bool) (m : M unit) : M unit := if b then m else ret tt.

Definition record (e : Event) (w : World) : World :=
  mkWorld (trace w ++ [e]) (replies w) (outbuf w) (rc2 w) (tempname w) (ntemp w).

Definition log (e : Event) : M unit := fun w => (Ret tt, record e w).

Definition set_outbuf (b : list pystr) (w : World) : World :=
  mkWorld (trace w) (replies w) b (rc2 w) (tempname w) (ntemp w).

Definition set_rc2 (rc : Z) : M unit :=
  fun w => (Ret tt, mkWorld (trace w) (replies w) (outbuf w) rc (tempname w) (ntemp w)).

Definition get_rc2 : M Z := fun w => (Ret (rc2 w), w).

(** [config.stlib.StataSO_ClearOutputBuffer()] *)
Definition StataSO_ClearOutputBuffer : M unit :=
  fun w => (Ret tt, set_outbuf [] (record ClearOutputBuffer w)).

(** The engine's answer to the next [StataSO_Execute]; an engine with no
    scripted answer left succeeds silently. *)
Definition next_reply (w : World) : Reply :=
  match replies w with
  | [] => Returns 0 []
  | r :: _ => r
  end.

(** [config.stlib.StataSO_Execute(config.get_encode_str(cmd), echo)] *)
Definition StataSO_Execute (cmd : pystr) (echo : bool) : M Z :=
  fun w =>
    match next_reply w with
    | Returns rc chunks =>
        (Ret rc, mkWorld (trace w ++ [Execute cmd echo]) (tl (replies w))
                         (outbuf w ++ chunks) (rc2 w) (tempname w) (ntemp w))
    | Interrupted =>
        (Raise KeyboardInterrupt,
         mkWorld (trace w ++ [Execute cmd echo]) (tl (replies w))
                 (outbuf w) (rc2 w) (tempname w) (ntemp w))
    end.

(** [config.stlib.StataSO_SetBreak()] *)
Definition StataSO_SetBreak : M unit := log SetBreak.

(** Modelled from the spec: [config.get_output] is defined in
    [pystata.config], outside this file. It is the gateway's
    [pollOutputChunk]: the next buffered fragment, or the empty string
    when nothing is buffered. *)
Definition get_output : M pystr :=
  fun w => match outbuf w with
           | [] => (Ret [], w)
           | c :: rest => (Ret c, set_outbuf rest w)
           end.

(** [_print_no_streaming_output(output, newline)]; Python 3. *)
Definition _print_no_streaming_output (output : pystr) (newline : bool) : M unit :=
  log (Output output newline).

(** [sfi.SFIToolkit.getTempFile()] *)
Definition getTempFile : M pystr :=
  fun w =>
    let p := tempname w (ntemp w) in
    (Ret p, mkWorld (trace w ++ [GetTempFile p]) (replies w) (outbuf w) (rc2 w)
                    (tempname w) (S (ntemp w))).

(** [with open(tmpf, 'w', encoding="utf-8") as f: f.write(text)]:
    [open] creates the file empty; [f.write] encodes [text] before
    anything is written and raises [UnicodeEncodeError] when [text]
    holds a lone surrogate, and the [with] block then closes the file as
    it is, empty. *)
Definition write_text (tmpf text : pystr) : M unit :=
  if utf8_encodable text then log (WriteFile tmpf text)
  else log (WriteFile tmpf []) ;; raise UnicodeEncodeError.

Definition KeyboardInterrupt_notice : pystr := NL ++ py"KeyboardInterrupt: --break--".

(* ===================================================================== *)
(** ** The workers and [run]                                              *)
(* ===================================================================== *)

(** What [codeop.compile_command(source, '<input>', 'single')] does:
    it returns a code object or [None], or raises one of the three
    errors that line 268 catches. *)
Inductive ParseError := OverflowError | SyntaxError | ValueError.

Inductive Compile :=
| CodeObject                    (* a code object: the source is complete *)
| NoneIncomplete                (* None: the source is incomplete *)
| Raises (e : ParseError).      (* the source is in error *)

(** The [inline] argument of [run]. *)
Inductive InlineArg :=
| InlineNone
| InlineBool (b : bool)
| InlineOther.                  (* any other Python value *)

(** The accumulators of a nested session. *)
Record Acc := mkAcc {
  incmds1  : pystr;             (* the source of the unit, as staged *)
  incmds2  : pystr;             (* the same lines, each behind its prompt *)
  inprompt : pystr              (* the prompt of the line being read *)
}.

(** How one turn of a session's [while] loop ends: with [break], or at
    the [_get_user_input(prompt)] that reads the next line. *)
Inductive Next :=
| Break
| Ask (prompt : pystr) (a : Acc).

Section Core.

Variable cfg : Config.

(** [stout.output_get_interactive_result], from [pystata.core.stout]. *)
Variable output_get_interactive_result :
  pystr -> option pystr -> bool -> Z -> pystr.

(** [codeop.compile_command], of the Python library. *)
Variable compile_command : pystr -> Compile.

(** The [while ... else] of [_stata_wrk1] (lines 75-84). Each turn
    starts with [output], the chunk [config.get_output()] has just
    taken from the head of the buffer [buf]. *)
Fixpoint wrk1_drain (rc1 : Z) (buf : list pystr) (w : World) : Res unit * World :=
  match buf with
  | [] =>
      if rc1 =? 0 then (Ret tt, set_outbuf [] w)
      else (Raise (SystemError (py"failed to execute the specified command")),
            set_outbuf [] w)
  | output :: rest =>
      if is_empty output then
        if rc1 =? 0 then (Ret tt, set_outbuf rest w)
        else (Raise (SystemError (py"failed to execute the specified command")),
              set_outbuf rest w)
      else if negb (rc1 =? 0) then (Raise (SystemError output), set_outbuf rest w)
      else wrk1_drain rc1 rest (record (Output output false) (set_outbuf rest w))
  end.

Definition _stata_wrk1 (cmd : pystr) (echo : bool) : M unit :=
  if streamout cfg then
    try_except_KeyboardInterrupt
      (log (TimerStart 1 None None None) ;;
       rc1 <- StataSO_Execute cmd echo ;
       log (QueuePut rc1) ;;
       log TimerJoin ;;
       log TimerDone)
      (log TimerDone ;;
       StataSO_SetBreak ;;
       log (Print KeyboardInterrupt_notice))
  else
    try_except_KeyboardInterrupt
      (rc1 <- StataSO_Execute cmd echo ;
       fun w => wrk1_drain rc1 (outbuf w) w)
      (StataSO_SetBreak ;;
       log (Print KeyboardInterrupt_notice)).

(** The text printed for [output] in mode [mode] (lines 127-131 and
    134-137); [last] tells the chunk after which the buffer is empty. *)
Definition wrk2_print (real_cmd : option pystr) (colon : bool) (mode : Z)
    (output : pystr) (last : bool) : Event :=
  if negb (mode =? 1) then
    Output (output_get_interactive_result output real_cmd colon mode) false
  else Output output last.

(** The [while] of [_stata_wrk2] (lines 124-138): [output] is the
    current chunk, [buf] the buffer [config.get_output()] reads next. *)
Fixpoint wrk2_drain (real_cmd : option pystr) (colon : bool) (mode : Z)
    (output : pystr) (buf : list pystr) (w : World) : Res unit * World :=
  if is_empty output then (Ret tt, w)
  else
    match buf with
    | [] => (Ret tt, record (wrk2_print real_cmd colon mode output true) w)
    | output_tmp :: rest =>
        if is_empty output_tmp then
          (Ret tt, record (wrk2_print real_cmd colon mode output true)
                          (set_outbuf rest w))
        else
          wrk2_drain real_cmd colon mode output_tmp rest
            (record (wrk2_print real_cmd colon mode output false)
                    (set_outbuf rest w))
    end.

Definition _stata_wrk2 (cmd : pystr) (real_cmd : option pystr) (colon : bool)
    (mode : Z) : M unit :=
  if streamout cfg then
    try_except_KeyboardInterrupt
      (log (TimerStart 2 real_cmd (Some colon) (Some mode)) ;;
       rc <- StataSO_Execute cmd false ;
       set_rc2 rc ;;
       log (QueuePut rc) ;;
       log TimerJoin ;;
       log TimerDone)
      (log TimerDone ;;
       StataSO_SetBreak ;;
       log (Print KeyboardInterrupt_notice))
  else
    try_except_KeyboardInterrupt
      (rc <- StataSO_Execute cmd false ;
       set_rc2 rc ;;
       output <- get_output ;
       if negb (rc =? 0) then
         if negb (rc =? 3000) then
           if negb (mode =? 1) then
             _print_no_streaming_output
               (output_get_interactive_result output real_cmd colon mode) false
           else raise (SystemError output)
         else ret tt
       else
         fun w => wrk2_drain real_cmd colon mode output (outbuf w) w)
      (StataSO_SetBreak ;;
       log (Print KeyboardInterrupt_notice)).

(** [_get_user_input(uprompt)]: [input(uprompt)] returns the line the
    user has typed, or raises [EOFError] when the input has ended
    ([line] is [None]). An interrupt at the prompt itself is not part of
    this model. *)
Definition _get_user_input (uprompt : pystr) (line : option pystr) : M pystr :=
  log (Input uprompt) ;;
  match line with
  | Some l => ret l
  | None => raise EOFError
  end.

(** [tmpf = getTempFile()], the [with open(tmpf, 'w')] block and the
    [_stata_wrk2] call of a session unit (lines 222-231, 277-286). The
    text of a session file is the trigger token and lines that
    [input()] has read; its three writes are taken to succeed. *)
Definition stage_and_include (quietly : bool) (input_cmd : pystr)
    (src transcript : pystr) (has_colon : bool) (mode : Z) : M unit :=
  tmpf <- getTempFile ;
  log (WriteFile tmpf (input_cmd ++ NL ++ src ++ py"end")) ;;
  if quietly then
    _stata_wrk2 (py"qui include " ++ tmpf) (Some transcript) has_colon mode
  else
    _stata_wrk2 (py"include " ++ tmpf) (Some transcript) has_colon mode.

Definition fresh_acc (prompt : pystr) : Acc := mkAcc [] [] prompt.

(** One turn of the mata loop (lines 217-243), up to the next
    [_get_user_input]. *)
Definition mata_turn (quietly : bool) (input_cmd : pystr) (has_colon : bool)
    (incmd : pystr) (a : Acc) : M Next :=
  let incmd := incmd ++ NL in
  let incmds1 := incmds1 a ++ incmd in
  let incmd := inprompt a ++ incmd in
  let incmds2 := incmds2 a ++ incmd in
  stage_and_include quietly input_cmd incmds1 incmds2 has_colon 2 ;;
  rc <- get_rc2 ;
  if negb (rc =? 0) then
    if negb (rc =? 3000) then ret Break
    else ret (Ask (py"> ") (mkAcc incmds1 incmds2 (py"> ")))
  else ret (Ask (py": ") (fresh_acc (py": "))).

(** [while incmd != "end": ... else: displayln("{hline}")] of the mata
    session; [ins] are the lines the user types from here on, and each
    is stripped as it is read (lines 237 and 240). *)
Fixpoint mata_loop (quietly : bool) (input_cmd : pystr) (has_colon : bool)
    (ins : list pystr) (incmd : pystr) (a : Acc) : M unit :=
  if eqb incmd (py"end") then log (Displayln (py"{hline}"))
  else
    nx <- mata_turn quietly input_cmd has_colon incmd a ;
    match nx with
    | Break => ret tt
    | Ask prompt a' =>
        match ins with
        | [] => l <- _get_user_input prompt None ; ret tt
        | l :: ins' =>
            l <- _get_user_input prompt (Some l) ;
            mata_loop quietly input_cmd has_colon ins' (strip l) a'
        end
    end.

Definition mata_session (quietly : bool) (input_cmd : pystr)
    (ins : list pystr) : M unit :=
  let has_colon := eqb input_cmd (py"mata:") in
  log (Print (py". " ++ input_cmd)) ;;
  log (Displayln (py"{hline 49} mata (type {cmd:end} to exit) {hline}")) ;;
  incmd <- _get_user_input (py": ") (hd_error ins) ;
  mata_loop quietly input_cmd has_colon (tl ins) (strip incmd) (fresh_acc (py": ")).

(** One turn of the python loop (lines 258-294), up to the next
    [_get_user_input]. *)
Definition python_turn (quietly : bool) (input_cmd : pystr) (has_colon : bool)
    (incmd : pystr) (a : Acc) : M Next :=
  let incmds1 := incmds1 a ++ incmd in
  let incmd := inprompt a ++ incmd in
  let incmds2 := incmds2 a ++ incmd in
  let '(res_is_None, incmds1, incmds2) :=
    if negb (eqb (prefix 6 incmd) (py"stata:")) then
      match compile_command incmds1 with
      | CodeObject => (false, incmds1 ++ NL, incmds2 ++ NL)
      | NoneIncomplete => (true, incmds1 ++ NL, incmds2 ++ NL)
      | Raises _ => (false, incmds1, incmds2)
      end
    else (false, incmds1, incmds2) in
  if res_is_None then
    ret (Ask (py"... ") (mkAcc incmds1 incmds2 (py"... ")))
  else
    stage_and_include quietly input_cmd incmds1 incmds2 has_colon 3 ;;
    rc <- get_rc2 ;
    if negb (rc =? 0) then ret Break
    else ret (Ask (py">>> ") (fresh_acc (py">>> "))).

(** [while incmd != "end": ... else: displayln("{hline}")] of the
    python session; the lines are taken as typed. *)
Fixpoint python_loop (quietly : bool) (input_cmd : pystr) (has_colon : bool)
    (ins : list pystr) (incmd : pystr) (a : Acc) : M unit :=
  if eqb incmd (py"end") then log (Displayln (py"{hline}"))
  else
    nx <- python_turn quietly input_cmd has_colon incmd a ;
    match nx with
    | Break => ret tt
    | Ask prompt a' =>
        match ins with
        | [] => l <- _get_user_input prompt None ; ret tt
        | l :: ins' =>
            l <- _get_user_input prompt (Some l) ;
            python_loop quietly input_cmd has_colon ins' l a'
        end
    end.

Definition python_session (quietly : bool) (input_cmd : pystr)
    (ins : list pystr) : M unit :=
  let has_colon := eqb input_cmd (py"python:") in
  log (Print (py". " ++ input_cmd)) ;;
  log (Displayln (py"{hline 47} python (type {cmd:end} to exit) {hline}")) ;;
  incmd <- _get_user_input (py">>> ") (hd_error ins) ;
  python_loop quietly input_cmd has_colon (tl ins) incmd (fresh_acc (py">>> ")).

(** What a python turn does once it has decided to execute the unit
    [src]. *)
Definition python_execute (quietly : bool) (input_cmd : pystr)
    (has_colon : bool) (src transcript : pystr) (w : World) : Res Next * World :=
  let r := stage_and_include quietly input_cmd src transcript has_colon 3 w in
  match fst r with
  | Ret _ =>
      (Ret (if negb (rc2 (snd r) =? 0) then Break
            else Ask (py">>> ") (fresh_acc (py">>> "))),
       snd r)
  | Raise e => (Raise e, snd r)
  end.

Definition gr_list_on : pystr := py"qui _gr_list on".
Definition gr_list_off : pystr := py"qui _gr_list off".

(** Lines 190-194. *)
Definition resolve_inline (inline : InlineArg) : option bool :=
  match inline with
  | InlineNone => Some (grshow cfg)
  | InlineBool b => Some b
  | InlineOther => None
  end.

(** Lines 315-324. *)
Definition graph_epilogue (inline : bool) : M unit :=
  when inline
    (when (3 <=? stipython cfg) (log GrDisplay) ;;
     rc <- StataSO_Execute gr_list_off false ; ret tt).

Definition graph_prologue (inline : bool) : M unit :=
  when inline (rc <- StataSO_Execute gr_list_on false ; ret tt).

(** [run(cmd, quietly, echo, inline)], in an initialized configuration
    ([config.check_initialized()] returns); [ins] are the lines the
    user types at the prompts of a nested session. *)
Definition run (ins : list pystr) (cmd : pystr) (quietly echo : bool)
    (inline : InlineArg) : M unit :=
  match resolve_inline inline with
  | None => raise (TypeError (py"inline must be a boolean value"))
  | Some inline =>
      StataSO_ClearOutputBuffer ;;
      let cmds := splitlines cmd in
      match cmds with
      | [] => ret tt
      | [cmd0] =>
          graph_prologue inline ;;
          let input_cmd := strip cmd0 in
          (if eqb input_cmd (py"mata") || eqb input_cmd (py"mata:") then
             mata_session quietly input_cmd ins
           else if eqb input_cmd (py"python") || eqb input_cmd (py"python:") then
             python_session quietly input_cmd ins
           else if quietly then _stata_wrk1 (py"qui " ++ cmd0) echo
           else _stata_wrk1 cmd0 echo) ;;
          graph_epilogue inline
      | _ =>
          graph_prologue inline ;;
          tmpf <- getTempFile ;
          write_text tmpf cmd ;;
          (if quietly then _stata_wrk2 (py"qui include " ++ tmpf) None false 1
           else _stata_wrk2 (py"include " ++ tmpf) None false 1) ;;
          graph_epilogue inline
      end
  end.

(** The part of [run] between the two graph toggles (lines 204-301
    and 306-313), for a command of at least one line. *)
Definition dispatch (ins : list pystr) (cmd : pystr) (quietly echo : bool) : M unit :=
  match splitlines cmd with
  | [] => ret tt
  | [cmd0] =>
      let input_cmd := strip cmd0 in
      if eqb input_cmd (py"mata") || eqb input_cmd (py"mata:") then
        mata_session quietly input_cmd ins
      else if eqb input_cmd (py"python") || eqb input_cmd (py"python:") then
        python_session quietly input_cmd ins
      else if quietly then _stata_wrk1 (py"qui " ++ cmd0) echo
      else _stata_wrk1 cmd0 echo
  | _ =>
      tmpf <- getTempFile ;
      write_text tmpf cmd ;;
      if quietly then _stata_wrk2 (py"qui include " ++ tmpf) None false 1
      else _stata_wrk2 (py"include " ++ tmpf) None false 1
  end.

(** The world in which the command is dispatched: the buffer has been
    cleared and, when [inline], graph capture has been switched on. *)
Definition entered (inline : bool) (w : World) : World :=
  snd (graph_prologue inline (snd (StataSO_ClearOutputBuffer w))).

End Core.

(* ===================================================================== *)
(** ** Reading traces                                                     *)
(* ===================================================================== *)

Definition is_execute (e : Event) : bool :=
  match e with Execute _ _ => true | _ => false end.

Definition is_output (e : Event) : bool :=
  match e with Output _ _ => true | _ => false end.

(** The calls to the gateway's [execute] and [clearOutputBuffer]. *)
Definition is_gateway_call (e : Event) : bool :=
  match e with ClearOutputBuffer | Execute _ _ => true | _ => false end.

(** The events a worker leaves behind its [Execute]: forwarded output,
    the hand-off to the poller and the handling of an interrupt. *)
Definition is_aftermath (e : Event) : bool :=
  match e with
  | Output _ _ | Print _ | SetBreak | QueuePut _ | TimerJoin | TimerDone => true
  | _ => false
  end.

Definition executes (tr : list Event) : list Event := filter is_execute tr.
Definition outputs (tr : list Event) : list Event := filter is_output tr.
Definition gateway_calls (tr : list Event) : list Event := filter is_gateway_call tr.

(** The staging files written: path and content. *)
Definition staged (tr : list Event) : list (pystr * pystr) :=
  flat_map (fun e => match e with WriteFile p c => [(p, c)] | _ => [] end) tr.

(** The names obtained from [getTempFile]. *)
Definition temp_files (tr : list Event) : list pystr :=
  flat_map (fun e => match e with GetTempFile p => [p] | _ => [] end) tr.

(** What [run] does after the command when [inline] (lines 315-324). *)
Definition epilogue_events (c : Config) (inline : bool) : list Event :=
  if inline then
    (if 3 <=? stipython c then [GrDisplay] else []) ++ [Execute gr_list_off false]
  else [].

(** The state of the specification's SessionController that a turn of a
    session loop leaves: [break] ends the session, a read at the primary
    prompt awaits a new unit, a read at another prompt awaits the
    continuation of the current one. *)
Inductive SessionState := AwaitPrimary | AwaitContinuation | Ended.

Definition session_state (primary : pystr) (nx : Next) : SessionState :=
  match nx with
  | Break => Ended
  | Ask p _ => if eqb p primary then AwaitPrimary else AwaitContinuation
  end.

(** The session trigger tokens of [run]. *)
Definition is_trigger (input_cmd : pystr) : bool :=
  eqb input_cmd (py"mata") || eqb input_cmd (py"mata:")
  || eqb input_cmd (py"python") || eqb input_cmd (py"python:").

(** [qui] in front of a command when [quietly]. *)
Definition quiet (quietly : bool) (c : pystr) : pystr :=
  if quietly then py"qui " ++ c else c.

(** The command that includes the staging file [p]. *)
Definition include_of (quietly : bool) (p : pystr) : pystr :=
  if quietly then py"qui include " ++ p else py"include " ++ p.

(** The poller a worker starts in streaming mode. *)
Definition timer_of (c : Config) (otype : Z) (real_cmd : option pystr)
    (colon : option bool) (mode : option Z) : list Event :=
  if streamout c then [TimerStart otype real_cmd colon mode] else [].

(** What a worker does once its [Execute] has been interrupted. *)
Definition interrupt_handling (c : Config) : list Event :=
  (if streamout c then [TimerDone] else [])
  ++ [SetBreak; Print KeyboardInterrupt_notice].

(** A world for the concrete runs below: nothing has been called yet,
    the engine answers with [rs] in turn, the global [rc2] holds [rc]
    and the temporary files are named [/tmp/St0], [/tmp/St1], ... *)
Definition world_of (rs : list Reply) (rc : Z) : World :=
  mkWorld [] rs [] rc (fun n => py"/tmp/St" ++ [N.of_nat (48 + n)]) 0.

Definition plain_result (output : pystr) (real_cmd : option pystr)
    (colon : bool) (mode : Z) : pystr := output.

Definition blocking : Config := mkConfig false false 3.
Definition streaming : Config := mkConfig true false 3.

(** A completeness check that only knows an open parenthesis at the end
    of the source, as [codeop.compile_command] reports [None] for
    ["stata: display ("]. *)
Definition open_paren_check (src : pystr) : Compile :=
  match rev src with
  | c :: _ => if (c =? 40)%N then NoneIncomplete else CodeObject
  | [] => CodeObject
  end.

(** How often the engine was asked to break. *)
Definition breaks_requested (tr : list Event) : nat :=
  List.length (filter (fun e => match e with SetBreak => true | _ => false end) tr).

(** The user interrupts the [Execute] of ["qui _gr_list on"], the first
    engine call of a run with inline graphs. *)
Definition toggle_interrupted (inline : bool) (w : World) : bool :=
  inline && match next_reply w with Interrupted => true | Returns _ _ => false end.

(** The world once a unit has been written to a new staging file. *)
Definition with_staging (content : pystr) (w : World) : World :=
  record (WriteFile (tempname w (ntemp w)) content)
    (mkWorld (trace w ++ [GetTempFile (tempname w (ntemp w))]) (replies w)
             (outbuf w) (rc2 w) (tempname w) (S (ntemp w))).

(* ===================================================================== *)
(** ** Loading data and reading stored results                            *)
(* ===================================================================== *)

Module PyText.

(** [cur] holds the current word, last character first. *)
Fixpoint split_from (cur : pystr) (x : pystr) : list pystr :=
  match x with
  | [] => match cur with [] => [] | _ => [rev cur] end
  | c :: r =>
      if isspace c then
        match cur with
        | [] => split_from [] r
        | _ => rev cur :: split_from [] r
        end
      else split_from (c :: cur) r
  end.

(** [x.split()]: the words between runs of white space. *)
Definition split (x : pystr) : list pystr := split_from [] x.

End PyText.

(** The module's [has_num_pand]: which of the two imports at lines
    28-36 succeeded. *)
Record Packages := mkPackages {
  pknum  : bool;
  pkpand : bool
}.

(** A [force] argument, which the source tests with [is True] and
    [is False]. *)
Inductive ForceArg :=
| ForceBool (b : bool)
| ForceOther.                   (* any other Python value *)

Definition is_False (force : ForceArg) : bool :=
  match force with ForceBool false => true | _ => false end.

Definition is_True (force : ForceArg) : bool :=
  match force with ForceBool true => true | _ => false end.

(** The call into [numpy2stata] or [pandas2stata] that ends a loading
    function. *)
Inductive Transfer (A : Type) :=
| array_to_stata (arr : A) (stfr : option pystr) (prefix : pystr)
| dataframe_to_stata (df : A) (stfr : option pystr).
Arguments array_to_stata {A} arr stfr prefix.
Arguments dataframe_to_stata {A} df stfr.

(** What a frame loader does to the engine's frames: [stframe.drop()]
    and the transfer. *)
Inductive FrameCall (A : Type) :=
| FrameDrop (stfr : pystr)
| FrameLoad (t : Transfer A).
Arguments FrameDrop {A} stfr.
Arguments FrameLoad {A} t.

Definition numpy_required : pystr :=
  py"NumPy package is required to use this function.".
Definition pandas_required : pystr :=
  py"pandas package is required to use this function.".
Definition dataset_changed : pystr :=
  py"no; dataset in memory has changed since last saved".

Section Loading.

Variable cfg : Config.
Variable output_get_interactive_result :
  pystr -> option pystr -> bool -> Z -> pystr.
Variable compile_command : pystr -> Compile.

(** [has_num_pand] *)
Variable pk : Packages.

(** [int(sfi.Scalar.getValue('c(changed)'))] *)
Variable changed : Z.

(** Whether [sfi.Frame.connect(stfr)] returns a frame; the source turns
    every exception of it into [None]. *)
Variable Frame_connect : pystr -> bool.

Variable A : Type.

(** Lines 367-372 and 419-424, once the package is known to be there. *)
Definition clear_for_load (ins : list pystr) (force : ForceArg) : M unit :=
  if (changed =? 1) && is_False force then raise (SystemError dataset_changed)
  else if (changed =? 0) || is_True force then
    run cfg output_get_interactive_result compile_command ins (py"clear")
      false false InlineNone
  else ret tt.

(** [nparray_to_data(arr, prefix, force)]; the value returned is the
    call that ends it. *)
Definition nparray_to_data (ins : list pystr) (arr : A) (prefix : pystr)
    (force : ForceArg) : M (Transfer A) :=
  if negb (pknum pk) then raise (SystemError numpy_required)
  else
    clear_for_load ins force ;;
    ret (array_to_stata arr None prefix).

(** [pdataframe_to_data(df, force)] *)
Definition pdataframe_to_data (ins : list pystr) (df : A) (force : ForceArg)
    : M (Transfer A) :=
  if negb (pkpand pk) then raise (SystemError pandas_required)
  else
    clear_for_load ins force ;;
    ret (dataframe_to_stata df None).

(** Lines 612-622 and 672-682: the calls made before the transfer [t]. *)
Definition replace_frame (stfr : pystr) (force : ForceArg) (t : Transfer A)
    : Res (list (FrameCall A)) :=
  if Frame_connect stfr then
    if is_False force then Raise (SystemError (stfr ++ py" already exists."))
    else Ret [FrameDrop stfr; FrameLoad t]
  else Ret [FrameLoad t].

(** [nparray_to_frame(arr, stfr, prefix, force)] *)
Definition nparray_to_frame (arr : A) (stfr prefix : pystr) (force : ForceArg)
    : Res (list (FrameCall A)) :=
  if negb (pknum pk) then Raise (SystemError numpy_required)
  else replace_frame stfr force (array_to_stata arr (Some stfr) prefix).

(** [pdataframe_to_frame(df, stfr, force)] *)
Definition pdataframe_to_frame (df : A) (stfr : pystr) (force : ForceArg)
    : Res (list (FrameCall A)) :=
  if negb (pkpand pk) then Raise (SystemError pandas_required)
  else replace_frame stfr force (dataframe_to_stata df (Some stfr)).

End Loading.

(** A value of a results dictionary: what [sfi.Scalar.getValue],
    [sfi.Macro.getGlobal] and [numpy2stata.array_from_matrix] return. *)
Inductive Value (Num Arr : Type) :=
| Scalar (x : Num)
| Macro (s : pystr)
| Matrix (a : Arr).
Arguments Scalar {Num Arr} x.
Arguments Macro {Num Arr} s.
Arguments Matrix {Num Arr} a.

(** The results the engine holds, as the [sfi] calls of
    [_get_return_val] read them. *)
Record Stored (Num Arr : Type) := mkStored {
  listReturn      : pystr -> pystr -> pystr;   (* sfi.SFIToolkit.listReturn(cat, kind) *)
  Scalar_getValue : pystr -> Num;              (* sfi.Scalar.getValue(name) *)
  Macro_getGlobal : pystr -> pystr;            (* sfi.Macro.getGlobal(name) *)
  Matrix_array    : pystr -> Arr               (* array_from_matrix(sfi.Matrix.get(name)) *)
}.
Arguments listReturn {Num Arr} s _ _.
Arguments Scalar_getValue {Num Arr} s _.
Arguments Macro_getGlobal {Num Arr} s _.
Arguments Matrix_array {Num Arr} s _.

Section Returns.

Variables Num Arr : Type.

(** A Python [dict] with string keys: its items in insertion order. *)
Definition Dict : Type := list (pystr * Value Num Arr).

(** [d[k]] when [k in d] *)
Fixpoint dict_get (d : Dict) (k : pystr) : option (Value Num Arr) :=
  match d with
  | [] => None
  | (k', v) :: r => if eqb k' k then Some v else dict_get r k
  end.

(** [d[k] = v]: a key already there keeps its place. *)
Fixpoint dict_set (d : Dict) (k : pystr) (v : Value Num Arr) : Dict :=
  match d with
  | [] => [(k, v)]
  | (k', v') :: r =>
      if eqb k' k then (k', v) :: r else (k', v') :: dict_set r k v
  end.

Definition dict_keys (d : Dict) : list pystr := map fst d.

Variable st : Stored Num Arr.

(** One [for] loop of [_get_return_val]: [name = open + name + ")"],
    [res[name] = val(name)]. *)
Definition store_all (open : pystr) (val : pystr -> Value Num Arr)
    (names : list pystr) (res : Dict) : Dict :=
  fold_left (fun res name =>
               let name := open ++ name ++ py")" in
               dict_set res name (val name))
            names res.

(** The loops over one kind of one category. *)
Definition store_kind (cat open kind : pystr) (val : pystr -> Value Num Arr)
    (res : Dict) : Dict :=
  store_all open val (PyText.split (listReturn st cat kind)) res.

(** [_get_return_val(res, cat)] *)
Definition _get_return_val (res : Dict) (cat : pystr) : Dict :=
  if eqb cat (py"r()") then
    let res := store_kind (py"r()") (py"r(") (py"scalar")
                 (fun n => Scalar (Scalar_getValue st n)) res in
    let res := store_kind (py"r()") (py"r(") (py"macro")
                 (fun n => Macro (Macro_getGlobal st n)) res in
    store_kind (py"r()") (py"r(") (py"matrix")
      (fun n => Matrix (Matrix_array st n)) res
  else if eqb cat (py"e()") then
    let res := store_kind (py"e()") (py"e(") (py"scalar")
                 (fun n => Scalar (Scalar_getValue st n)) res in
    let res := store_kind (py"e()") (py"e(") (py"macro")
                 (fun n => Macro (Macro_getGlobal st n)) res in
    store_kind (py"e()") (py"e(") (py"matrix")
      (fun n => Matrix (Matrix_array st n)) res
  else
    store_kind (py"s()") (py"s(") (py"macro")
      (fun n => Macro (Macro_getGlobal st n)) res.

Variable pk : Packages.

(** [get_return()] *)
Definition get_return : Res Dict :=
  if negb (pknum pk) then Raise (SystemError numpy_required)
  else Ret (_get_return_val [] (py"r()")).

(** [get_ereturn()] *)
Definition get_ereturn : Res Dict :=
  if negb (pknum pk) then Raise (SystemError numpy_required)
  else Ret (_get_return_val [] (py"e()")).

(** [get_sreturn()] *)
Definition get_sreturn : Res Dict :=
  if negb (pknum pk) then Raise (SystemError numpy_required)
  else Ret (_get_return_val [] (py"s()")).

End Returns.

Arguments dict_get {Num Arr} d k.
Arguments dict_set {Num Arr} d k v.
Arguments dict_keys {Num Arr} d.
Arguments store_all {Num Arr} open val names res.
Arguments store_kind {Num Arr} st cat open kind val res.
Arguments _get_return_val {Num Arr} st res cat.
Arguments get_return {Num Arr} st pk.
Arguments get_ereturn {Num Arr} st pk.
Arguments get_sreturn {Num Arr} st pk.

(** The chunks of a successful call in mode 1: all but the last
    without a newline, the last with one. *)
Definition batch_outputs (buf : list pystr) : list Event :=
  match buf with
  | [] => []
  | _ => map (fun c => Output c false) (removelast buf) ++ [Output (last buf []) true]
  end.

(** [m] makes no call outside [ok], in whatever world it runs. *)
Definition emits_only {A : Type} (ok : Event -> bool) (m : M A) : Prop :=
  forall w, exists evs,
    trace (snd (m w)) = trace w ++ evs /\ forallb ok evs = true.

(** The calls a worker can make under a configuration: output is
    forwarded by the worker itself only without streaming, and the
    poller is only used with streaming. *)
Definition worker_event (c : Config) (e : Event) : bool :=
  match e with
  | Execute _ _ | SetBreak | Print _ => true
  | Output _ _ => negb (streamout c)
  | TimerStart _ _ _ _ | QueuePut _ | TimerJoin | TimerDone => streamout c
  | _ => false
  end.

(** The calls of [run] on a command that opens no session: those of a
    worker, the staging of a batch, the clearing of the buffer and the
    graph display. *)
Definition plain_event (c : Config) (e : Event) : bool :=
  match e with
  | ClearOutputBuffer | GetTempFile _ | WriteFile _ _ | GrDisplay => true
  | _ => worker_event c e
  end.

(** The calls of [run] on any command: a session also talks to the
    user. *)
Definition core_event (c : Config) (e : Event) : bool :=
  match e with
  | Input _ | Displayln _ => true
  | _ => plain_event c e
  end.

(** The calls made to the poller of streaming mode. *)
Definition is_poller_call (e : Event) : bool :=
  match e with
  | TimerStart _ _ _ _ | QueuePut _ | TimerJoin | TimerDone => true
  | _ => false
  end.

(** The calls by which a session talks to the user. *)
Definition is_dialogue (e : Event) : bool :=
  match e with
  | Input _ | Displayln _ => true
  | _ => false
  end.

(** The command opens no nested session: it is not one line that
    strips to a trigger token. *)
Definition opens_no_session (cmd : pystr) : Prop :=
  forall cmd0, splitlines cmd = [cmd0] -> is_trigger (strip cmd0) = false.

(** The separator and the prompt that open a session on the trigger
    [input_cmd] (lines 210-212 and 251-253). *)
Definition opening_of (input_cmd : pystr) : list Event :=
  if eqb input_cmd (py"mata") || eqb input_cmd (py"mata:") then
    [Print (py". " ++ input_cmd);
     Displayln (py"{hline 49} mata (type {cmd:end} to exit) {hline}");
     Input (py": ")]
  else
    [Print (py". " ++ input_cmd);
     Displayln (py"{hline 47} python (type {cmd:end} to exit) {hline}");
     Input (py">>> ")].

(** The names of the [k] temporary files taken from the world [w] on. *)
Definition fresh_names (w : World) (k : nat) : list pystr :=
  map (tempname w) (seq (ntemp w) k).

(** How many of the answers [rs] are interrupts. *)
Definition interrupts (rs : list Reply) : nat :=
  List.length (filter (fun r => match r with Interrupted => true | _ => false end) rs).

(** What [k] staged units, executed one after the other from the world
    [w] on, have done when the world is [w']: each took the next
    temporary name, wrote its file under that name, included it (with
    [qui] when [quietly]) and consumed one answer of the engine, and a
    break was requested once for each answer that was an interrupt. *)
Definition session_delta (quietly : bool) (w w' : World) (evs : list Event)
    (k : nat) : Prop :=
  trace w' = trace w ++ evs
  /\ tempname w' = tempname w
  /\ ntemp w' = (ntemp w + k)%nat
  /\ replies w' = skipn k (replies w)
  /\ temp_files evs = fresh_names w k
  /\ map fst (staged evs) = temp_files evs
  /\ executes evs
     = map (fun p => Execute (include_of quietly p) false) (temp_files evs)
  /\ breaks_requested evs = interrupts (firstn k (replies w)).




(** Stored results for the concrete runs below: the name [mean] is
    listed as a scalar and as a macro, and every macro holds
    [summarize]. *)
Definition stored_sample : Stored Z (list Z) :=
  mkStored Z (list Z)
    (fun cat kind =>
       if eqb kind (py"scalar") then py"N mean"
       else if eqb kind (py"macro") then py"  cmd   mean "
       else py"table")
    (fun _ => 74)
    (fun _ => py"summarize")
    (fun _ => [1; 2]).

(* ===================================================================== *)
(** ** Facts about strings and traces                                     *)
(* ===================================================================== *)

Lemma eqb_eq (a b : pystr) : eqb a b = true <-> a = b.
Proof.
  revert b; induction a as [|x a IH]; intros [|y b]; simpl; split; intro H;
    try reflexivity; try discriminate.
  - apply andb_true_iff in H as [Hx Hab].
    apply N.eqb_eq in Hx. apply IH in Hab. congruence.
  - inversion H; subst. rewrite N.eqb_refl. simpl. now apply IH.
Qed.

Lemma eqb_neq (a b : pystr) : eqb a b = false <-> a <> b.
Proof.
  split.
  - intros H E. apply eqb_eq in E. congruence.
  - intro H. destruct (eqb a b) eqn:E; [|reflexivity].
    apply eqb_eq in E. contradiction.
Qed.

Example splitlines_three :
  splitlines (py"line1" ++ NL ++ py"line2" ++ [13%N; 10%N] ++ py"line3")
  = [py"line1"; py"line2"; py"line3"].
Proof. reflexivity. Qed.

Example strip_end : strip ([32%N; 9%N] ++ py"end" ++ [32%N; 10%N]) = py"end".
Proof. reflexivity. Qed.

Example splitlines_empty : splitlines [] = [].
Proof. reflexivity. Qed.

(** The specification's first scenario: one command, one [Execute], the
    output forwarded as one chunk. *)
Example run_display :
  let r := run blocking plain_result open_paren_check [] (py"display 1+1") false false
             InlineNone (world_of [Returns 0 [py"2"]] 0) in
  fst r = Ret tt
  /\ trace (snd r)
     = [ClearOutputBuffer; Execute (py"display 1+1") false; Output (py"2") false].
Proof. split; reflexivity. Qed.

(** The third scenario: [end] at the first prompt of a mata session. *)
Example run_mata_end :
  let r := run blocking plain_result open_paren_check [py"end"] (py"mata") false false
             InlineNone (world_of [] 0) in
  fst r = Ret tt
  /\ staged (trace (snd r)) = []
  /\ trace (snd r)
     = [ClearOutputBuffer; Print (py". mata");
        Displayln (py"{hline 49} mata (type {cmd:end} to exit) {hline}");
        Input (py": "); Displayln (py"{hline}")].
Proof. repeat split; reflexivity. Qed.

(** The fifth scenario: a failing single-line command raises with the
    captured output, and the rest of the buffer is not polled. *)
Example run_error_498 :
  let r := run blocking plain_result open_paren_check [] (py"display x") false false
             InlineNone (world_of [Returns 498 [py"x not found"; py"r(498);"]] 0) in
  fst r = Raise (SystemError (py"x not found"))
  /\ outbuf (snd r) = [py"r(498);"].
Proof. split; reflexivity. Qed.

(** A non-boolean [inline] is refused before any call is made. *)
Example run_inline_type_error :
  run blocking plain_result open_paren_check [] (py"display 1") false false
    InlineOther (world_of [] 0)
  = (Raise (TypeError (py"inline must be a boolean value")), world_of [] 0).
Proof. reflexivity. Qed.

(** A python block typed in two lines is staged as one unit. *)
Example run_python_block :
  let r := run blocking plain_result open_paren_check
             [py"f("; py"  1)"; py"end"] (py"python") false false
             InlineNone (world_of [] 0) in
  fst r = Ret tt
  /\ staged (trace (snd r))
     = [(py"/tmp/St0",
         py"python" ++ NL ++ py"f(" ++ NL ++ py"  1)" ++ NL ++ py"end")].
Proof. split; reflexivity. Qed.

Lemma trace_record e w : trace (record e w) = trace w ++ [e].
Proof. reflexivity. Qed.

Lemma is_output_aftermath post :
  forallb is_output post = true -> forallb is_aftermath post = true.
Proof.
  induction post as [|e post IH]; simpl; [reflexivity|].
  intro H. apply andb_true_iff in H as [He Hp].
  destruct e; try discriminate. simpl. now apply IH.
Qed.

Lemma bind_eq {A B} (m : M A) (k : A -> M B) (w : World) :
  bind m k w = match m w with
               | (Ret a, w') => k a w'
               | (Raise e, w') => (Raise e, w')
               end.
Proof. reflexivity. Qed.

Lemma aftermath_quiet post :
  forallb is_aftermath post = true ->
  executes post = [] /\ gateway_calls post = []
  /\ staged post = [] /\ temp_files post = [].
Proof.
  induction post as [|e post IH]; simpl; [auto|].
  intro H. apply andb_true_iff in H as [He Hp].
  destruct (IH Hp) as (H1 & H2 & H3 & H4).
  unfold executes, gateway_calls, staged, temp_files in *. simpl.
  destruct e; try discriminate; simpl; auto.
Qed.

Ltac norm_trace := simpl; repeat rewrite <- app_assoc; simpl.

Section WorkerFacts.

Variable cfg : Config.
Variable igr : pystr -> option pystr -> bool -> Z -> pystr.

(** The drain of [_stata_wrk1] forwards output when the call succeeded
    and raises at once when it failed. *)
Lemma wrk1_drain_spec rc buf w :
  exists post,
    trace (snd (wrk1_drain rc buf w)) = trace w ++ post
    /\ forallb is_output post = true
    /\ rc2 (snd (wrk1_drain rc buf w)) = rc2 w
    /\ (rc = 0 -> fst (wrk1_drain rc buf w) = Ret tt)
    /\ (rc <> 0 -> post = []
                   /\ exists msg, fst (wrk1_drain rc buf w) = Raise (SystemError msg)).
Proof.
  revert w. induction buf as [|output rest IH]; intro w; simpl.
  - exists []. rewrite app_nil_r.
    destruct (Z.eqb_spec rc 0) as [E|E]; simpl;
      (split; [reflexivity|split; [reflexivity|split; [reflexivity|split]]]);
      intro; try contradiction; eauto.
  - destruct (is_empty output).
    + exists []. rewrite app_nil_r.
      destruct (Z.eqb_spec rc 0) as [E|E]; simpl;
        (split; [reflexivity|split; [reflexivity|split; [reflexivity|split]]]);
        intro; try contradiction; eauto.
    + destruct (Z.eqb_spec rc 0) as [E|E]; simpl.
      * destruct (IH (record (Output output false) (set_outbuf rest w)))
          as (post & Ht & Ho & Hr & Hz & Hnz).
        exists (Output output false :: post). rewrite Ht. simpl.
        rewrite <- app_assoc. simpl.
        split; [reflexivity|split; [assumption|split; [assumption|split]]];
          intro; try contradiction; auto.
      * exists []. rewrite app_nil_r.
        (split; [reflexivity|split; [reflexivity|split; [reflexivity|split]]]);
          intro; try contradiction; eauto.
Qed.

(** The drain of [_stata_wrk2] only forwards output. *)
Lemma wrk2_drain_spec real_cmd colon mode output buf w :
  exists post,
    trace (snd (wrk2_drain igr real_cmd colon mode output buf w)) = trace w ++ post
    /\ forallb is_output post = true
    /\ rc2 (snd (wrk2_drain igr real_cmd colon mode output buf w)) = rc2 w
    /\ fst (wrk2_drain igr real_cmd colon mode output buf w) = Ret tt.
Proof.
  revert output w. induction buf as [|tmp rest IH]; intros output w; simpl.
  - destruct (is_empty output); simpl.
    + exists []. now rewrite app_nil_r.
    + eexists [_]. repeat split.
      unfold wrk2_print. now destruct (negb (mode =? 1)).
  - destruct (is_empty output); simpl.
    + exists []. now rewrite app_nil_r.
    + destruct (is_empty tmp); simpl.
      * eexists [_]. repeat split.
        unfold wrk2_print. now destruct (negb (mode =? 1)).
      * destruct (IH tmp (record (wrk2_print igr real_cmd colon mode output false)
                                 (set_outbuf rest w)))
          as (post & Ht & Ho & Hr & Hf).
        exists (wrk2_print igr real_cmd colon mode output false :: post).
        rewrite Ht, Hr, Hf. simpl. rewrite <- app_assoc. simpl.
        repeat split; auto.
        unfold wrk2_print at 1. now destruct (negb (mode =? 1)).
Qed.

(** [_stata_wrk1] when its [Execute] is interrupted. *)
Lemma wrk1_interrupted cmd echo w :
  next_reply w = Interrupted ->
  fst (_stata_wrk1 cfg cmd echo w) = Ret tt
  /\ trace (snd (_stata_wrk1 cfg cmd echo w))
     = trace w ++ timer_of cfg 1 None None None
               ++ Execute cmd echo :: interrupt_handling cfg
  /\ rc2 (snd (_stata_wrk1 cfg cmd echo w)) = rc2 w.
Proof.
  intro H. unfold _stata_wrk1, timer_of, interrupt_handling.
  destruct (streamout cfg);
    unfold try_except_KeyboardInterrupt, bind, log, StataSO_SetBreak,
      StataSO_Execute, log, next_reply in *; simpl; rewrite H; simpl;
    norm_trace; auto.
Qed.

(** [_stata_wrk2] when its [Execute] is interrupted: [rc2] keeps the
    value it had. *)
Lemma wrk2_interrupted cmd real_cmd colon mode w :
  next_reply w = Interrupted ->
  fst (_stata_wrk2 cfg igr cmd real_cmd colon mode w) = Ret tt
  /\ trace (snd (_stata_wrk2 cfg igr cmd real_cmd colon mode w))
     = trace w ++ timer_of cfg 2 real_cmd (Some colon) (Some mode)
               ++ Execute cmd false :: interrupt_handling cfg
  /\ rc2 (snd (_stata_wrk2 cfg igr cmd real_cmd colon mode w)) = rc2 w.
Proof.
  intro H. unfold _stata_wrk2, timer_of, interrupt_handling.
  destruct (streamout cfg);
    unfold try_except_KeyboardInterrupt, bind, log, StataSO_SetBreak,
      StataSO_Execute, log, next_reply in *; simpl; rewrite H; simpl;
    norm_trace; auto.
Qed.

(** [_stata_wrk1] when its [Execute] returns [rc]. *)
Lemma wrk1_returns cmd echo w rc chunks :
  next_reply w = Returns rc chunks ->
  exists post,
    trace (snd (_stata_wrk1 cfg cmd echo w))
    = trace w ++ timer_of cfg 1 None None None ++ Execute cmd echo :: post
    /\ forallb is_aftermath post = true
    /\ rc2 (snd (_stata_wrk1 cfg cmd echo w)) = rc2 w
    /\ (streamout cfg = true ->
        post = [QueuePut rc; TimerJoin; TimerDone]
        /\ fst (_stata_wrk1 cfg cmd echo w) = Ret tt)
    /\ (streamout cfg = false ->
        forallb is_output post = true
        /\ (rc = 0 -> fst (_stata_wrk1 cfg cmd echo w) = Ret tt)
        /\ (rc <> 0 ->
            post = []
            /\ exists msg, fst (_stata_wrk1 cfg cmd echo w) = Raise (SystemError msg))).
Proof.
  intro H. unfold _stata_wrk1, timer_of.
  destruct (streamout cfg);
    unfold try_except_KeyboardInterrupt, bind, log, StataSO_Execute,
      next_reply in *; simpl; rewrite H; simpl.
  - eexists. norm_trace. split; [reflexivity|].
    split; [reflexivity|]. split; [reflexivity|].
    split; [auto | discriminate].
  - match goal with |- context [wrk1_drain rc ?b ?w1] =>
      destruct (wrk1_drain_spec rc b w1) as (post & Ht & Ho & Hr & Hz & Hnz);
      destruct (wrk1_drain rc b w1) as [[[]|e] w2] eqn:Ed
    end; simpl in *.
    + exists post. rewrite Ht. norm_trace.
      split; [reflexivity|]. split; [now apply is_output_aftermath|].
      split; [assumption|]. split; [discriminate|].
      intros _. split; [assumption|]. split; [reflexivity|].
      intro Hrc. destruct (Hnz Hrc) as (_ & msg & Hm). discriminate.
    + assert (Hrc : rc <> 0) by (intro E; specialize (Hz E); discriminate).
      destruct (Hnz Hrc) as (Hp & msg & Hm). inversion Hm; subst e. simpl.
      exists post. rewrite Ht. norm_trace.
      split; [reflexivity|]. split; [now apply is_output_aftermath|].
      split; [assumption|]. split; [discriminate|].
      intros _. split; [assumption|]. split; [contradiction|].
      intros _. split; [assumption|]. now exists msg.
Qed.

(** [_stata_wrk2] when its [Execute] returns [rc]. *)
Lemma wrk2_returns cmd real_cmd colon mode w rc chunks :
  next_reply w = Returns rc chunks ->
  exists post,
    trace (snd (_stata_wrk2 cfg igr cmd real_cmd colon mode w))
    = trace w ++ timer_of cfg 2 real_cmd (Some colon) (Some mode)
              ++ Execute cmd false :: post
    /\ forallb is_aftermath post = true
    /\ rc2 (snd (_stata_wrk2 cfg igr cmd real_cmd colon mode w)) = rc
    /\ (streamout cfg = true ->
        post = [QueuePut rc; TimerJoin; TimerDone]
        /\ fst (_stata_wrk2 cfg igr cmd real_cmd colon mode w) = Ret tt)
    /\ (streamout cfg = false ->
        forallb is_output post = true
        /\ (rc = 3000 ->
            post = [] /\ fst (_stata_wrk2 cfg igr cmd real_cmd colon mode w) = Ret tt)
        /\ (rc = 0 -> fst (_stata_wrk2 cfg igr cmd real_cmd colon mode w) = Ret tt)
        /\ (mode <> 1 -> fst (_stata_wrk2 cfg igr cmd real_cmd colon mode w) = Ret tt)
        /\ (rc <> 0 -> rc <> 3000 -> mode = 1 ->
            post = []
            /\ fst (_stata_wrk2 cfg igr cmd real_cmd colon mode w)
               = Raise (SystemError (hd [] (outbuf w ++ chunks))))).
Proof.
  intro H. unfold _stata_wrk2, timer_of.
  destruct (streamout cfg);
    unfold try_except_KeyboardInterrupt, bind, log, StataSO_Execute, set_rc2,
      get_output, _print_no_streaming_output, log, raise, ret, next_reply in *;
    simpl; rewrite H; simpl.
  - eexists. norm_trace. split; [reflexivity|].
    split; [reflexivity|]. split; [reflexivity|].
    split; [auto | discriminate].
  - destruct (Z.eqb_spec rc 0) as [E0|E0]; simpl.
    + (* success: the drain loop *)
      destruct (outbuf w ++ chunks) as [|output buf]; simpl.
      * exists []. norm_trace.
        (split; [reflexivity|]); (split; [reflexivity|]);
        (split; [reflexivity|]); (split; [discriminate|]);
        intros _; (split; [reflexivity|]);
        (split; [intro; subst rc; discriminate|]);
        (split; [reflexivity|]); (split; [reflexivity|]);
        intros; contradiction.
      * match goal with |- context [wrk2_drain igr ?r ?c ?m ?o ?b ?w1] =>
          destruct (wrk2_drain_spec r c m o b w1) as (post & Ht & Ho & Hr & Hf);
          destruct (wrk2_drain igr r c m o b w1) as [[[]|e] w2] eqn:Ed
        end; simpl in *; try discriminate;
        exists post; rewrite Ht; norm_trace;
        (split; [reflexivity|]); (split; [now apply is_output_aftermath|]);
        (split; [assumption|]); (split; [discriminate|]);
        intros _; (split; [assumption|]);
        (split; [intro; subst rc; discriminate|]);
        (split; [reflexivity|]); (split; [reflexivity|]);
        intros; contradiction.
    + destruct (Z.eqb_spec rc 3000) as [E3|E3]; simpl.
      * (* the continuation code: nothing printed, nothing raised *)
        exists [].
        destruct (outbuf w ++ chunks) as [|output buf]; simpl;
          (split; [reflexivity|]); (split; [reflexivity|]);
          (split; [reflexivity|]); (split; [discriminate|]);
          intros _; (split; [reflexivity|]); (split; [auto|]);
          (split; [reflexivity|]); (split; [reflexivity|]);
          intros; contradiction.
      * destruct (Z.eqb_spec mode 1) as [E1|E1]; simpl.
        -- exists [].
           destruct (outbuf w ++ chunks) as [|output buf]; simpl;
             (split; [reflexivity|]); (split; [reflexivity|]);
             (split; [reflexivity|]); (split; [discriminate|]);
             intros _; (split; [reflexivity|]);
             (split; [intro; contradiction|]);
             (split; [intro; contradiction|]);
             (split; [intro; contradiction|]); auto.
        -- destruct (outbuf w ++ chunks) as [|output buf]; simpl;
             eexists [_]; norm_trace;
             (split; [reflexivity|]); (split; [reflexivity|]);
             (split; [reflexivity|]); (split; [discriminate|]);
             intros _; (split; [reflexivity|]);
             (split; [intro; contradiction|]);
             (split; [intro; contradiction|]);
             (split; [reflexivity|]); intros; contradiction.
Qed.

(** Whatever the engine answers, [_stata_wrk1] issues one [Execute]
    and either returns or raises [SystemError]. *)
Lemma wrk1_shape cmd echo w :
  exists post,
    trace (snd (_stata_wrk1 cfg cmd echo w))
    = trace w ++ timer_of cfg 1 None None None ++ Execute cmd echo :: post
    /\ forallb is_aftermath post = true
    /\ (fst (_stata_wrk1 cfg cmd echo w) = Ret tt
        \/ exists msg, fst (_stata_wrk1 cfg cmd echo w) = Raise (SystemError msg)).
Proof.
  destruct (next_reply w) as [rc chunks|] eqn:Hr.
  - destruct (wrk1_returns cmd echo w rc chunks Hr)
      as (post & Ht & Ha & _ & Hs & Hb).
    exists post. split; [assumption|]. split; [assumption|].
    destruct (streamout cfg) eqn:Es.
    + left. now apply Hs.
    + destruct (Hb eq_refl) as (_ & Hz & Hnz).
      destruct (Z.eq_dec rc 0) as [E|E]; [left; auto|right].
      now destruct (Hnz E).
  - destruct (wrk1_interrupted cmd echo w Hr) as (Hf & Ht & _).
    exists (interrupt_handling cfg). split; [assumption|].
    split; [|now left].
    unfold interrupt_handling. now destruct (streamout cfg).
Qed.

(** The same for [_stata_wrk2]; in the modes of a nested session it
    always returns. *)
Lemma wrk2_shape cmd real_cmd colon mode w :
  exists post,
    trace (snd (_stata_wrk2 cfg igr cmd real_cmd colon mode w))
    = trace w ++ timer_of cfg 2 real_cmd (Some colon) (Some mode)
              ++ Execute cmd false :: post
    /\ forallb is_aftermath post = true
    /\ (fst (_stata_wrk2 cfg igr cmd real_cmd colon mode w) = Ret tt
        \/ exists msg,
             fst (_stata_wrk2 cfg igr cmd real_cmd colon mode w)
             = Raise (SystemError msg))
    /\ (mode <> 1 -> fst (_stata_wrk2 cfg igr cmd real_cmd colon mode w) = Ret tt).
Proof.
  destruct (next_reply w) as [rc chunks|] eqn:Hr.
  - destruct (wrk2_returns cmd real_cmd colon mode w rc chunks Hr)
      as (post & Ht & Ha & _ & Hs & Hb).
    exists post. split; [assumption|]. split; [assumption|].
    destruct (streamout cfg) eqn:Es.
    + destruct (Hs eq_refl) as (_ & Hf). split; [now left | auto].
    + destruct (Hb eq_refl) as (_ & H3 & Hz & Hm & He).
      split; [|assumption].
      destruct (Z.eq_dec mode 1) as [E1|E1]; [|left; auto].
      destruct (Z.eq_dec rc 0) as [E0|E0]; [left; auto|].
      destruct (Z.eq_dec rc 3000) as [E3|E3]; [left; now apply H3|].
      right. destruct (He E0 E3 E1) as (_ & Hx). eauto.
  - destruct (wrk2_interrupted cmd real_cmd colon mode w Hr) as (Hf & Ht & _).
    exists (interrupt_handling cfg). split; [assumption|].
    split; [|split; [now left | auto]].
    unfold interrupt_handling. now destruct (streamout cfg).
Qed.

(** A worker that raises [SystemError] has done nothing but execute
    the command. *)
Lemma wrk1_error cmd echo w msg :
  fst (_stata_wrk1 cfg cmd echo w) = Raise (SystemError msg) ->
  trace (snd (_stata_wrk1 cfg cmd echo w)) = trace w ++ [Execute cmd echo].
Proof.
  intro He. destruct (next_reply w) as [rc chunks|] eqn:Hr.
  - destruct (wrk1_returns cmd echo w rc chunks Hr)
      as (post & Ht & _ & _ & Hon & Hoff).
    unfold timer_of in Ht.
    destruct (streamout cfg) eqn:Es.
    + destruct (Hon eq_refl) as (_ & Hf). congruence.
    + destruct (Hoff eq_refl) as (_ & Hz & Hnz).
      destruct (Z.eq_dec rc 0) as [E|E]; [specialize (Hz E); congruence|].
      destruct (Hnz E) as (Hp & _). subst post. exact Ht.
  - destruct (wrk1_interrupted cmd echo w Hr) as (Hf & _). congruence.
Qed.

Lemma wrk2_error cmd real_cmd colon mode w msg :
  fst (_stata_wrk2 cfg igr cmd real_cmd colon mode w) = Raise (SystemError msg) ->
  trace (snd (_stata_wrk2 cfg igr cmd real_cmd colon mode w))
  = trace w ++ [Execute cmd false].
Proof.
  intro He. destruct (next_reply w) as [rc chunks|] eqn:Hr.
  - destruct (wrk2_returns cmd real_cmd colon mode w rc chunks Hr)
      as (post & Ht & _ & _ & Hon & Hoff).
    unfold timer_of in Ht.
    destruct (streamout cfg) eqn:Es.
    + destruct (Hon eq_refl) as (_ & Hf). congruence.
    + destruct (Hoff eq_refl) as (_ & H3 & Hz & Hm & Hx).
      destruct (Z.eq_dec rc 0) as [E0|E0]; [specialize (Hz E0); congruence|].
      destruct (Z.eq_dec rc 3000) as [E3|E3];
        [destruct (H3 E3) as (_ & Hf); congruence|].
      destruct (Z.eq_dec mode 1) as [E1|E1]; [|specialize (Hm E1); congruence].
      destruct (Hx E0 E3 E1) as (Hp & _). subst post. exact Ht.
  - destruct (wrk2_interrupted cmd real_cmd colon mode w Hr) as (Hf & _). congruence.
Qed.

End WorkerFacts.

Section SessionFacts.

Variable cfg : Config.
Variable igr : pystr -> option pystr -> bool -> Z -> pystr.
Variable cc : pystr -> Compile.

Lemma trace_with_staging content w :
  trace (with_staging content w)
  = trace w ++ [GetTempFile (tempname w (ntemp w));
                WriteFile (tempname w (ntemp w)) content].
Proof. unfold with_staging. rewrite trace_record. simpl. now rewrite <- app_assoc. Qed.

(** Staging a unit is: take a name, write the file, include it. *)
Lemma stage_and_include_eq quietly input_cmd src transcript has_colon mode w :
  stage_and_include cfg igr quietly input_cmd src transcript has_colon mode w
  = _stata_wrk2 cfg igr (include_of quietly (tempname w (ntemp w)))
      (Some transcript) has_colon mode
      (with_staging (input_cmd ++ NL ++ src ++ py"end") w).
Proof.
  unfold stage_and_include, include_of, bind, getTempFile, log.
  destruct quietly; reflexivity.
Qed.

(** After the unit has been executed a mata turn looks at [rc2] only. *)
Lemma mata_turn_eq quietly input_cmd has_colon incmd a w :
  let src := incmds1 a ++ incmd ++ NL in
  let transcript := incmds2 a ++ inprompt a ++ incmd ++ NL in
  let r := stage_and_include cfg igr quietly input_cmd src transcript has_colon 2 w in
  mata_turn cfg igr quietly input_cmd has_colon incmd a w
  = match fst r with
    | Ret _ =>
        (Ret (if negb (rc2 (snd r) =? 0) then
                if negb (rc2 (snd r) =? 3000) then Break
                else Ask (py"> ") (mkAcc src transcript (py"> "))
              else Ask (py": ") (fresh_acc (py": "))),
         snd r)
    | Raise e => (Raise e, snd r)
    end.
Proof.
  intros src transcript r. unfold mata_turn, bind, get_rc2, ret.
  fold src. fold transcript. fold r.
  destruct r as [[[]|e] w']; simpl; [|reflexivity].
  destruct (negb (rc2 w' =? 0)); [destruct (negb (rc2 w' =? 3000))|]; reflexivity.
Qed.

(** Behind a session prompt the line never starts with ["stata:"]:
    the test of line 262 reads the line after the prompt has been put
    in front of it. *)
Lemma stata_prefix_never_matches a incmd :
  inprompt a = py">>> " \/ inprompt a = py"... " ->
  eqb (prefix 6 (inprompt a ++ incmd)) (py"stata:") = false.
Proof. intros [H|H]; rewrite H; reflexivity. Qed.

Lemma python_turn_eq quietly input_cmd has_colon incmd a w :
  inprompt a = py">>> " \/ inprompt a = py"... " ->
  let src := incmds1 a ++ incmd in
  let transcript := incmds2 a ++ inprompt a ++ incmd in
  python_turn cfg igr cc quietly input_cmd has_colon incmd a w
  = match cc src with
    | NoneIncomplete =>
        (Ret (Ask (py"... ") (mkAcc (src ++ NL) (transcript ++ NL) (py"... "))), w)
    | CodeObject =>
        python_execute cfg igr quietly input_cmd has_colon (src ++ NL) (transcript ++ NL) w
    | Raises _ =>
        python_execute cfg igr quietly input_cmd has_colon src transcript w
    end.
Proof.
  intros Hp src transcript. subst src transcript. unfold python_turn.
  rewrite (stata_prefix_never_matches a incmd Hp). simpl negb. cbv iota.
  destruct (cc (incmds1 a ++ incmd)); try reflexivity;
    unfold python_execute, bind, get_rc2, ret;
    change (negb false) with true; cbv beta iota zeta;
    match goal with |- context [stage_and_include ?c ?i ?q ?ic ?s ?t ?h ?m ?w] =>
      destruct (stage_and_include c i q ic s t h m w) as [[[]|ex] w']
    end; simpl; try reflexivity;
    destruct (negb (rc2 w' =? 0)); reflexivity.
Qed.

(** The prompts of a python session are its two prompts, at every
    turn: the session starts at [">>> "] and a turn hands on one of
    the two. *)
Lemma python_turn_prompt quietly input_cmd has_colon incmd a w prompt a' :
  inprompt a = py">>> " \/ inprompt a = py"... " ->
  fst (python_turn cfg igr cc quietly input_cmd has_colon incmd a w)
  = Ret (Ask prompt a') ->
  inprompt a' = prompt /\ (prompt = py">>> " \/ prompt = py"... ").
Proof.
  intros Hp. rewrite (python_turn_eq quietly input_cmd has_colon incmd a w Hp).
  cbv zeta. unfold python_execute.
  destruct (cc (incmds1 a ++ incmd));
    try match goal with |- context [stage_and_include ?c ?i ?q ?ic ?s ?t ?h ?m ?w] =>
      destruct (stage_and_include c i q ic s t h m w) as [[[]|ex] w']
    end; cbn [fst snd];
    try destruct (negb (rc2 w' =? 0));
    intro H; inversion H; subst; auto.
Qed.

(** The calls of a staged unit, whatever the engine answers. *)
Lemma stage_and_include_shape quietly input_cmd src transcript has_colon mode w :
  let p := tempname w (ntemp w) in
  let r := stage_and_include cfg igr quietly input_cmd src transcript has_colon mode w in
  exists post,
    trace (snd r)
    = trace w ++ [GetTempFile p; WriteFile p (input_cmd ++ NL ++ src ++ py"end")]
              ++ timer_of cfg 2 (Some transcript) (Some has_colon) (Some mode)
              ++ Execute (include_of quietly p) false :: post
    /\ forallb is_aftermath post = true
    /\ (mode <> 1 -> fst r = Ret tt).
Proof.
  intros p r. subst r. rewrite stage_and_include_eq.
  destruct (wrk2_shape cfg igr (include_of quietly (tempname w (ntemp w)))
              (Some transcript) has_colon mode
              (with_staging (input_cmd ++ NL ++ src ++ py"end") w))
    as (post & Ht & Ha & _ & Hm).
  exists post. rewrite Ht, trace_with_staging. subst p.
  rewrite <- app_assoc. auto.
Qed.

(** A staged unit whose [Execute] is interrupted. *)
Lemma stage_and_include_interrupted quietly input_cmd src transcript has_colon mode w :
  next_reply w = Interrupted ->
  let r := stage_and_include cfg igr quietly input_cmd src transcript has_colon mode w in
  fst r = Ret tt /\ rc2 (snd r) = rc2 w.
Proof.
  intros H r. subst r. rewrite stage_and_include_eq.
  destruct (wrk2_interrupted cfg igr (include_of quietly (tempname w (ntemp w)))
              (Some transcript) has_colon mode
              (with_staging (input_cmd ++ NL ++ src ++ py"end") w) H)
    as (Hf & _ & Hr).
  split; assumption.
Qed.

(** A turn of a session returns whenever its staged unit does. *)
Lemma python_turn_returns quietly input_cmd has_colon incmd a w :
  (forall src transcript,
      fst (stage_and_include cfg igr quietly input_cmd src transcript has_colon 3 w)
      = Ret tt) ->
  exists nx, fst (python_turn cfg igr cc quietly input_cmd has_colon incmd a w) = Ret nx.
Proof.
  intro H. unfold python_turn.
  destruct (negb (eqb (prefix 6 (inprompt a ++ incmd)) (py"stata:")));
    [destruct (cc (incmds1 a ++ incmd))|]; cbv beta iota zeta;
    try (eexists; reflexivity);
    unfold bind, get_rc2, ret;
    match goal with |- context [stage_and_include ?c ?i ?q ?ic ?s ?t ?h ?m ?w] =>
      specialize (H s t);
      destruct (stage_and_include c i q ic s t h m w) as [[[]|ex] w']
    end; simpl in *; try discriminate;
    destruct (negb (rc2 w' =? 0)); eexists; reflexivity.
Qed.

End SessionFacts.

Section RunFacts.

Variable cfg : Config.
Variable igr : pystr -> option pystr -> bool -> Z -> pystr.
Variable cc : pystr -> Compile.

Lemma mata_loop_unfold quietly input_cmd has_colon ins incmd a :
  mata_loop cfg igr quietly input_cmd has_colon ins incmd a
  = if eqb incmd (py"end") then log (Displayln (py"{hline}"))
    else
      (nx <- mata_turn cfg igr quietly input_cmd has_colon incmd a ;
       match nx with
       | Break => ret tt
       | Ask prompt a' =>
           match ins with
           | [] => l <- _get_user_input prompt None ; ret tt
           | l :: ins' =>
               l <- _get_user_input prompt (Some l) ;
               mata_loop cfg igr quietly input_cmd has_colon ins' (strip l) a'
           end
       end).
Proof. destruct ins; reflexivity. Qed.

Lemma python_loop_unfold quietly input_cmd has_colon ins incmd a :
  python_loop cfg igr cc quietly input_cmd has_colon ins incmd a
  = if eqb incmd (py"end") then log (Displayln (py"{hline}"))
    else
      (nx <- python_turn cfg igr cc quietly input_cmd has_colon incmd a ;
       match nx with
       | Break => ret tt
       | Ask prompt a' =>
           match ins with
           | [] => l <- _get_user_input prompt None ; ret tt
           | l :: ins' =>
               l <- _get_user_input prompt (Some l) ;
               python_loop cfg igr cc quietly input_cmd has_colon ins' l a'
           end
       end).
Proof. destruct ins; reflexivity. Qed.

(** A mata turn stages its unit, includes it and returns. *)
Lemma mata_turn_shape quietly input_cmd has_colon incmd a w :
  let p := tempname w (ntemp w) in
  let r := mata_turn cfg igr quietly input_cmd has_colon incmd a w in
  exists nx post,
    fst r = Ret nx
    /\ trace (snd r)
       = trace w
           ++ [GetTempFile p;
               WriteFile p (input_cmd ++ NL ++ (incmds1 a ++ incmd ++ NL) ++ py"end")]
           ++ timer_of cfg 2 (Some (incmds2 a ++ inprompt a ++ incmd ++ NL))
                (Some has_colon) (Some 2)
           ++ Execute (include_of quietly p) false :: post
    /\ forallb is_aftermath post = true.
Proof.
  intros p r. subst r. rewrite mata_turn_eq. cbv zeta.
  destruct (stage_and_include_shape cfg igr quietly input_cmd
              (incmds1 a ++ incmd ++ NL) (incmds2 a ++ inprompt a ++ incmd ++ NL)
              has_colon 2 w) as (post & Ht & Ha & Hm).
  cbv zeta in *. rewrite Hm by lia. simpl.
  eexists. exists post. split; [reflexivity|]. split; assumption.
Qed.

(** A python turn returns, and what it has done lies behind the
    trace it found. *)
Lemma python_turn_total quietly input_cmd has_colon incmd a w :
  let r := python_turn cfg igr cc quietly input_cmd has_colon incmd a w in
  exists nx evs, fst r = Ret nx /\ trace (snd r) = trace w ++ evs.
Proof.
  intro r. subst r. unfold python_turn.
  destruct (negb (eqb (prefix 6 (inprompt a ++ incmd)) (py"stata:")));
    [destruct (cc (incmds1 a ++ incmd))|]; cbv beta iota zeta;
    try (eexists; exists []; rewrite app_nil_r; split; reflexivity);
    unfold bind, get_rc2, ret;
    match goal with |- context [stage_and_include ?c ?i ?q ?ic ?s ?t ?h ?m ?w] =>
      destruct (stage_and_include_shape c i q ic s t h m w) as (post & Ht & _ & Hm);
      cbv zeta in Ht, Hm; specialize (Hm ltac:(lia));
      destruct (stage_and_include c i q ic s t h m w) as [[[]|ex] w']
    end; simpl in *; try discriminate;
    destruct (negb (rc2 w' =? 0)); simpl; eexists; eexists;
    (split; [reflexivity | exact Ht]).
Qed.

(** A session loop returns or stops at the end of the input; it never
    raises [SystemError]. *)
Lemma mata_loop_total quietly input_cmd has_colon ins :
  forall incmd a w,
    let r := mata_loop cfg igr quietly input_cmd has_colon ins incmd a w in
    exists evs,
      trace (snd r) = trace w ++ evs
      /\ (fst r = Ret tt \/ fst r = Raise EOFError).
Proof.
  induction ins as [|l ins IH]; intros incmd a w r; subst r;
    rewrite mata_loop_unfold;
    (destruct (eqb incmd (py"end"));
     [eexists [_]; split; [reflexivity | left; reflexivity]|]);
    rewrite (bind_eq (mata_turn cfg igr quietly input_cmd has_colon incmd a));
    destruct (mata_turn_shape quietly input_cmd has_colon incmd a w)
      as (nx & post & Hf & Ht & _); cbv zeta in Hf, Ht;
    destruct (mata_turn cfg igr quietly input_cmd has_colon incmd a w)
      as [[nx'|ex] w1]; simpl in Hf, Ht; try discriminate;
    destruct nx' as [|prompt a'].
  - eexists; split; [exact Ht | left; reflexivity].
  - eexists. split; [|right; reflexivity].
    unfold bind, _get_user_input, log, raise. simpl. rewrite Ht.
    rewrite <- app_assoc. reflexivity.
  - eexists; split; [exact Ht | left; reflexivity].
  - unfold bind, _get_user_input, log, ret. simpl.
    destruct (IH (strip l) a' (record (Input prompt) w1)) as (evs & He & Hr).
    cbv zeta in He, Hr. eexists. split; [|exact Hr].
    rewrite He, trace_record, Ht. rewrite <- !app_assoc. reflexivity.
Qed.

Lemma python_loop_total quietly input_cmd has_colon ins :
  forall incmd a w,
    let r := python_loop cfg igr cc quietly input_cmd has_colon ins incmd a w in
    exists evs,
      trace (snd r) = trace w ++ evs
      /\ (fst r = Ret tt \/ fst r = Raise EOFError).
Proof.
  induction ins as [|l ins IH]; intros incmd a w r; subst r;
    rewrite python_loop_unfold;
    (destruct (eqb incmd (py"end"));
     [eexists [_]; split; [reflexivity | left; reflexivity]|]);
    rewrite (bind_eq (python_turn cfg igr cc quietly input_cmd has_colon incmd a));
    destruct (python_turn_total quietly input_cmd has_colon incmd a w)
      as (nx & evs0 & Hf & Ht); cbv zeta in Hf, Ht;
    destruct (python_turn cfg igr cc quietly input_cmd has_colon incmd a w)
      as [[nx'|ex] w1]; simpl in Hf, Ht; try discriminate;
    destruct nx' as [|prompt a'].
  - eexists; split; [exact Ht | left; reflexivity].
  - eexists. split; [|right; reflexivity].
    unfold bind, _get_user_input, log, raise. simpl. rewrite Ht.
    rewrite <- app_assoc. reflexivity.
  - eexists; split; [exact Ht | left; reflexivity].
  - unfold bind, _get_user_input, log, ret. simpl.
    destruct (IH l a' (record (Input prompt) w1)) as (evs & He & Hr).
    cbv zeta in He, Hr. eexists. split; [|exact Hr].
    rewrite He, trace_record, Ht. rewrite <- !app_assoc. reflexivity.
Qed.

Lemma is_trigger_false input_cmd :
  is_trigger input_cmd = false ->
  eqb input_cmd (py"mata") || eqb input_cmd (py"mata:") = false
  /\ eqb input_cmd (py"python") || eqb input_cmd (py"python:") = false.
Proof.
  unfold is_trigger. intro H.
  apply orb_false_iff in H as [H H4]. apply orb_false_iff in H as [H H3].
  rewrite H, H3, H4. auto.
Qed.

(** A single line that is no trigger goes to [_stata_wrk1]. *)
Lemma dispatch_single ins cmd cmd0 quietly echo :
  splitlines cmd = [cmd0] ->
  is_trigger (strip cmd0) = false ->
  dispatch cfg igr cc ins cmd quietly echo
  = _stata_wrk1 cfg (quiet quietly cmd0) echo.
Proof.
  intros Hs Ht. unfold dispatch. rewrite Hs. cbv zeta.
  destruct (is_trigger_false _ Ht) as (Hm & Hp). rewrite Hm, Hp.
  unfold quiet. destruct quietly; reflexivity.
Qed.

(** Two lines or more that UTF-8 can encode are staged in one file
    that [_stata_wrk2] includes in mode 1. *)
Lemma dispatch_batch ins cmd quietly echo w :
  (2 <= List.length (splitlines cmd))%nat ->
  utf8_encodable cmd = true ->
  dispatch cfg igr cc ins cmd quietly echo w
  = _stata_wrk2 cfg igr (include_of quietly (tempname w (ntemp w))) None false 1
      (with_staging cmd w).
Proof.
  intros H Hu. unfold dispatch.
  destruct (splitlines cmd) as [|c0 [|c1 more]]; simpl in H; try lia.
  unfold write_text. rewrite Hu.
  unfold bind, getTempFile, log, include_of. simpl.
  destruct quietly; reflexivity.
Qed.

(** Two lines or more that UTF-8 cannot encode: the file is left empty
    and the write raises. *)
Lemma dispatch_batch_unencodable ins cmd quietly echo w :
  (2 <= List.length (splitlines cmd))%nat ->
  utf8_encodable cmd = false ->
  dispatch cfg igr cc ins cmd quietly echo w
  = (Raise UnicodeEncodeError, with_staging [] w).
Proof.
  intros H Hu. unfold dispatch.
  destruct (splitlines cmd) as [|c0 [|c1 more]]; simpl in H; try lia.
  unfold write_text. rewrite Hu. reflexivity.
Qed.

Lemma mata_session_total quietly input_cmd ins w :
  let r := mata_session cfg igr quietly input_cmd ins w in
  exists evs,
    trace (snd r) = trace w ++ evs /\ (fst r = Ret tt \/ fst r = Raise EOFError).
Proof.
  intro r. subst r. unfold mata_session, bind, _get_user_input, log, raise, ret.
  destruct ins as [|l ins]; simpl.
  - eexists. split; [|right; reflexivity]. norm_trace. reflexivity.
  - match goal with |- context [mata_loop _ _ ?q ?ic ?h ?n ?x ?a ?w] =>
      destruct (mata_loop_total q ic h n x a w) as (evs & He & Hr)
    end. cbv zeta in He, Hr.
    eexists. split; [|exact Hr]. rewrite He. norm_trace. reflexivity.
Qed.

Lemma python_session_total quietly input_cmd ins w :
  let r := python_session cfg igr cc quietly input_cmd ins w in
  exists evs,
    trace (snd r) = trace w ++ evs /\ (fst r = Ret tt \/ fst r = Raise EOFError).
Proof.
  intro r. subst r. unfold python_session, bind, _get_user_input, log, raise, ret.
  destruct ins as [|l ins]; simpl.
  - eexists. split; [|right; reflexivity]. norm_trace. reflexivity.
  - match goal with |- context [python_loop _ _ _ ?q ?ic ?h ?n ?x ?a ?w] =>
      destruct (python_loop_total q ic h n x a w) as (evs & He & Hr)
    end. cbv zeta in He, Hr.
    eexists. split; [|exact Hr]. rewrite He. norm_trace. reflexivity.
Qed.

(** What dispatching a command can do: return, stop at the end of the
    input of a nested session, stop at a staging file that cannot be
    written, or raise [SystemError] right after the one [Execute] of the
    command. *)
Lemma dispatch_total ins cmd quietly echo w :
  let r := dispatch cfg igr cc ins cmd quietly echo w in
  exists evs,
    trace (snd r) = trace w ++ evs
    /\ (fst r = Ret tt
        \/ (fst r = Raise EOFError \/ fst r = Raise UnicodeEncodeError)
        \/ exists msg pre c e,
             fst r = Raise (SystemError msg)
             /\ evs = pre ++ [Execute c e] /\ executes pre = []).
Proof.
  intro r. subst r.
  destruct (splitlines cmd) as [|cmd0 [|cmd1 more]] eqn:Hs.
  - unfold dispatch. rewrite Hs. exists []. rewrite app_nil_r. auto.
  - destruct (is_trigger (strip cmd0)) eqn:Ht.
    + unfold dispatch. rewrite Hs. cbv zeta.
      destruct (eqb (strip cmd0) (py"mata") || eqb (strip cmd0) (py"mata:"))
        eqn:Hm.
      * destruct (mata_session_total quietly (strip cmd0) ins w) as (evs & He & Hr).
        exists evs. split; [exact He|]. destruct Hr; auto.
      * destruct (eqb (strip cmd0) (py"python") || eqb (strip cmd0) (py"python:"))
          eqn:Hp.
        -- destruct (python_session_total quietly (strip cmd0) ins w)
             as (evs & He & Hr).
           exists evs. split; [exact He|]. destruct Hr; auto.
        -- unfold is_trigger in Ht. rewrite Hm in Ht. simpl in Ht.
           rewrite Hp in Ht. discriminate.
    + rewrite (dispatch_single ins cmd cmd0 quietly echo Hs Ht).
      destruct (wrk1_shape cfg (quiet quietly cmd0) echo w)
        as (post & Hsh & _ & [Hf|(msg & Hf)]).
      * eexists. split; [exact Hsh | auto].
      * exists [Execute (quiet quietly cmd0) echo].
        split; [now apply wrk1_error with msg|].
        right. right. exists msg, [], (quiet quietly cmd0), echo. auto.
  - assert (H2 : (2 <= List.length (splitlines cmd))%nat)
      by (rewrite Hs; simpl; lia).
    destruct (utf8_encodable cmd) eqn:Hu;
      [|rewrite (dispatch_batch_unencodable ins cmd quietly echo w H2 Hu);
        eexists; split; [apply trace_with_staging|auto]].
    rewrite (dispatch_batch ins cmd quietly echo w H2 Hu).
    destruct (wrk2_shape cfg igr (include_of quietly (tempname w (ntemp w))) None
                false 1 (with_staging cmd w))
      as (post & Hsh & _ & [Hf|(msg & Hf)] & _).
    + eexists. split; [|left; exact Hf].
      rewrite Hsh, trace_with_staging, <- app_assoc. reflexivity.
    + eexists. split.
      * rewrite (wrk2_error _ _ _ _ _ _ _ _ Hf), trace_with_staging, <- app_assoc.
        reflexivity.
      * right. right.
        exists msg, [GetTempFile (tempname w (ntemp w));
                     WriteFile (tempname w (ntemp w)) cmd],
          (include_of quietly (tempname w (ntemp w))), false.
        auto.
Qed.

(** The world in which the command is dispatched. *)
Lemma trace_entered inl w :
  trace (entered inl w)
  = trace w ++ ClearOutputBuffer :: (if inl then [Execute gr_list_on false] else []).
Proof.
  unfold entered, graph_prologue, when, bind, StataSO_Execute, ret,
    StataSO_ClearOutputBuffer.
  destruct inl; simpl; [|reflexivity].
  destruct (next_reply _); simpl; now rewrite <- app_assoc.
Qed.

Lemma tempname_entered inl w :
  tempname (entered inl w) (ntemp (entered inl w)) = tempname w (ntemp w).
Proof.
  unfold entered, graph_prologue, when, bind, StataSO_Execute, ret,
    StataSO_ClearOutputBuffer.
  destruct inl; simpl; [|reflexivity].
  destruct (next_reply _); reflexivity.
Qed.

(** [run] is: clear the buffer, switch capture on, dispatch the
    command, switch capture off. *)
Lemma run_eq ins cmd quietly echo inline inl w :
  resolve_inline cfg inline = Some inl ->
  splitlines cmd <> [] ->
  (inl = true -> next_reply w <> Interrupted) ->
  run cfg igr cc ins cmd quietly echo inline w
  = bind (dispatch cfg igr cc ins cmd quietly echo)
         (fun _ => graph_epilogue cfg inl) (entered inl w).
Proof.
  intros Hi Hne Hr. unfold run, dispatch, entered. rewrite Hi.
  rewrite (bind_eq StataSO_ClearOutputBuffer). unfold StataSO_ClearOutputBuffer at 1.
  cbv beta iota.
  assert (Hp : graph_prologue inl (set_outbuf [] (record ClearOutputBuffer w))
               = (Ret tt, snd (graph_prologue inl
                                 (set_outbuf [] (record ClearOutputBuffer w))))).
  { unfold graph_prologue, when, bind, StataSO_Execute, ret.
    destruct inl; [|reflexivity].
    change (next_reply (set_outbuf [] (record ClearOutputBuffer w)))
      with (next_reply w).
    destruct (next_reply w); [reflexivity|].
    exfalso. now apply Hr. }
  destruct (splitlines cmd) as [|cmd0 [|cmd1 more]]; [contradiction| |];
    rewrite (bind_eq (graph_prologue inl)); rewrite Hp; simpl snd;
    [reflexivity|].
  unfold write_text. destruct (utf8_encodable cmd);
    unfold bind, getTempFile, log, raise; simpl;
    destruct quietly; reflexivity.
Qed.

(** Switching capture off. *)
Lemma graph_epilogue_trace inl w :
  trace (snd (graph_epilogue cfg inl w))
  = trace w ++ (if inl then
                  (if 3 <=? stipython cfg then [GrDisplay] else [])
                  ++ [Execute gr_list_off false]
                else []).
Proof.
  unfold graph_epilogue, when, bind, StataSO_Execute, log, ret.
  destruct inl; simpl; [|now rewrite app_nil_r].
  destruct (3 <=? stipython cfg); simpl;
    match goal with |- context [next_reply ?w] => destruct (next_reply w) end;
    simpl; now rewrite <- ?app_assoc.
Qed.

(** [m] followed by the epilogue of [run]. *)
Lemma bind_epilogue (m : M unit) inl w :
  let r := bind m (fun _ => graph_epilogue cfg inl) w in
  match fst (m w) with
  | Ret _ => trace (snd r) = trace (snd (m w)) ++ epilogue_events cfg inl
  | Raise e => r = (Raise e, snd (m w))
  end.
Proof.
  intro r. subst r. rewrite bind_eq.
  destruct (m w) as [[[]|e] w1]; simpl; [|reflexivity].
  apply graph_epilogue_trace.
Qed.




(** A session whose first line is [l]. *)
Lemma mata_session_cons quietly input_cmd l ins w :
  mata_session cfg igr quietly input_cmd (l :: ins) w
  = mata_loop cfg igr quietly input_cmd (eqb input_cmd (py"mata:")) ins (strip l)
      (fresh_acc (py": "))
      (record (Input (py": "))
         (record (Displayln (py"{hline 49} mata (type {cmd:end} to exit) {hline}"))
            (record (Print (py". " ++ input_cmd)) w))).
Proof. reflexivity. Qed.

Lemma python_session_cons quietly input_cmd l ins w :
  python_session cfg igr cc quietly input_cmd (l :: ins) w
  = python_loop cfg igr cc quietly input_cmd (eqb input_cmd (py"python:")) ins l
      (fresh_acc (py">>> "))
      (record (Input (py">>> "))
         (record (Displayln (py"{hline 47} python (type {cmd:end} to exit) {hline}"))
            (record (Print (py". " ++ input_cmd)) w))).
Proof. reflexivity. Qed.

(** Switching capture off returns unless the user interrupts it. *)
Lemma graph_epilogue_result inl w :
  fst (graph_epilogue cfg inl w) = Ret tt
  \/ fst (graph_epilogue cfg inl w) = Raise KeyboardInterrupt.
Proof.
  unfold graph_epilogue, when, bind, StataSO_Execute, log, ret.
  destruct inl; simpl; [|now left].
  destruct (3 <=? stipython cfg); simpl;
    match goal with |- context [next_reply ?w] => destruct (next_reply w) end;
    simpl; auto.
Qed.

Lemma run_toggle_interrupted ins cmd quietly echo inline w :
  resolve_inline cfg inline = Some true ->
  splitlines cmd <> [] ->
  next_reply w = Interrupted ->
  exists w',
    run cfg igr cc ins cmd quietly echo inline w = (Raise KeyboardInterrupt, w')
    /\ trace w' = trace w ++ [ClearOutputBuffer; Execute gr_list_on false].
Proof.
  intros Hi Hne Hr. unfold run. rewrite Hi.
  destruct (splitlines cmd) as [|cmd0 [|cmd1 more]]; [contradiction| |];
    rewrite (bind_eq StataSO_ClearOutputBuffer);
    unfold StataSO_ClearOutputBuffer at 1; cbv beta iota;
    rewrite (bind_eq (graph_prologue true));
    unfold graph_prologue, when; rewrite bind_eq; unfold StataSO_Execute;
    change (next_reply (set_outbuf [] (record ClearOutputBuffer w)))
      with (next_reply w); rewrite Hr; cbv beta iota;
    (eexists; split; [reflexivity | cbn; rewrite <- ?app_assoc; reflexivity]).
Qed.

(** With inline graphs, the first engine call of a run is the toggle. *)
Lemma toggle_interrupted_true inl w :
  toggle_interrupted inl w = true <-> inl = true /\ next_reply w = Interrupted.
Proof.
  unfold toggle_interrupted. destruct inl, (next_reply w); simpl;
    split; try tauto; try discriminate; intros (H1 & H2); discriminate.
Qed.

Lemma toggle_interrupted_false inl w :
  toggle_interrupted inl w = false -> inl = true -> next_reply w <> Interrupted.
Proof.
  unfold toggle_interrupted. intros H -> E. rewrite E in H. discriminate H.
Qed.

(** How [run] ends once the command has been dispatched: an exception
    of the command leaves [run] at once; otherwise capture is switched
    off, which only an interrupt can prevent from returning. *)
Lemma run_after_dispatch ins cmd quietly echo inline inl w :
  resolve_inline cfg inline = Some inl ->
  splitlines cmd <> [] ->
  (inl = true -> next_reply w <> Interrupted) ->
  let d := dispatch cfg igr cc ins cmd quietly echo (entered inl w) in
  let r := run cfg igr cc ins cmd quietly echo inline w in
  match fst d with
  | Ret _ =>
      trace (snd r) = trace (snd d) ++ epilogue_events cfg inl
      /\ (fst r = Ret tt \/ fst r = Raise KeyboardInterrupt)
  | Raise e => r = (Raise e, snd d)
  end.
Proof.
  intros Hi Hne Hr d r. subst d r.
  rewrite (run_eq ins cmd quietly echo inline inl w Hi Hne Hr).
  pose proof (bind_epilogue (dispatch cfg igr cc ins cmd quietly echo) inl
                (entered inl w)) as Hb.
  cbv zeta in Hb. rewrite bind_eq in Hb |- *.
  destruct (dispatch cfg igr cc ins cmd quietly echo (entered inl w))
    as [[[]|ex] w1]; cbn [fst snd] in *; [|reflexivity].
  split; [exact Hb|]. apply graph_epilogue_result.
Qed.

End RunFacts.

(* ===================================================================== *)
(** ** Cancellation and the poller                                        *)
(* ===================================================================== *)

(** The claim C9 as stated fails for the [Execute] calls that [run]
    makes itself, those of the two graph toggles, which are outside
    every [try]: when the user interrupts ["qui _gr_list on"], or
    ["qui _gr_list off"] after the command has run, [KeyboardInterrupt]
    leaves [run], no break is requested and no notice is printed. *)
Lemma C9_interrupted_toggle_is_not_handled :
  let on := run blocking plain_result open_paren_check [] (py"display 1") false false
              (InlineBool true) (world_of [Interrupted] 0) in
  let off := run blocking plain_result open_paren_check [] (py"display 1") false false
               (InlineBool true)
               (world_of [Returns 0 []; Returns 0 [py"1"]; Interrupted] 0) in
  (fst on = Raise KeyboardInterrupt
   /\ trace (snd on) = [ClearOutputBuffer; Execute gr_list_on false]
   /\ breaks_requested (trace (snd on)) = 0%nat)
  /\ (fst off = Raise KeyboardInterrupt
      /\ trace (snd off)
         = [ClearOutputBuffer; Execute gr_list_on false;
            Execute (py"display 1") false; Output (py"1") false;
            GrDisplay; Execute gr_list_off false]
      /\ breaks_requested (trace (snd off)) = 0%nat).
Proof. cbv zeta. repeat split. Qed.

(** C9, amended. When the user interrupts the [Execute] call of a
    worker ([_stata_wrk1] or [_stata_wrk2], streaming or not), the
    worker asks the engine to break exactly once, stops the poller it
    had started (streaming mode), prints the cancellation notice and
    returns normally. The turn of a nested session that issued the call
    returns to its loop, where it decides on the [rc2] that the engine
    call before left: the session goes on when that was 0 (or, in a
    mata session, 3000) and is left otherwise. [run] on a single-line
    command without inline graphs returns to its caller. An interrupt of
    an [Execute] that [run] makes itself is not handled: with inline
    graphs the interrupt of ["qui _gr_list on"] or of
    ["qui _gr_list off"] leaves [run] with [KeyboardInterrupt], no break
    requested. *)
Theorem C9_interrupt_is_handled cfg igr cc w :
  next_reply w = Interrupted ->
  (forall cmd echo,
      let r := _stata_wrk1 cfg cmd echo w in
      fst r = Ret tt
      /\ trace (snd r)
         = trace w ++ timer_of cfg 1 None None None
                   ++ Execute cmd echo :: interrupt_handling cfg
      /\ breaks_requested (trace (snd r)) = S (breaks_requested (trace w)))
  /\ (forall cmd real_cmd colon mode,
      let r := _stata_wrk2 cfg igr cmd real_cmd colon mode w in
      fst r = Ret tt
      /\ trace (snd r)
         = trace w ++ timer_of cfg 2 real_cmd (Some colon) (Some mode)
                   ++ Execute cmd false :: interrupt_handling cfg
      /\ breaks_requested (trace (snd r)) = S (breaks_requested (trace w)))
  /\ (forall quietly input_cmd has_colon incmd a,
      fst (mata_turn cfg igr quietly input_cmd has_colon incmd a w)
      = Ret (if rc2 w =? 0 then Ask (py": ") (fresh_acc (py": "))
             else if rc2 w =? 3000 then
                    Ask (py"> ") (mkAcc (incmds1 a ++ incmd ++ NL)
                                    (incmds2 a ++ inprompt a ++ incmd ++ NL)
                                    (py"> "))
             else Break))
  /\ (forall quietly input_cmd has_colon incmd a,
      exists nx,
        fst (python_turn cfg igr cc quietly input_cmd has_colon incmd a w) = Ret nx
        /\ (inprompt a = py">>> " \/ inprompt a = py"... " ->
            cc (incmds1 a ++ incmd) <> NoneIncomplete ->
            nx = if rc2 w =? 0 then Ask (py">>> ") (fresh_acc (py">>> "))
                 else Break))
  /\ (forall ins cmd cmd0 quietly echo inline inl,
      splitlines cmd = [cmd0] ->
      is_trigger (strip cmd0) = false ->
      resolve_inline cfg inline = Some inl ->
      let r := run cfg igr cc ins cmd quietly echo inline w in
      if inl then
        fst r = Raise KeyboardInterrupt
        /\ trace (snd r) = trace w ++ [ClearOutputBuffer; Execute gr_list_on false]
      else
        fst r = Ret tt
        /\ trace (snd r)
           = trace w ++ ClearOutputBuffer
                     :: timer_of cfg 1 None None None
                     ++ Execute (quiet quietly cmd0) echo :: interrupt_handling cfg)
  /\ (let r := graph_epilogue cfg true w in
      fst r = Raise KeyboardInterrupt
      /\ breaks_requested (trace (snd r)) = breaks_requested (trace w)).
Proof.
  intro H.
  assert (Hb : forall pre, breaks_requested (pre ++ interrupt_handling cfg)
                           = S (breaks_requested pre)).
  { intro pre. unfold breaks_requested, interrupt_handling.
    rewrite !filter_app, !length_app. destruct (streamout cfg); simpl; lia. }
  assert (Hn : forall tr pre e, breaks_requested (tr ++ pre ++ [e]) = breaks_requested tr
                                -> breaks_requested
                                     (tr ++ pre ++ e :: interrupt_handling cfg)
                                   = S (breaks_requested tr)).
  { intros tr pre e He.
    replace (tr ++ pre ++ e :: interrupt_handling cfg)
      with ((tr ++ pre ++ [e]) ++ interrupt_handling cfg)
      by (now rewrite <- !app_assoc).
    now rewrite Hb, He. }
  split; [|split; [|split; [|split; [|split]]]].
  - intros cmd echo r. subst r.
    destruct (wrk1_interrupted cfg cmd echo w H) as (Hf & Ht & _).
    split; [assumption|]. split; [assumption|]. rewrite Ht. apply Hn.
    unfold breaks_requested, timer_of. rewrite !filter_app, !length_app.
    destruct (streamout cfg); simpl; lia.
  - intros cmd real_cmd colon mode r. subst r.
    destruct (wrk2_interrupted cfg igr cmd real_cmd colon mode w H) as (Hf & Ht & _).
    split; [assumption|]. split; [assumption|]. rewrite Ht. apply Hn.
    unfold breaks_requested, timer_of. rewrite !filter_app, !length_app.
    destruct (streamout cfg); simpl; lia.
  - intros quietly input_cmd has_colon incmd a.
    rewrite mata_turn_eq. cbv zeta.
    destruct (stage_and_include_interrupted cfg igr quietly input_cmd
                (incmds1 a ++ incmd ++ NL) (incmds2 a ++ inprompt a ++ incmd ++ NL)
                has_colon 2 w H) as (Hf & Hc).
    cbv zeta in Hf, Hc. rewrite Hf, Hc. cbn [fst].
    destruct (rc2 w =? 0); [reflexivity|].
    destruct (rc2 w =? 3000); reflexivity.
  - intros quietly input_cmd has_colon incmd a.
    destruct (python_turn_returns cfg igr cc quietly input_cmd has_colon incmd a w)
      as (nx & Hnx).
    { intros src transcript.
      now destruct (stage_and_include_interrupted cfg igr quietly input_cmd src
                      transcript has_colon 3 w H). }
    exists nx. split; [exact Hnx|]. intros Hp Hcc.
    rewrite (python_turn_eq cfg igr cc quietly input_cmd has_colon incmd a w Hp) in Hnx.
    cbv zeta in Hnx.
    assert (Hex : forall s t,
               fst (python_execute cfg igr quietly input_cmd has_colon s t w)
               = Ret (if rc2 w =? 0 then Ask (py">>> ") (fresh_acc (py">>> "))
                      else Break)).
    { intros s t. unfold python_execute, bind, get_rc2, ret.
      destruct (stage_and_include_interrupted cfg igr quietly input_cmd s t
                  has_colon 3 w H) as (Hf & Hc).
      cbv zeta in Hf, Hc.
      destruct (stage_and_include cfg igr quietly input_cmd s t has_colon 3 w)
        as [[[]|ex] w1]; cbn [fst snd] in *; [|discriminate Hf].
      rewrite Hc. destruct (rc2 w =? 0); reflexivity. }
    destruct (cc (incmds1 a ++ incmd)); [|contradiction|];
      rewrite Hex in Hnx; congruence.
  - intros ins cmd cmd0 quietly echo inline inl Hs Ht Hi r. subst r.
    assert (Hne : splitlines cmd <> []) by (rewrite Hs; discriminate).
    destruct inl.
    + destruct (run_toggle_interrupted cfg igr cc ins cmd quietly echo inline w
                  Hi Hne H) as (w' & -> & Hw).
      split; [reflexivity|exact Hw].
    + rewrite (run_eq cfg igr cc ins cmd quietly echo inline false w Hi Hne)
        by discriminate.
      rewrite (dispatch_single cfg igr cc ins cmd cmd0 quietly echo Hs Ht), bind_eq.
      destruct (wrk1_interrupted cfg (quiet quietly cmd0) echo (entered false w) H)
        as (Hf & Htr & _).
      rewrite trace_entered in Htr.
      destruct (_stata_wrk1 cfg (quiet quietly cmd0) echo (entered false w))
        as [[[]|ex] w1]; cbn [fst snd] in *; [|discriminate Hf].
      split; [reflexivity|].
      change (trace (snd (graph_epilogue cfg false w1))) with (trace w1).
      rewrite Htr, <- app_assoc. reflexivity.
  - cbv zeta. unfold graph_epilogue, when, bind, StataSO_Execute, log, ret.
    destruct (3 <=? stipython cfg); cbn [fst snd record trace];
      change (next_reply (record GrDisplay w)) with (next_reply w) in *;
      rewrite H; cbn [fst snd trace]; (split; [reflexivity|]);
      unfold breaks_requested; rewrite ?filter_app, ?length_app; simpl; lia.
Qed.

(** C9, amended, at an engine whose only answer is an interrupt, in
    streaming mode. *)
Lemma C9_interrupt_is_handled_witness :
  next_reply (world_of [Interrupted] 0) = Interrupted
  /\ fst (_stata_wrk1 streaming (py"sleep 60000") false (world_of [Interrupted] 0))
     = Ret tt
  /\ trace (snd (_stata_wrk1 streaming (py"sleep 60000") false
                   (world_of [Interrupted] 0)))
     = [TimerStart 1 None None None; Execute (py"sleep 60000") false;
        TimerDone; SetBreak; Print KeyboardInterrupt_notice].
Proof.
  split; [reflexivity|].
  destruct (C9_interrupt_is_handled streaming plain_result open_paren_check
              (world_of [Interrupted] 0) eq_refl) as (H1 & _).
  destruct (H1 (py"sleep 60000") false) as (Hf & Ht & _).
  split; [exact Hf | exact Ht].
Defined.

(** The claim C8 as stated fails when the call is interrupted: the
    worker has returned, the poller was started and [join] was never
    called on it. *)
Lemma C8_interrupted_poller_is_not_joined :
  let r := _stata_wrk1 streaming (py"sleep 60000") false (world_of [Interrupted] 0) in
  fst r = Ret tt
  /\ In (TimerStart 1 None None None) (trace (snd r))
  /\ ~ In TimerJoin (trace (snd r)).
Proof.
  cbv zeta. split; [reflexivity|]. split.
  - left. reflexivity.
  - intro H. vm_compute in H.
    repeat (destruct H as [H|H]; [discriminate H|]). exact H.
Qed.

(** C8, amended. In streaming mode a worker whose [Execute] returns
    hands the return code to the poller, joins it and only then marks it
    done and returns; a worker whose [Execute] is interrupted stops the
    poller with [done()] without joining it, asks the engine to break,
    prints the notice and returns. *)
Theorem C8_poller_lifecycle cfg igr w :
  streamout cfg = true ->
  (forall cmd echo,
      let r := _stata_wrk1 cfg cmd echo w in
      fst r = Ret tt
      /\ trace (snd r)
         = trace w ++ TimerStart 1 None None None :: Execute cmd echo ::
             match next_reply w with
             | Returns rc _ => [QueuePut rc; TimerJoin; TimerDone]
             | Interrupted => [TimerDone; SetBreak; Print KeyboardInterrupt_notice]
             end)
  /\ (forall cmd real_cmd colon mode,
      let r := _stata_wrk2 cfg igr cmd real_cmd colon mode w in
      fst r = Ret tt
      /\ trace (snd r)
         = trace w ++ TimerStart 2 real_cmd (Some colon) (Some mode) ::
             Execute cmd false ::
             match next_reply w with
             | Returns rc _ => [QueuePut rc; TimerJoin; TimerDone]
             | Interrupted => [TimerDone; SetBreak; Print KeyboardInterrupt_notice]
             end).
Proof.
  intro Hs. split.
  - intros cmd echo r. subst r.
    destruct (next_reply w) as [rc chunks|] eqn:Hr.
    + destruct (wrk1_returns cfg cmd echo w rc chunks Hr)
        as (post & Ht & _ & _ & Hon & _).
      destruct (Hon Hs) as (Hp & Hf). subst post.
      split; [assumption|]. rewrite Ht. unfold timer_of. now rewrite Hs.
    + destruct (wrk1_interrupted cfg cmd echo w Hr) as (Hf & Ht & _).
      split; [assumption|]. rewrite Ht. unfold timer_of, interrupt_handling.
      now rewrite Hs.
  - intros cmd real_cmd colon mode r. subst r.
    destruct (next_reply w) as [rc chunks|] eqn:Hr.
    + destruct (wrk2_returns cfg igr cmd real_cmd colon mode w rc chunks Hr)
        as (post & Ht & _ & _ & Hon & _).
      destruct (Hon Hs) as (Hp & Hf). subst post.
      split; [assumption|]. rewrite Ht. unfold timer_of. now rewrite Hs.
    + destruct (wrk2_interrupted cfg igr cmd real_cmd colon mode w Hr) as (Hf & Ht & _).
      split; [assumption|]. rewrite Ht. unfold timer_of, interrupt_handling.
      now rewrite Hs.
Qed.

(** C8, amended, at an engine that fails with code 198. *)
Lemma C8_poller_lifecycle_witness :
  streamout streaming = true
  /\ trace (snd (_stata_wrk2 streaming plain_result (py"include /tmp/St0") None false 1
                   (world_of [Returns 198 [py"unrecognized command"]] 0)))
     = [TimerStart 2 None (Some false) (Some 1);
        Execute (py"include /tmp/St0") false;
        QueuePut 198; TimerJoin; TimerDone].
Proof.
  split; [reflexivity|].
  destruct (C8_poller_lifecycle streaming plain_result
              (world_of [Returns 198 [py"unrecognized command"]] 0) eq_refl)
    as (_ & H2).
  destruct (H2 (py"include /tmp/St0") None false 1) as (_ & Ht).
  exact Ht.
Defined.

(* ===================================================================== *)
(** ** Return codes outside a nested session                              *)
(* ===================================================================== *)

(** Without streaming, [_stata_wrk1] raises [SystemError] for every
    non-zero return code, 3000 included. *)
Lemma wrk1_raises_on_every_nonzero_code cfg cmd echo w rc chunks :
  streamout cfg = false ->
  next_reply w = Returns rc chunks ->
  rc <> 0 ->
  exists msg, fst (_stata_wrk1 cfg cmd echo w) = Raise (SystemError msg).
Proof.
  intros Hs Hr Hrc.
  destruct (wrk1_returns cfg cmd echo w rc chunks Hr) as (post & _ & _ & _ & _ & Hb).
  destruct (Hb Hs) as (_ & _ & Hnz). now destruct (Hnz Hrc).
Qed.

(** Without streaming, [_stata_wrk2] in mode 1 raises [SystemError]
    with the first chunk of output for every non-zero return code other
    than 3000. *)
Lemma wrk2_batch_raises_unless_3000 cfg igr cmd w rc chunks :
  streamout cfg = false ->
  next_reply w = Returns rc chunks ->
  rc <> 0 -> rc <> 3000 ->
  fst (_stata_wrk2 cfg igr cmd None false 1 w)
  = Raise (SystemError (hd [] (outbuf w ++ chunks))).
Proof.
  intros Hs Hr H0 H3.
  destruct (wrk2_returns cfg igr cmd None false 1 w rc chunks Hr)
    as (post & _ & _ & _ & _ & Hb).
  destruct (Hb Hs) as (_ & _ & _ & _ & He). now destruct (He H0 H3 eq_refl).
Qed.

(** C2 fails in BatchFile mode without streaming. The two-line command
    below is staged and included; the engine answers 3000 with an error
    text; [run] returns normally and neither prints nor raises, whereas
    the same answer with code 198 raises [SystemError] with the text,
    and the same answer to a single-line command raises for 3000 too. *)
Theorem C2_batch_swallows_code_3000 :
  let cmd := py"mata: x = (" ++ NL ++ py"display 1" in
  let text := py"invalid expression" in
  let r := run blocking plain_result open_paren_check [] cmd false false
             (InlineBool false) (world_of [Returns 3000 [text]] 0) in
  let r198 := run blocking plain_result open_paren_check [] cmd false false
                (InlineBool false) (world_of [Returns 198 [text]] 0) in
  let r1 := run blocking plain_result open_paren_check [] (py"mata: x = (")
              false false (InlineBool false) (world_of [Returns 3000 [text]] 0) in
  fst r = Ret tt
  /\ trace (snd r)
     = [ClearOutputBuffer; GetTempFile (py"/tmp/St0");
        WriteFile (py"/tmp/St0") cmd; Execute (py"include /tmp/St0") false]
  /\ fst r198 = Raise (SystemError text)
  /\ fst r1 = Raise (SystemError text).
Proof. vm_compute. repeat split. Qed.

(* ===================================================================== *)
(** ** Return codes inside a nested session                               *)
(* ===================================================================== *)

(** The claim C1 as stated fails twice. A mata unit that the engine
    rejects with code 198 leaves the loop by [break]: the session is
    over, it does not await a new unit. A python unit answered with
    3000 leaves the loop in the same way: it does not await a
    continuation line. *)
Lemma C1_error_code_ends_the_session :
  let m := mata_turn blocking plain_result false (py"mata") false (py"x = y")
             (fresh_acc (py": "))
             (world_of [Returns 198 [py"<istmt>:  3499  y not found"]] 0) in
  let s := python_turn blocking plain_result open_paren_check false (py"python")
             false (py"x = 1") (fresh_acc (py">>> "))
             (world_of [Returns 3000 []] 0) in
  (rc2 (snd m) = 198
   /\ fst m = Ret Break
   /\ session_state (py": ") Break <> AwaitPrimary)
  /\ (rc2 (snd s) = 3000
      /\ fst s = Ret Break
      /\ session_state (py">>> ") Break <> AwaitContinuation).
Proof. vm_compute. repeat split; discriminate. Qed.

(** C1, amended. When the engine answers an executed unit with a
    non-zero code [rc]: a mata session given 3000 forwards no output,
    keeps the accumulated source and transcript and reads the next line
    at the continuation prompt ["> "]; a mata session given any other
    code leaves its loop, which ends the session; a python session
    leaves its loop for every non-zero code, 3000 included. *)
Theorem C1_nested_return_codes cfg igr cc quietly input_cmd has_colon
    incmd a b w rc chunks :
  next_reply w = Returns rc chunks ->
  rc <> 0 ->
  inprompt b = py">>> " \/ inprompt b = py"... " ->
  cc (incmds1 b ++ incmd) <> NoneIncomplete ->
  let m := mata_turn cfg igr quietly input_cmd has_colon incmd a w in
  let s := python_turn cfg igr cc quietly input_cmd has_colon incmd b w in
  let continuation :=
    Ask (py"> ") (mkAcc (incmds1 a ++ incmd ++ NL)
                        (incmds2 a ++ inprompt a ++ incmd ++ NL) (py"> ")) in
  (rc2 (snd m) = rc
   /\ fst m = Ret (if rc =? 3000 then continuation else Break)
   /\ session_state (py": ") (if rc =? 3000 then continuation else Break)
      = (if rc =? 3000 then AwaitContinuation else Ended)
   /\ (rc = 3000 -> outputs (trace (snd m)) = outputs (trace w)))
  /\ (rc2 (snd s) = rc /\ fst s = Ret Break).
Proof.
  intros Hr Hrc Hb Hcc m s continuation.
  assert (Hstage : forall src transcript mode, mode <> 1 ->
    let r := stage_and_include cfg igr quietly input_cmd src transcript has_colon mode w in
    fst r = Ret tt /\ rc2 (snd r) = rc
    /\ (rc = 3000 -> outputs (trace (snd r)) = outputs (trace w))).
  { intros src transcript mode Hm r. subst r. rewrite stage_and_include_eq.
    destruct (wrk2_returns cfg igr (include_of quietly (tempname w (ntemp w)))
                (Some transcript) has_colon mode
                (with_staging (input_cmd ++ NL ++ src ++ py"end") w) rc chunks Hr)
      as (post & Ht & _ & H2 & Hon & Hoff).
    split; [|split; [assumption|]].
    - destruct (streamout cfg) eqn:Es.
      + destruct (Hon eq_refl) as (_ & Hf). exact Hf.
      + destruct (Hoff eq_refl) as (_ & _ & _ & Hmode & _). exact (Hmode Hm).
    - intro H3. rewrite Ht, trace_with_staging. unfold outputs, timer_of.
      rewrite !filter_app.
      destruct (streamout cfg) eqn:Es.
      + destruct (Hon eq_refl) as (Hp & _). subst post. simpl.
        now rewrite !app_nil_r.
      + destruct (Hoff eq_refl) as (_ & Hc & _). destruct (Hc H3) as (Hp & _).
        subst post. simpl. now rewrite !app_nil_r. }
  split.
  - subst m. rewrite mata_turn_eq. cbv zeta.
    destruct (Hstage (incmds1 a ++ incmd ++ NL)
                (incmds2 a ++ inprompt a ++ incmd ++ NL) 2 ltac:(lia))
      as (Hf & H2 & Ho).
    rewrite Hf, H2. simpl fst. simpl snd.
    destruct (Z.eqb_spec rc 0) as [E|_]; [contradiction|]. simpl negb. cbv iota.
    split; [assumption|].
    subst continuation.
    destruct (Z.eqb_spec rc 3000) as [E3|E3]; simpl negb; cbv iota;
      (split; [reflexivity|]); (split; [reflexivity|]); auto.
  - subst s. rewrite (python_turn_eq cfg igr cc quietly input_cmd has_colon incmd b w Hb).
    cbv zeta.
    destruct (cc (incmds1 b ++ incmd)) eqn:Ec; [|contradiction|];
      unfold python_execute;
      match goal with |- context [stage_and_include ?c ?i ?q ?ic ?sr ?t ?h 3 ?w] =>
        destruct (Hstage sr t 3 ltac:(lia)) as (Hf & H2 & _)
      end; rewrite Hf, H2; simpl;
      destruct (Z.eqb_spec rc 0) as [E|_]; try contradiction; auto.
Qed.

(** C1, amended, at a mata unit that needs more input. *)
Lemma C1_nested_return_codes_witness :
  let w := world_of [Returns 3000 []] 0 in
  next_reply w = Returns 3000 []
  /\ 3000 <> 0
  /\ (inprompt (fresh_acc (py">>> ")) = py">>> "
      \/ inprompt (fresh_acc (py">>> ")) = py"... ")
  /\ open_paren_check (incmds1 (fresh_acc (py">>> ")) ++ py"x = 1") <> NoneIncomplete
  /\ fst (mata_turn blocking plain_result false (py"mata") false (py"x = 1")
            (fresh_acc (py": ")) w)
     = Ret (Ask (py"> ") (mkAcc (py"x = 1" ++ NL) (py": x = 1" ++ NL) (py"> ")))
  /\ fst (python_turn blocking plain_result open_paren_check false (py"mata") false
            (py"x = 1") (fresh_acc (py">>> ")) w)
     = Ret Break.
Proof.
  cbv zeta.
  assert (H1 : next_reply (world_of [Returns 3000 []] 0) = Returns 3000 [])
    by reflexivity.
  assert (H2 : 3000 <> 0) by lia.
  assert (H3 : inprompt (fresh_acc (py">>> ")) = py">>> "
               \/ inprompt (fresh_acc (py">>> ")) = py"... ") by (left; reflexivity).
  assert (H4 : open_paren_check (incmds1 (fresh_acc (py">>> ")) ++ py"x = 1")
               <> NoneIncomplete) by (vm_compute; discriminate).
  repeat (split; [assumption|]).
  pose proof (C1_nested_return_codes blocking plain_result open_paren_check false
                (py"mata") false (py"x = 1") (fresh_acc (py": "))
                (fresh_acc (py">>> ")) (world_of [Returns 3000 []] 0) 3000 []
                H1 H2 H3 H4) as H.
  cbv zeta in H. destruct H as ((_ & Hm & _) & _ & Hs).
  split; [exact Hm | exact Hs].
Defined.

(* ===================================================================== *)
(** ** The python session: completeness of a unit                         *)
(* ===================================================================== *)



(** C6 fails on the code. The line below starts with ["stata:"]; typed
    at the primary prompt of a python session it is given to the
    completeness check like any other line, the check reports it
    incomplete, and the controller executes nothing and prompts
    ["... "]. *)
Theorem C6_stata_prefix_is_not_recognized :
  let line := py"stata: display (" in
  let w := world_of [] 0 in
  let r := run blocking plain_result open_paren_check [line] (py"python")
             false false (InlineBool false) w in
  python_turn blocking plain_result open_paren_check false (py"python") false line
    (fresh_acc (py">>> ")) w
  = (Ret (Ask (py"... ") (mkAcc (line ++ NL) (py">>> " ++ line ++ NL) (py"... "))), w)
  /\ executes (trace (snd r)) = []
  /\ trace (snd r)
     = [ClearOutputBuffer; Print (py". python");
        Displayln (py"{hline 47} python (type {cmd:end} to exit) {hline}");
        Input (py">>> "); Input (py"... ")].
Proof. vm_compute. repeat split. Qed.

(* ===================================================================== *)
(** ** Single-line and multi-line commands                                *)
(* ===================================================================== *)

(** The claim C3 as stated fails when [inline] is true: between the
    clearing of the output buffer and the [Execute] of the command,
    [run] executes ["qui _gr_list on"]. *)
Lemma C3_inline_toggle_comes_between :
  let r := run blocking plain_result open_paren_check [] (py"display 1") false false
             (InlineBool true) (world_of [] 0) in
  gateway_calls (trace (snd r))
  = [ClearOutputBuffer; Execute gr_list_on false;
     Execute (py"display 1") false; Execute gr_list_off false]
  /\ ~ exists pre post,
         gateway_calls (trace (snd r))
         = pre ++ [ClearOutputBuffer; Execute (py"display 1") false] ++ post.
Proof.
  cbv zeta. split; [reflexivity|].
  intros (pre & post & H).
  change (gateway_calls _)
    with [ClearOutputBuffer; Execute gr_list_on false;
          Execute (py"display 1") false; Execute gr_list_off false] in H.
  destruct pre as [|e1 pre]; [discriminate H|].
  destruct pre as [|e2 pre]; [discriminate H|].
  destruct pre as [|e3 pre]; [discriminate H|].
  destruct pre as [|e4 pre]; [discriminate H|].
  destruct pre as [|e5 pre]; discriminate H.
Qed.

(** C3, amended. For a single-line command that is no session trigger,
    [run] clears the output buffer and issues exactly one [Execute] of
    the command ([qui] in front of it when [quietly]), with the given
    [echo]. When [inline] resolves to false the clearing is the gateway
    call immediately before it and no other [Execute] is issued; when
    [inline] resolves to true the [Execute] of ["qui _gr_list on"] comes
    between the two, and ["qui _gr_list off"] follows exactly when the
    command did not raise [SystemError]. The one exception is an
    interrupt of ["qui _gr_list on"] itself: [run] is then left with
    [KeyboardInterrupt] and the command is never executed. *)
Theorem C3_single_line_execute cfg igr cc ins cmd cmd0 quietly echo inline inl w :
  splitlines cmd = [cmd0] ->
  is_trigger (strip cmd0) = false ->
  resolve_inline cfg inline = Some inl ->
  let r := run cfg igr cc ins cmd quietly echo inline w in
  if toggle_interrupted inl w then
    fst r = Raise KeyboardInterrupt
    /\ gateway_calls (trace (snd r))
       = gateway_calls (trace w) ++ [ClearOutputBuffer; Execute gr_list_on false]
  else
    exists tail,
      gateway_calls (trace (snd r))
      = gateway_calls (trace w)
          ++ ClearOutputBuffer :: (if inl then [Execute gr_list_on false] else [])
          ++ Execute (quiet quietly cmd0) echo :: tail
      /\ match fst r with
         | Raise (SystemError _) => tail = []
         | _ => tail = if inl then [Execute gr_list_off false] else []
         end.
Proof.
  intros Hs Ht Hi r. subst r.
  assert (Hne : splitlines cmd <> []) by (rewrite Hs; discriminate).
  destruct (toggle_interrupted inl w) eqn:Hto.
  { apply toggle_interrupted_true in Hto as (-> & Hr).
    destruct (run_toggle_interrupted cfg igr cc ins cmd quietly echo inline w Hi Hne Hr)
      as (w' & -> & Hw).
    split; [reflexivity|]. cbn [snd]. rewrite Hw.
    unfold gateway_calls. now rewrite filter_app. }
  pose proof (toggle_interrupted_false inl w Hto) as Hr.
  pose proof (run_after_dispatch cfg igr cc ins cmd quietly echo inline inl w Hi Hne Hr)
    as Hd.
  cbv zeta in Hd.
  rewrite (dispatch_single cfg igr cc ins cmd cmd0 quietly echo Hs Ht) in Hd.
  destruct (wrk1_shape cfg (quiet quietly cmd0) echo (entered inl w))
    as (post & Hsh & Ha & Hout).
  destruct (aftermath_quiet post Ha) as (_ & Hg & _).
  assert (Hw : gateway_calls (trace (snd (_stata_wrk1 cfg (quiet quietly cmd0) echo
                                            (entered inl w))))
               = gateway_calls (trace w)
                   ++ ClearOutputBuffer
                   :: (if inl then [Execute gr_list_on false] else [])
                   ++ [Execute (quiet quietly cmd0) echo]).
  { rewrite Hsh, trace_entered. unfold gateway_calls in *. unfold timer_of.
    rewrite !filter_app. simpl. rewrite Hg.
    destruct inl, (streamout cfg); simpl; rewrite <- ?app_assoc; reflexivity. }
  assert (Hepi : gateway_calls (epilogue_events cfg inl)
                 = if inl then [Execute gr_list_off false] else []).
  { unfold epilogue_events. destruct inl; [|reflexivity].
    now destruct (3 <=? stipython cfg). }
  destruct (fst (_stata_wrk1 cfg (quiet quietly cmd0) echo (entered inl w)))
    as [[]|e] eqn:Hf.
  - destruct Hd as (Htr & Hres).
    exists (gateway_calls (epilogue_events cfg inl)). split.
    + rewrite Htr. unfold gateway_calls in *. rewrite filter_app, Hw.
      rewrite <- ?app_assoc. simpl. rewrite <- ?app_assoc. reflexivity.
    + destruct Hres as [-> | ->]; exact Hepi.
  - exists []. rewrite Hd. cbn [fst snd]. rewrite Hw. split.
    + rewrite <- ?app_assoc. reflexivity.
    + destruct Hout as [Hx|(msg & Hx)]; [discriminate Hx|].
      inversion Hx. reflexivity.
Qed.

(** C3, amended, at a quiet command without inline graphs. *)
Lemma C3_single_line_execute_witness :
  splitlines (py"display 1") = [py"display 1"]
  /\ is_trigger (strip (py"display 1")) = false
  /\ resolve_inline blocking (InlineBool false) = Some false
  /\ gateway_calls
       (trace (snd (run blocking plain_result open_paren_check [] (py"display 1")
                      true false (InlineBool false) (world_of [] 0))))
     = [ClearOutputBuffer; Execute (py"qui display 1") false].
Proof.
  assert (H1 : splitlines (py"display 1") = [py"display 1"]) by reflexivity.
  assert (H2 : is_trigger (strip (py"display 1")) = false) by reflexivity.
  assert (H3 : resolve_inline blocking (InlineBool false) = Some false) by reflexivity.
  repeat (split; [assumption|]).
  pose proof (C3_single_line_execute blocking plain_result open_paren_check []
                (py"display 1") (py"display 1") true false (InlineBool false) false
                (world_of [] 0) H1 H2 H3) as H.
  cbv zeta in H.
  change (toggle_interrupted false (world_of [] 0)) with false in H. cbv iota in H.
  destruct H as (tail & Hg & Ht).
  change (fst (run blocking plain_result open_paren_check [] (py"display 1")
                 true false (InlineBool false) (world_of [] 0)))
    with (@Ret unit tt) in Ht.
  cbv iota in Ht. rewrite Hg, Ht. reflexivity.
Defined.

(** The claim C4 as stated fails for a text that UTF-8 cannot encode.
    The second line below is a lone surrogate: [run] takes a temporary
    name and opens the file, the write raises [UnicodeEncodeError], the
    file is left empty and nothing is executed. *)
Lemma C4_unencodable_text_is_not_staged :
  let cmd := py"a" ++ NL ++ [56448%N] in
  let r := run blocking plain_result open_paren_check [] cmd false false
             (InlineBool false) (world_of [] 0) in
  splitlines cmd = [py"a"; [56448%N]]
  /\ fst r = Raise UnicodeEncodeError
  /\ trace (snd r)
     = [ClearOutputBuffer; GetTempFile (py"/tmp/St0"); WriteFile (py"/tmp/St0") []]
  /\ executes (trace (snd r)) = [].
Proof. cbv zeta. repeat split. Qed.

(** C4, amended. For a command text of two lines or more that UTF-8 can
    encode, [run] takes one temporary file name, writes the text of the
    command to that file as it is and then issues one [Execute] of an
    [include] of the file ([qui] in front when [quietly]); the only
    other [Execute] calls are the graph toggles when [inline] is true,
    ["qui _gr_list on"] before the file is staged and
    ["qui _gr_list off"] after the include exactly when the include did
    not raise [SystemError]. When the text cannot be encoded the file is
    left empty, [UnicodeEncodeError] leaves [run] and nothing is
    included. When the user interrupts ["qui _gr_list on"],
    [KeyboardInterrupt] leaves [run] before anything is staged. *)
Theorem C4_batch_is_staged_once cfg igr cc ins cmd quietly echo inline inl w :
  (2 <= List.length (splitlines cmd))%nat ->
  resolve_inline cfg inline = Some inl ->
  let r := run cfg igr cc ins cmd quietly echo inline w in
  let p := tempname w (ntemp w) in
  let opening :=
    ClearOutputBuffer :: (if inl then [Execute gr_list_on false] else []) in
  if toggle_interrupted inl w then
    fst r = Raise KeyboardInterrupt
    /\ trace (snd r) = trace w ++ opening
  else if utf8_encodable cmd then
    exists post tail,
      trace (snd r)
      = trace w ++ opening ++ [GetTempFile p; WriteFile p cmd]
                ++ timer_of cfg 2 None (Some false) (Some 1)
                ++ Execute (include_of quietly p) false :: post ++ tail
      /\ forallb is_aftermath post = true
      /\ match fst r with
         | Raise (SystemError _) => tail = []
         | _ => tail = epilogue_events cfg inl
         end
      /\ temp_files (trace (snd r)) = temp_files (trace w) ++ [p]
      /\ staged (trace (snd r)) = staged (trace w) ++ [(p, cmd)]
      /\ executes (trace (snd r))
         = executes (trace w)
             ++ (if inl then [Execute gr_list_on false] else [])
             ++ Execute (include_of quietly p) false :: executes tail
  else
    fst r = Raise UnicodeEncodeError
    /\ trace (snd r) = trace w ++ opening ++ [GetTempFile p; WriteFile p []].
Proof.
  intros H2 Hi r p opening. subst r opening.
  assert (Hne : splitlines cmd <> [])
    by (intro E; rewrite E in H2; simpl in H2; lia).
  destruct (toggle_interrupted inl w) eqn:Hto.
  { apply toggle_interrupted_true in Hto as (-> & Hr).
    destruct (run_toggle_interrupted cfg igr cc ins cmd quietly echo inline w Hi Hne Hr)
      as (w' & -> & Hw).
    split; [reflexivity|exact Hw]. }
  pose proof (toggle_interrupted_false inl w Hto) as Hr.
  pose proof (run_after_dispatch cfg igr cc ins cmd quietly echo inline inl w Hi Hne Hr)
    as Hd.
  cbv zeta in Hd.
  destruct (utf8_encodable cmd) eqn:Hu.
  2:{ rewrite (dispatch_batch_unencodable cfg igr cc ins cmd quietly echo
                 (entered inl w) H2 Hu) in Hd.
      cbn [fst snd] in Hd. rewrite Hd. cbn [fst snd]. split; [reflexivity|].
      rewrite trace_with_staging, tempname_entered, trace_entered. fold p.
      rewrite <- app_assoc. reflexivity. }
  rewrite (dispatch_batch cfg igr cc ins cmd quietly echo (entered inl w) H2 Hu) in Hd.
  rewrite tempname_entered in Hd. fold p in Hd.
  destruct (wrk2_shape cfg igr (include_of quietly p) None false 1
              (with_staging cmd (entered inl w)))
    as (post & Hsh & Ha & Hout & _).
  rewrite trace_with_staging, tempname_entered, trace_entered in Hsh. fold p in Hsh.
  destruct (aftermath_quiet post Ha) as (He & _ & Hst & Htf).
  assert (Hsum : forall tail,
             temp_files tail = [] -> staged tail = [] ->
             let tr := trace w
                         ++ (ClearOutputBuffer
                               :: (if inl then [Execute gr_list_on false] else []))
                         ++ [GetTempFile p; WriteFile p cmd]
                         ++ timer_of cfg 2 None (Some false) (Some 1)
                         ++ Execute (include_of quietly p) false :: post ++ tail in
             temp_files tr = temp_files (trace w) ++ [p]
             /\ staged tr = staged (trace w) ++ [(p, cmd)]
             /\ executes tr
                = executes (trace w)
                    ++ (if inl then [Execute gr_list_on false] else [])
                    ++ Execute (include_of quietly p) false :: executes tail).
  { intros tail T1 T2 tr. subst tr.
    unfold temp_files, staged, executes, timer_of in *.
    rewrite !flat_map_app, !filter_app.
    destruct inl, (streamout cfg); cbn [flat_map filter app is_execute];
      rewrite ?flat_map_app, ?filter_app, ?Htf, ?Hst, ?He, ?T1, ?T2, ?app_nil_r;
      auto. }
  assert (E : temp_files (epilogue_events cfg inl) = []
              /\ staged (epilogue_events cfg inl) = []).
  { unfold epilogue_events. destruct inl; [|auto].
    destruct (3 <=? stipython cfg); auto. }
  destruct E as (E1 & E2).
  destruct (fst (_stata_wrk2 cfg igr (include_of quietly p) None false 1
                   (with_staging cmd (entered inl w)))) as [[]|e] eqn:Hf.
  - destruct Hd as (Htr & Hres).
    exists post, (epilogue_events cfg inl).
    assert (Ht : trace (snd (run cfg igr cc ins cmd quietly echo inline w))
                 = trace w
                     ++ (ClearOutputBuffer
                           :: (if inl then [Execute gr_list_on false] else []))
                     ++ [GetTempFile p; WriteFile p cmd]
                     ++ timer_of cfg 2 None (Some false) (Some 1)
                     ++ Execute (include_of quietly p) false
                     :: post ++ epilogue_events cfg inl).
    { rewrite Htr, Hsh. rewrite <- ?app_assoc. cbn [app].
      rewrite <- ?app_assoc. reflexivity. }
    split; [exact Ht|]. split; [exact Ha|]. split.
    + destruct Hres as [-> | ->]; reflexivity.
    + rewrite Ht. apply (Hsum (epilogue_events cfg inl) E1 E2).
  - exists post, [].
    assert (Ht : trace (snd (run cfg igr cc ins cmd quietly echo inline w))
                 = trace w
                     ++ (ClearOutputBuffer
                           :: (if inl then [Execute gr_list_on false] else []))
                     ++ [GetTempFile p; WriteFile p cmd]
                     ++ timer_of cfg 2 None (Some false) (Some 1)
                     ++ Execute (include_of quietly p) false :: post ++ []).
    { rewrite Hd. cbn [snd]. rewrite Hsh, app_nil_r. rewrite <- ?app_assoc. cbn [app].
      rewrite <- ?app_assoc. reflexivity. }
    split; [exact Ht|]. split; [exact Ha|]. split.
    + rewrite Hd. cbn [fst].
      destruct Hout as [Hx|(msg & Hx)]; [discriminate Hx|].
      inversion Hx. reflexivity.
    + rewrite Ht. apply (Hsum [] eq_refl eq_refl).
Qed.

(** C4, amended, at the three-line command of the specification's
    second scenario. *)
Lemma C4_batch_is_staged_once_witness :
  let cmd := py"line1" ++ NL ++ py"line2" ++ NL ++ py"line3" in
  let r := run blocking plain_result open_paren_check [] cmd false false
             (InlineBool false) (world_of [] 0) in
  (2 <= List.length (splitlines cmd))%nat
  /\ resolve_inline blocking (InlineBool false) = Some false
  /\ staged (trace (snd r)) = [(py"/tmp/St0", cmd)]
  /\ executes (trace (snd r)) = [Execute (py"include /tmp/St0") false].
Proof.
  cbv zeta.
  set (cmd := py"line1" ++ NL ++ py"line2" ++ NL ++ py"line3").
  assert (H1 : (2 <= List.length (splitlines cmd))%nat) by (vm_compute; lia).
  assert (H2 : resolve_inline blocking (InlineBool false) = Some false) by reflexivity.
  split; [exact H1|]. split; [exact H2|].
  pose proof (C4_batch_is_staged_once blocking plain_result open_paren_check [] cmd
                false false (InlineBool false) false (world_of [] 0) H1 H2) as H.
  cbv zeta in H.
  change (toggle_interrupted false (world_of [] 0)) with false in H.
  change (utf8_encodable cmd) with true in H. cbv iota in H.
  destruct H as (post & tail & _ & _ & Ht & _ & Hs & He).
  change (fst (run blocking plain_result open_paren_check [] cmd false false
                 (InlineBool false) (world_of [] 0)))
    with (@Ret unit tt) in Ht.
  cbv iota in Ht. rewrite Ht in He.
  split; [exact Hs | exact He].
Defined.

(* ===================================================================== *)
(** ** Graph capture around the command                                   *)
(* ===================================================================== *)

(** The claim C7 as stated fails when the command fails without
    streaming: [_stata_wrk1] raises [SystemError], [run] is left at once
    and ["qui _gr_list off"] is never executed. *)
Lemma C7_error_leaves_capture_on :
  let text := py"command scater is unrecognized" in
  let r := run blocking plain_result open_paren_check [] (py"scater y x") false false
             (InlineBool true) (world_of [Returns 0 []; Returns 199 [text]] 0) in
  fst r = Raise (SystemError text)
  /\ trace (snd r)
     = [ClearOutputBuffer; Execute gr_list_on false; Execute (py"scater y x") false]
  /\ ~ In (Execute gr_list_off false) (trace (snd r)).
Proof.
  cbv zeta. split; [reflexivity|]. split; [reflexivity|].
  intro H. vm_compute in H.
  repeat (destruct H as [H|H]; [discriminate H|]). exact H.
Qed.

(** C7, amended. When [inline] resolves to true and the command has at
    least one line, [run] executes ["qui _gr_list on"] right after
    clearing the buffer, before anything of the command; whenever [run]
    returns normally its last call is the [Execute] of
    ["qui _gr_list off"]; when the command raises [SystemError], [run]
    is left right after the one [Execute] of the command and capture is
    not switched off. *)
Theorem C7_graph_capture_toggle cfg igr cc ins cmd quietly echo inline w :
  resolve_inline cfg inline = Some true ->
  splitlines cmd <> [] ->
  next_reply w <> Interrupted ->
  let r := run cfg igr cc ins cmd quietly echo inline w in
  exists body,
    trace (snd r) = trace w ++ ClearOutputBuffer :: Execute gr_list_on false :: body
    /\ match fst r with
       | Ret _ => exists body', body = body' ++ [Execute gr_list_off false]
       | Raise (SystemError _) =>
           exists pre c e, body = pre ++ [Execute c e] /\ executes pre = []
       | Raise _ => True
       end.
Proof.
  intros Hi Hne Hr r. subst r.
  rewrite (run_eq cfg igr cc ins cmd quietly echo inline true w Hi Hne (fun _ => Hr)).
  pose proof (bind_epilogue cfg (dispatch cfg igr cc ins cmd quietly echo) true
                (entered true w)) as Hb.
  cbv zeta in Hb.
  destruct (dispatch_total cfg igr cc ins cmd quietly echo (entered true w))
    as (evs & He & Hres).
  cbv zeta in He, Hres. rewrite trace_entered in He.
  rewrite bind_eq in Hb |- *.
  destruct (dispatch cfg igr cc ins cmd quietly echo (entered true w))
    as [[[]|ex] w1]; cbn [fst snd] in *.
  - exists (evs ++ epilogue_events cfg true).
    split; [rewrite Hb, He, <- ?app_assoc; reflexivity|].
    destruct (graph_epilogue_result cfg true w1) as [Hg|Hg]; rewrite Hg; [|exact I].
    exists (evs ++ (if 3 <=? stipython cfg then [GrDisplay] else [])).
    unfold epilogue_events. now rewrite <- app_assoc.
  - exists evs. split; [rewrite He, <- ?app_assoc; reflexivity|].
    destruct Hres as [Hx|[[Hx|Hx]|(msg & pre & c & e & Hx & Hev & Hpre)]];
      try discriminate Hx; inversion Hx; subst; eauto.
Qed.

(** C7, amended, at a command that succeeds. *)
Lemma C7_graph_capture_toggle_witness :
  let w := world_of [] 0 in
  let r := run blocking plain_result open_paren_check [] (py"scatter y x") false false
             (InlineBool true) w in
  resolve_inline blocking (InlineBool true) = Some true
  /\ splitlines (py"scatter y x") <> []
  /\ next_reply w <> Interrupted
  /\ exists body,
       trace (snd r) = trace w ++ ClearOutputBuffer :: Execute gr_list_on false :: body
       /\ exists body', body = body' ++ [Execute gr_list_off false].
Proof.
  cbv zeta.
  assert (H1 : resolve_inline blocking (InlineBool true) = Some true) by reflexivity.
  assert (H2 : splitlines (py"scatter y x") <> []) by (vm_compute; discriminate).
  assert (H3 : next_reply (world_of [] 0) <> Interrupted) by (vm_compute; discriminate).
  repeat (split; [assumption|]).
  destruct (C7_graph_capture_toggle blocking plain_result open_paren_check []
              (py"scatter y x") false false (InlineBool true) (world_of [] 0)
              H1 H2 H3) as (body & Ht & Hm).
  exists body. split; [exact Ht|]. exact Hm.
Defined.

(* ===================================================================== *)
(** ** Input lines of the two sessions                                    *)
(* ===================================================================== *)



(* ===================================================================== *)
(** ** Output forwarded without streaming                                 *)
(* ===================================================================== *)

Section DrainFacts.

Variable cfg : Config.
Variable igr : pystr -> option pystr -> bool -> Z -> pystr.

Lemma is_empty_false (c : pystr) : c <> [] -> is_empty c = false.
Proof. destruct c; [contradiction | reflexivity]. Qed.

(** After a successful call the drain of [_stata_wrk1] forwards every
    chunk, in order, and empties the buffer. *)
Lemma wrk1_drain_success buf :
  Forall (fun c => c <> []) buf ->
  forall w,
    wrk1_drain 0 buf w
    = (Ret tt,
       set_outbuf []
         (mkWorld (trace w ++ map (fun c => Output c false) buf) (replies w)
                  (outbuf w) (rc2 w) (tempname w) (ntemp w))).
Proof.
  induction 1 as [|c buf Hc Hbuf IH]; intro w.
  - simpl. rewrite app_nil_r. reflexivity.
  - simpl. rewrite (is_empty_false c Hc). rewrite IH.
    unfold set_outbuf, record. simpl. rewrite <- app_assoc. reflexivity.
Qed.

Lemma wrk2_drain_batch buf :
  Forall (fun c => c <> []) buf ->
  forall output w,
    output <> [] ->
    wrk2_drain igr None false 1 output buf w
    = (Ret tt,
       mkWorld (trace w ++ batch_outputs (output :: buf)) (replies w)
               (match buf with [] => outbuf w | _ => [] end)
               (rc2 w) (tempname w) (ntemp w)).
Proof.
  induction 1 as [|c buf Hc Hbuf IH]; intros output w Ho.
  - simpl. rewrite (is_empty_false output Ho). destruct w; reflexivity.
  - cbn [wrk2_drain]. rewrite (is_empty_false output Ho), (is_empty_false c Hc).
    rewrite (IH c _ Hc). unfold wrk2_print, set_outbuf, record. simpl negb.
    cbv iota. cbn [trace replies outbuf rc2 tempname ntemp].
    f_equal. f_equal.
    + rewrite <- app_assoc. reflexivity.
    + now destruct buf.
Qed.

(** In the modes of a nested session every chunk goes through
    [output_get_interactive_result] and none gets a newline. *)
Lemma wrk2_drain_session real_cmd colon mode buf :
  mode <> 1 ->
  Forall (fun c => c <> []) buf ->
  forall output w,
    output <> [] ->
    wrk2_drain igr real_cmd colon mode output buf w
    = (Ret tt,
       mkWorld (trace w ++ map (fun c => Output (igr c real_cmd colon mode) false)
                              (output :: buf))
               (replies w) (match buf with [] => outbuf w | _ => [] end)
               (rc2 w) (tempname w) (ntemp w)).
Proof.
  intros Hm. induction 1 as [|c buf Hc Hbuf IH]; intros output w Ho.
  - simpl. rewrite (is_empty_false output Ho). unfold wrk2_print.
    destruct (Z.eqb_spec mode 1) as [E|E]; [contradiction|]. destruct w; reflexivity.
  - cbn [wrk2_drain]. rewrite (is_empty_false output Ho), (is_empty_false c Hc).
    rewrite (IH c _ Hc). unfold wrk2_print, set_outbuf, record.
    destruct (Z.eqb_spec mode 1) as [E|E]; [contradiction|].
    cbn [negb trace replies outbuf rc2 tempname ntemp].
    f_equal. f_equal.
    + rewrite <- app_assoc. reflexivity.
    + now destruct buf.
Qed.

End DrainFacts.

(** X1. Without streaming, a single command that succeeds has every
    chunk of the output buffer forwarded once, in the order the engine
    produced them and without a newline added, and the buffer is left
    empty. *)
Theorem wrk1_forwards_output_in_order cfg cmd echo w chunks :
  streamout cfg = false ->
  next_reply w = Returns 0 chunks ->
  Forall (fun c => c <> []) (outbuf w ++ chunks) ->
  let r := _stata_wrk1 cfg cmd echo w in
  fst r = Ret tt
  /\ trace (snd r)
     = trace w ++ Execute cmd echo
               :: map (fun c => Output c false) (outbuf w ++ chunks)
  /\ outbuf (snd r) = [].
Proof.
  intros Hs Hr Hf r. subst r. unfold _stata_wrk1. rewrite Hs.
  unfold try_except_KeyboardInterrupt. rewrite bind_eq.
  unfold StataSO_Execute. rewrite Hr. cbn [outbuf].
  rewrite (wrk1_drain_success _ Hf). cbn [fst snd trace outbuf set_outbuf].
  rewrite <- app_assoc. auto.
Qed.

Lemma wrk1_forwards_output_in_order_witness :
  let w := world_of [Returns 0 [py"a"; py"b"]] 0 in
  streamout blocking = false
  /\ next_reply w = Returns 0 [py"a"; py"b"]
  /\ trace (snd (_stata_wrk1 blocking (py"list") true w))
     = [Execute (py"list") true; Output (py"a") false; Output (py"b") false].
Proof.
  cbv zeta.
  assert (H1 : streamout blocking = false) by reflexivity.
  assert (H2 : next_reply (world_of [Returns 0 [py"a"; py"b"]] 0)
               = Returns 0 [py"a"; py"b"]) by reflexivity.
  assert (H3 : Forall (fun c : pystr => c <> [])
                 (outbuf (world_of [Returns 0 [py"a"; py"b"]] 0) ++ [py"a"; py"b"])).
  { repeat constructor; discriminate. }
  split; [exact H1|]. split; [exact H2|].
  exact (proj1 (proj2 (wrk1_forwards_output_in_order blocking (py"list") true
                         (world_of [Returns 0 [py"a"; py"b"]] 0) [py"a"; py"b"]
                         H1 H2 H3))).
Defined.

(** X2. Without streaming, a single command that fails raises
    [SystemError] carrying the first chunk of output, or the fixed
    message when that chunk is empty or there is none; nothing is
    forwarded, and the chunks behind the first one stay in the engine's
    buffer. *)
Theorem wrk1_error_carries_first_chunk cfg cmd echo w rc chunks :
  streamout cfg = false ->
  next_reply w = Returns rc chunks ->
  rc <> 0 ->
  let r := _stata_wrk1 cfg cmd echo w in
  let first := hd [] (outbuf w ++ chunks) in
  fst r = Raise (SystemError
                   (if is_empty first
                    then py"failed to execute the specified command"
                    else first))
  /\ trace (snd r) = trace w ++ [Execute cmd echo]
  /\ outbuf (snd r) = tl (outbuf w ++ chunks).
Proof.
  intros Hs Hr Hrc r first. subst r first. unfold _stata_wrk1. rewrite Hs.
  unfold try_except_KeyboardInterrupt. rewrite bind_eq.
  unfold StataSO_Execute. rewrite Hr. cbn [outbuf].
  destruct (outbuf w ++ chunks) as [|c buf]; cbn [wrk1_drain hd tl is_empty].
  - destruct (Z.eqb_spec rc 0) as [E|E]; [contradiction|]. auto.
  - destruct (is_empty c);
      destruct (Z.eqb_spec rc 0) as [E|E]; try contradiction; auto.
Qed.

Lemma wrk1_error_carries_first_chunk_witness :
  let w := world_of [Returns 111 [py"variable x not found"; py"r(111);"]] 0 in
  streamout blocking = false
  /\ next_reply w = Returns 111 [py"variable x not found"; py"r(111);"]
  /\ 111 <> 0
  /\ fst (_stata_wrk1 blocking (py"list x") false w)
     = Raise (SystemError (py"variable x not found"))
  /\ outbuf (snd (_stata_wrk1 blocking (py"list x") false w)) = [py"r(111);"].
Proof.
  cbv zeta.
  assert (H1 : streamout blocking = false) by reflexivity.
  assert (H2 : next_reply (world_of [Returns 111 [py"variable x not found";
                                                  py"r(111);"]] 0)
               = Returns 111 [py"variable x not found"; py"r(111);"]) by reflexivity.
  assert (H3 : 111 <> 0) by lia.
  repeat (split; [assumption|]).
  destruct (wrk1_error_carries_first_chunk blocking (py"list x") false
              (world_of [Returns 111 [py"variable x not found"; py"r(111);"]] 0)
              111 [py"variable x not found"; py"r(111);"] H1 H2 H3)
    as (Hf & _ & Hb).
  split; [exact Hf | exact Hb].
Defined.

(** X3. Without streaming, a batch (mode 1) that succeeds has its
    chunks forwarded in order, the last one with a newline and the
    others without; when there is no output nothing is printed. *)
Theorem wrk2_batch_forwards_output cfg igr cmd w chunks :
  streamout cfg = false ->
  next_reply w = Returns 0 chunks ->
  Forall (fun c => c <> []) (outbuf w ++ chunks) ->
  let r := _stata_wrk2 cfg igr cmd None false 1 w in
  fst r = Ret tt
  /\ trace (snd r)
     = trace w ++ Execute cmd false :: batch_outputs (outbuf w ++ chunks)
  /\ outbuf (snd r) = []
  /\ rc2 (snd r) = 0.
Proof.
  intros Hs Hr Hf r. subst r. unfold _stata_wrk2. rewrite Hs.
  unfold try_except_KeyboardInterrupt. rewrite !bind_eq.
  unfold StataSO_Execute. rewrite Hr. unfold set_rc2. cbv beta iota.
  rewrite !bind_eq. unfold get_output. cbn [outbuf].
  change (negb (0 =? 0)) with false. cbv beta iota.
  destruct (outbuf w ++ chunks) as [|c buf].
  - cbn. rewrite ?app_nil_r. auto.
  - inversion Hf as [|? ? Hc Hbuf]; subst.
    cbv beta iota. cbn [set_outbuf outbuf trace replies rc2 tempname ntemp].
    rewrite (wrk2_drain_batch igr buf Hbuf c _ Hc).
    unfold set_outbuf. cbn [fst snd trace outbuf rc2]. rewrite <- app_assoc.
    repeat split; auto. now destruct buf.
Qed.

Lemma wrk2_batch_forwards_output_witness :
  let w := world_of [Returns 0 [py"a"; py"b"; py"c"]] 7 in
  streamout blocking = false
  /\ next_reply w = Returns 0 [py"a"; py"b"; py"c"]
  /\ trace (snd (_stata_wrk2 blocking plain_result (py"include f") None false 1 w))
     = [Execute (py"include f") false; Output (py"a") false; Output (py"b") false;
        Output (py"c") true].
Proof.
  cbv zeta.
  assert (H1 : streamout blocking = false) by reflexivity.
  assert (H2 : next_reply (world_of [Returns 0 [py"a"; py"b"; py"c"]] 7)
               = Returns 0 [py"a"; py"b"; py"c"]) by reflexivity.
  assert (H3 : Forall (fun c : pystr => c <> [])
                 (outbuf (world_of [Returns 0 [py"a"; py"b"; py"c"]] 7)
                  ++ [py"a"; py"b"; py"c"])).
  { repeat constructor; discriminate. }
  split; [exact H1|]. split; [exact H2|].
  exact (proj1 (proj2 (wrk2_batch_forwards_output blocking plain_result
                         (py"include f") (world_of [Returns 0 [py"a"; py"b"; py"c"]] 7)
                         [py"a"; py"b"; py"c"] H1 H2 H3))).
Defined.

(** X4. Without streaming, the unit of a nested session (modes 2 and
    3) never raises: when it succeeds every chunk is printed through
    [output_get_interactive_result], in order and without newline; when
    it fails with a code other than 3000 only the first chunk is printed
    that way and the rest stays in the buffer; [rc2] holds the return
    code in both cases. *)
Theorem wrk2_session_output_is_formatted cfg igr cmd real_cmd colon mode w rc chunks :
  streamout cfg = false ->
  mode <> 1 ->
  next_reply w = Returns rc chunks ->
  rc <> 3000 ->
  Forall (fun c => c <> []) (outbuf w ++ chunks) ->
  let r := _stata_wrk2 cfg igr cmd real_cmd colon mode w in
  let shown c := Output (igr c real_cmd colon mode) false in
  fst r = Ret tt
  /\ rc2 (snd r) = rc
  /\ trace (snd r)
     = trace w ++ Execute cmd false
               :: (if rc =? 0 then map shown (outbuf w ++ chunks)
                   else [shown (hd [] (outbuf w ++ chunks))])
  /\ outbuf (snd r) = (if rc =? 0 then [] else tl (outbuf w ++ chunks)).
Proof.
  intros Hs Hm Hr H3 Hf r shown. subst r shown. unfold _stata_wrk2. rewrite Hs.
  unfold try_except_KeyboardInterrupt. rewrite !bind_eq.
  unfold StataSO_Execute. rewrite Hr. unfold set_rc2. cbv beta iota.
  rewrite !bind_eq. unfold get_output. cbn [outbuf].
  destruct (Z.eqb_spec rc 0) as [E0|E0]; cbn [negb].
  - destruct (outbuf w ++ chunks) as [|c buf].
    + cbn. rewrite ?app_nil_r. auto.
    + inversion Hf as [|? ? Hc Hbuf]; subst.
      cbn [set_outbuf outbuf trace replies rc2 tempname ntemp].
      cbv beta iota. cbn [set_outbuf outbuf trace replies rc2 tempname ntemp].
      rewrite (wrk2_drain_session igr real_cmd colon mode buf Hm Hbuf c _ Hc).
      unfold set_outbuf. cbn [fst snd trace outbuf rc2]. rewrite <- app_assoc.
      repeat split; auto. now destruct buf.
  - destruct (Z.eqb_spec rc 3000) as [E3|E3]; [contradiction|].
    destruct (Z.eqb_spec mode 1) as [E1|E1]; [contradiction|]. cbn [negb].
    unfold _print_no_streaming_output, log.
    destruct (outbuf w ++ chunks) as [|c buf]; cbn; rewrite <- app_assoc; auto.
Qed.

Lemma wrk2_session_output_is_formatted_witness :
  let w := world_of [Returns 3499 [py"x not found"; py"r(3499);"]] 0 in
  let r := _stata_wrk2 blocking plain_result (py"include f") (Some (py": x")) false 2 w in
  streamout blocking = false
  /\ 2 <> 1
  /\ next_reply w = Returns 3499 [py"x not found"; py"r(3499);"]
  /\ 3499 <> 3000
  /\ fst r = Ret tt
  /\ trace (snd r) = [Execute (py"include f") false; Output (py"x not found") false]
  /\ outbuf (snd r) = [py"r(3499);"].
Proof.
  cbv zeta.
  assert (H1 : streamout blocking = false) by reflexivity.
  assert (H2 : 2 <> 1) by lia.
  assert (H3 : next_reply (world_of [Returns 3499 [py"x not found"; py"r(3499);"]] 0)
               = Returns 3499 [py"x not found"; py"r(3499);"]) by reflexivity.
  assert (H4 : 3499 <> 3000) by lia.
  assert (H5 : Forall (fun c : pystr => c <> [])
                 (outbuf (world_of [Returns 3499 [py"x not found"; py"r(3499);"]] 0)
                  ++ [py"x not found"; py"r(3499);"])).
  { repeat constructor; discriminate. }
  repeat (split; [assumption|]).
  destruct (wrk2_session_output_is_formatted blocking plain_result (py"include f")
              (Some (py": x")) false 2
              (world_of [Returns 3499 [py"x not found"; py"r(3499);"]] 0)
              3499 [py"x not found"; py"r(3499);"] H1 H2 H3 H4 H5)
    as (Hf & _ & Ht & Hb).
  split; [exact Hf|]. split; [exact Ht | exact Hb].
Defined.

(* ===================================================================== *)
(** ** Which calls [run] can make                                         *)
(* ===================================================================== *)

Lemma emits_only_ret {A} ok (a : A) : emits_only ok (ret a).
Proof. intro w. exists []. now rewrite app_nil_r. Qed.

Lemma emits_only_raise {A} ok e : emits_only ok (@raise A e).
Proof. intro w. exists []. now rewrite app_nil_r. Qed.

Lemma emits_only_log ok e : ok e = true -> emits_only ok (log e).
Proof. intros H w. exists [e]. simpl. now rewrite H. Qed.

Lemma emits_only_write_text ok p c :
  (forall c', ok (WriteFile p c') = true) -> emits_only ok (write_text p c).
Proof.
  intros H w. unfold write_text.
  destruct (utf8_encodable c); eexists; (split; [reflexivity|]);
    simpl; now rewrite H.
Qed.

Lemma emits_only_bind {A B} ok (m : M A) (k : A -> M B) :
  emits_only ok m -> (forall a, emits_only ok (k a)) -> emits_only ok (bind m k).
Proof.
  intros Hm Hk w. rewrite bind_eq.
  destruct (Hm w) as (e1 & H1 & O1).
  destruct (m w) as [[a|ex] w1]; cbn [snd] in *.
  - destruct (Hk a w1) as (e2 & H2 & O2).
    exists (e1 ++ e2). rewrite H2, H1, <- app_assoc, forallb_app, O1, O2. auto.
  - exists e1. auto.
Qed.

Lemma emits_only_when ok b m : emits_only ok m -> emits_only ok (when b m).
Proof. destruct b; [auto | intros _; apply emits_only_ret]. Qed.

Lemma emits_only_weaken {A} (ok ok' : Event -> bool) (m : M A) :
  (forall e, ok e = true -> ok' e = true) -> emits_only ok m -> emits_only ok' m.
Proof.
  intros Hw Hm w. destruct (Hm w) as (evs & Ht & Ho).
  exists evs. split; [exact Ht|].
  rewrite forallb_forall in *. auto.
Qed.

Lemma emits_only_execute ok cmd echo :
  ok (Execute cmd echo) = true -> emits_only ok (StataSO_Execute cmd echo).
Proof.
  intros H w. exists [Execute cmd echo]. unfold StataSO_Execute.
  destruct (next_reply w); simpl; rewrite H; auto.
Qed.

Lemma emits_only_getTempFile ok :
  (forall p, ok (GetTempFile p) = true) -> emits_only ok getTempFile.
Proof. intros H w. eexists [_]. simpl. rewrite H. auto. Qed.

Lemma emits_only_get_rc2 ok : emits_only ok get_rc2.
Proof. intro w. exists []. now rewrite app_nil_r. Qed.

Section EmitFacts.

Variable cfg : Config.
Variable igr : pystr -> option pystr -> bool -> Z -> pystr.
Variable cc : pystr -> Compile.
Variable ok : Event -> bool.

Lemma forallb_weaken (p q : Event -> bool) l :
  (forall e, p e = true -> q e = true) -> forallb p l = true -> forallb q l = true.
Proof. intros H. rewrite !forallb_forall. auto. Qed.

Lemma wrk1_emits cmd echo :
  (forall e, worker_event cfg e = true -> ok e = true) ->
  emits_only ok (_stata_wrk1 cfg cmd echo).
Proof.
  intros Hok. apply (emits_only_weaken (worker_event cfg)); [exact Hok|].
  intro w. destruct (next_reply w) as [rc chunks|] eqn:Hr.
  - destruct (wrk1_returns cfg cmd echo w rc chunks Hr)
      as (post & Ht & _ & _ & Hon & Hoff).
    eexists. split; [exact Ht|]. unfold timer_of.
    destruct (streamout cfg) eqn:Es.
    + destruct (Hon eq_refl) as (Hp & _). subst post. simpl. now rewrite Es.
    + destruct (Hoff eq_refl) as (Ho & _). simpl.
      apply forallb_weaken with (p := is_output); [|exact Ho].
      intros [] He; try discriminate. simpl. now rewrite Es.
  - destruct (wrk1_interrupted cfg cmd echo w Hr) as (_ & Ht & _).
    eexists. split; [exact Ht|]. unfold timer_of, interrupt_handling.
    destruct (streamout cfg) eqn:Es; simpl; now rewrite ?Es.
Qed.

Lemma wrk2_emits cmd real_cmd colon mode :
  (forall e, worker_event cfg e = true -> ok e = true) ->
  emits_only ok (_stata_wrk2 cfg igr cmd real_cmd colon mode).
Proof.
  intros Hok. apply (emits_only_weaken (worker_event cfg)); [exact Hok|].
  intro w. destruct (next_reply w) as [rc chunks|] eqn:Hr.
  - destruct (wrk2_returns cfg igr cmd real_cmd colon mode w rc chunks Hr)
      as (post & Ht & _ & _ & Hon & Hoff).
    eexists. split; [exact Ht|]. unfold timer_of.
    destruct (streamout cfg) eqn:Es.
    + destruct (Hon eq_refl) as (Hp & _). subst post. simpl. now rewrite Es.
    + destruct (Hoff eq_refl) as (Ho & _). simpl.
      apply forallb_weaken with (p := is_output); [|exact Ho].
      intros [] He; try discriminate. simpl. now rewrite Es.
  - destruct (wrk2_interrupted cfg igr cmd real_cmd colon mode w Hr) as (_ & Ht & _).
    eexists. split; [exact Ht|]. unfold timer_of, interrupt_handling.
    destruct (streamout cfg) eqn:Es; simpl; now rewrite ?Es.
Qed.

Lemma stage_and_include_emits quietly input_cmd src transcript has_colon mode :
  (forall e, plain_event cfg e = true -> ok e = true) ->
  emits_only ok
    (stage_and_include cfg igr quietly input_cmd src transcript has_colon mode).
Proof.
  intro Hok.
  assert (Hw : forall e, worker_event cfg e = true -> ok e = true).
  { intros e He. apply Hok. destruct e; simpl in *; auto. }
  unfold stage_and_include.
  apply emits_only_bind; [apply emits_only_getTempFile; intro; now apply Hok|].
  intro tmpf. apply emits_only_bind; [apply emits_only_log; now apply Hok|].
  intros _. destruct quietly; now apply wrk2_emits.
Qed.

Lemma mata_turn_emits quietly input_cmd has_colon incmd a :
  (forall e, plain_event cfg e = true -> ok e = true) ->
  emits_only ok (mata_turn cfg igr quietly input_cmd has_colon incmd a).
Proof.
  intro Hok. unfold mata_turn.
  apply emits_only_bind; [now apply stage_and_include_emits|].
  intros _. apply emits_only_bind; [apply emits_only_get_rc2|].
  intro rc. destruct (negb (rc =? 0)); [destruct (negb (rc =? 3000))|];
    apply emits_only_ret.
Qed.

Lemma python_turn_emits quietly input_cmd has_colon incmd a :
  (forall e, plain_event cfg e = true -> ok e = true) ->
  emits_only ok (python_turn cfg igr cc quietly input_cmd has_colon incmd a).
Proof.
  intro Hok. unfold python_turn.
  destruct (negb (eqb (prefix 6 (inprompt a ++ incmd)) (py"stata:")));
    [destruct (cc (incmds1 a ++ incmd))|]; cbv beta iota zeta;
    try apply emits_only_ret;
    (apply emits_only_bind; [now apply stage_and_include_emits|]);
    intros _; (apply emits_only_bind; [apply emits_only_get_rc2|]);
    intro rc; destruct (negb (rc =? 0)); apply emits_only_ret.
Qed.

Lemma get_user_input_emits prompt line :
  (forall e, core_event cfg e = true -> ok e = true) ->
  emits_only ok (_get_user_input prompt line).
Proof.
  intro Hok. unfold _get_user_input.
  apply emits_only_bind; [apply emits_only_log; now apply Hok|].
  intros _. destruct line; [apply emits_only_ret | apply emits_only_raise].
Qed.

Lemma core_of_plain :
  (forall e, core_event cfg e = true -> ok e = true) ->
  forall e, plain_event cfg e = true -> ok e = true.
Proof. intros Hok e He. apply Hok. destruct e; simpl in *; auto. Qed.

Lemma mata_loop_emits quietly input_cmd has_colon ins :
  (forall e, core_event cfg e = true -> ok e = true) ->
  forall incmd a,
    emits_only ok (mata_loop cfg igr quietly input_cmd has_colon ins incmd a).
Proof.
  intro Hok. induction ins as [|l ins IH]; intros incmd a;
    rewrite mata_loop_unfold;
    (destruct (eqb incmd (py"end")); [apply emits_only_log; now apply Hok|]);
    (apply emits_only_bind; [apply mata_turn_emits; now apply core_of_plain|]);
    intros [|prompt a']; try apply emits_only_ret;
    (apply emits_only_bind; [now apply get_user_input_emits|]); intro l0.
  - apply emits_only_ret.
  - apply IH.
Qed.

Lemma python_loop_emits quietly input_cmd has_colon ins :
  (forall e, core_event cfg e = true -> ok e = true) ->
  forall incmd a,
    emits_only ok (python_loop cfg igr cc quietly input_cmd has_colon ins incmd a).
Proof.
  intro Hok. induction ins as [|l ins IH]; intros incmd a;
    rewrite python_loop_unfold;
    (destruct (eqb incmd (py"end")); [apply emits_only_log; now apply Hok|]);
    (apply emits_only_bind; [apply python_turn_emits; now apply core_of_plain|]);
    intros [|prompt a']; try apply emits_only_ret;
    (apply emits_only_bind; [now apply get_user_input_emits|]); intro l0.
  - apply emits_only_ret.
  - apply IH.
Qed.

Lemma graph_toggles_emit inl :
  (forall e, plain_event cfg e = true -> ok e = true) ->
  emits_only ok (graph_prologue inl) /\ emits_only ok (graph_epilogue cfg inl).
Proof.
  intro Hok. unfold graph_prologue, graph_epilogue. split.
  - apply emits_only_when. apply emits_only_bind;
      [apply emits_only_execute; now apply Hok | intro; apply emits_only_ret].
  - apply emits_only_when. apply emits_only_bind.
    + apply emits_only_when. apply emits_only_log. now apply Hok.
    + intros _. apply emits_only_bind;
        [apply emits_only_execute; now apply Hok | intro; apply emits_only_ret].
Qed.

End EmitFacts.

Section RunEmits.

Variable cfg : Config.
Variable igr : pystr -> option pystr -> bool -> Z -> pystr.
Variable cc : pystr -> Compile.
Variable ok : Event -> bool.

Lemma clear_emits :
  ok ClearOutputBuffer = true -> emits_only ok StataSO_ClearOutputBuffer.
Proof. intros H w. exists [ClearOutputBuffer]. simpl. now rewrite H. Qed.

(** Every call of [run] on a command that opens no session. *)
Lemma run_emits_plain ins cmd quietly echo inline :
  (forall e, plain_event cfg e = true -> ok e = true) ->
  opens_no_session cmd ->
  emits_only ok (run cfg igr cc ins cmd quietly echo inline).
Proof.
  intros Hok Hns.
  assert (Hw : forall e, worker_event cfg e = true -> ok e = true).
  { intros e He. apply Hok. destruct e; simpl in *; auto. }
  unfold run. destruct (resolve_inline cfg inline) as [inl|];
    [|apply emits_only_raise].
  apply emits_only_bind; [apply clear_emits; now apply Hok|]. intros _.
  destruct (graph_toggles_emit cfg ok inl Hok) as (Hpro & Hepi).
  destruct (splitlines cmd) as [|cmd0 [|cmd1 more]] eqn:Hs.
  - apply emits_only_ret.
  - apply emits_only_bind; [exact Hpro|]. intros _.
    apply emits_only_bind; [|intros _; exact Hepi].
    cbv zeta. specialize (Hns cmd0 Hs).
    destruct (is_trigger_false _ Hns) as (Hm & Hp). rewrite Hm, Hp.
    destruct quietly; now apply wrk1_emits.
  - apply emits_only_bind; [exact Hpro|]. intros _.
    apply emits_only_bind; [apply emits_only_getTempFile; intro; now apply Hok|].
    intro tmpf.
    apply emits_only_bind; [apply emits_only_write_text; intro; now apply Hok|].
    intros _. apply emits_only_bind; [destruct quietly; now apply wrk2_emits|].
    intros _. exact Hepi.
Qed.

(** Every call of [run] on any command. *)
Lemma run_emits_core ins cmd quietly echo inline :
  (forall e, core_event cfg e = true -> ok e = true) ->
  emits_only ok (run cfg igr cc ins cmd quietly echo inline).
Proof.
  intros Hc.
  pose proof (core_of_plain cfg ok Hc) as Hok.
  assert (Hw : forall e, worker_event cfg e = true -> ok e = true).
  { intros e He. apply Hok. destruct e; simpl in *; auto. }
  unfold run. destruct (resolve_inline cfg inline) as [inl|];
    [|apply emits_only_raise].
  apply emits_only_bind; [apply clear_emits; now apply Hok|]. intros _.
  destruct (graph_toggles_emit cfg ok inl Hok) as (Hpro & Hepi).
  destruct (splitlines cmd) as [|cmd0 [|cmd1 more]] eqn:Hs.
  - apply emits_only_ret.
  - apply emits_only_bind; [exact Hpro|]. intros _.
    apply emits_only_bind; [|intros _; exact Hepi].
    cbv zeta.
    destruct (eqb (strip cmd0) (py"mata") || eqb (strip cmd0) (py"mata:")).
    + unfold mata_session.
      apply emits_only_bind; [apply emits_only_log; now apply Hok|]. intros _.
      apply emits_only_bind; [apply emits_only_log; now apply Hc|]. intros _.
      apply emits_only_bind; [now apply (get_user_input_emits cfg)|]. intro l.
      now apply mata_loop_emits.
    + destruct (eqb (strip cmd0) (py"python") || eqb (strip cmd0) (py"python:")).
      * unfold python_session.
        apply emits_only_bind; [apply emits_only_log; now apply Hok|]. intros _.
        apply emits_only_bind; [apply emits_only_log; now apply Hc|]. intros _.
        apply emits_only_bind; [now apply (get_user_input_emits cfg)|]. intro l.
        now apply python_loop_emits.
      * destruct quietly; now apply wrk1_emits.
  - apply emits_only_bind; [exact Hpro|]. intros _.
    apply emits_only_bind; [apply emits_only_getTempFile; intro; now apply Hok|].
    intro tmpf.
    apply emits_only_bind; [apply emits_only_write_text; intro; now apply Hok|].
    intros _. apply emits_only_bind; [destruct quietly; now apply wrk2_emits|].
    intros _. exact Hepi.
Qed.

End RunEmits.

(** X5. Whatever the command and the answers of the engine and of the
    user, [run] uses one way of delivering output only: with streaming
    it never forwards output itself, without streaming it never starts,
    feeds, joins or stops a poller. *)
Theorem run_poller_and_output_exclusive cfg igr cc ins cmd quietly echo inline w :
  exists evs,
    trace (snd (run cfg igr cc ins cmd quietly echo inline w)) = trace w ++ evs
    /\ forallb (fun e => if streamout cfg then negb (is_output e)
                         else negb (is_poller_call e)) evs = true.
Proof.
  apply (run_emits_core cfg igr cc
           (fun e => if streamout cfg then negb (is_output e)
                     else negb (is_poller_call e))).
  intros e He. destruct e; simpl in *; destruct (streamout cfg); auto.
Qed.

(** X6. A command that opens no nested session (several lines, or one
    line that does not strip to a trigger token) never prompts the user
    and never writes a separator, and what [run] does is the same
    whatever the user would have typed. *)
Theorem run_without_session_never_prompts cfg igr cc cmd quietly echo inline w :
  opens_no_session cmd ->
  (forall ins ins',
      run cfg igr cc ins cmd quietly echo inline w
      = run cfg igr cc ins' cmd quietly echo inline w)
  /\ forall ins, exists evs,
      trace (snd (run cfg igr cc ins cmd quietly echo inline w)) = trace w ++ evs
      /\ forallb (fun e => negb (is_dialogue e)) evs = true.
Proof.
  intro Hns. split.
  - intros ins ins'. unfold run.
    destruct (resolve_inline cfg inline) as [inl|]; [|reflexivity].
    destruct (splitlines cmd) as [|cmd0 [|cmd1 more]] eqn:Hs; try reflexivity.
    cbv zeta. specialize (Hns cmd0 Hs).
    destruct (is_trigger_false _ Hns) as (Hm & Hp). rewrite Hm, Hp. reflexivity.
  - intro ins.
    apply (run_emits_plain cfg igr cc (fun e => negb (is_dialogue e))); [|exact Hns].
    intros e He. destruct e; simpl in *; auto; discriminate.
Qed.

Lemma run_without_session_never_prompts_witness :
  let cmd := py"mata" ++ NL ++ py"x = 1" ++ NL ++ py"end" in
  opens_no_session cmd
  /\ run blocking plain_result open_paren_check [py"end"] cmd false false InlineNone
       (world_of [] 0)
     = run blocking plain_result open_paren_check [] cmd false false InlineNone
         (world_of [] 0).
Proof.
  cbv zeta.
  assert (H : opens_no_session (py"mata" ++ NL ++ py"x = 1" ++ NL ++ py"end")).
  { intros cmd0 Hs. vm_compute in Hs. discriminate Hs. }
  split; [exact H|].
  exact (proj1 (run_without_session_never_prompts blocking plain_result
                  open_paren_check _ false false InlineNone (world_of [] 0) H)
           [py"end"] []).
Defined.

(* ===================================================================== *)
(** ** The shape of the command text                                      *)
(* ===================================================================== *)

Lemma splitlines_from_nil cur x :
  splitlines_from cur x = [] <-> cur = [] /\ x = [].
Proof.
  revert cur. induction x as [|c r IH]; intro cur.
  - simpl. destruct cur; split; intro H; auto; try discriminate.
    destruct H; discriminate.
  - split; [|intros (_ & H); discriminate H].
    intro H. exfalso. simpl in H.
    destruct (c =? 13)%N.
    + destruct r as [|d r']; [discriminate H|].
      destruct (d =? 10)%N; discriminate H.
    + destruct (is_linebreak c); [discriminate H|].
      apply IH in H. destruct H; discriminate.
Qed.

(** Only the empty text has no line. *)
Lemma splitlines_nil_iff x : splitlines x = [] <-> x = [].
Proof.
  unfold splitlines. rewrite splitlines_from_nil. split; [now intros (_ & H) | auto].
Qed.

Section ShapeFacts.

Variable cfg : Config.
Variable igr : pystr -> option pystr -> bool -> Z -> pystr.
Variable cc : pystr -> Compile.

Lemma mata_session_opening quietly input_cmd ins w :
  exists evs,
    trace (snd (mata_session cfg igr quietly input_cmd ins w))
    = trace w ++ [Print (py". " ++ input_cmd);
                  Displayln (py"{hline 49} mata (type {cmd:end} to exit) {hline}");
                  Input (py": ")] ++ evs.
Proof.
  destruct ins as [|l ins].
  - exists []. unfold mata_session, bind, _get_user_input, log, raise. simpl.
    rewrite <- !app_assoc. reflexivity.
  - rewrite mata_session_cons.
    match goal with |- context [mata_loop _ _ ?q ?ic ?h ?n ?x ?a ?w1] =>
      destruct (mata_loop_total cfg igr q ic h n x a w1) as (evs & He & _)
    end.
    cbv zeta in He. exists evs. rewrite He, !trace_record, <- !app_assoc. reflexivity.
Qed.

Lemma python_session_opening quietly input_cmd ins w :
  exists evs,
    trace (snd (python_session cfg igr cc quietly input_cmd ins w))
    = trace w ++ [Print (py". " ++ input_cmd);
                  Displayln (py"{hline 47} python (type {cmd:end} to exit) {hline}");
                  Input (py">>> ")] ++ evs.
Proof.
  destruct ins as [|l ins].
  - exists []. unfold python_session, bind, _get_user_input, log, raise. simpl.
    rewrite <- !app_assoc. reflexivity.
  - rewrite python_session_cons.
    match goal with |- context [python_loop _ _ _ ?q ?ic ?h ?n ?x ?a ?w1] =>
      destruct (python_loop_total cfg igr cc q ic h n x a w1) as (evs & He & _)
    end.
    cbv zeta in He. exists evs. rewrite He, !trace_record, <- !app_assoc. reflexivity.
Qed.

(** A trigger line goes to its session. *)
Lemma dispatch_trigger ins cmd cmd0 quietly echo :
  splitlines cmd = [cmd0] ->
  is_trigger (strip cmd0) = true ->
  dispatch cfg igr cc ins cmd quietly echo
  = if eqb (strip cmd0) (py"mata") || eqb (strip cmd0) (py"mata:")
    then mata_session cfg igr quietly (strip cmd0) ins
    else python_session cfg igr cc quietly (strip cmd0) ins.
Proof.
  intros Hs Ht. unfold dispatch. rewrite Hs. cbv zeta.
  destruct (eqb (strip cmd0) (py"mata") || eqb (strip cmd0) (py"mata:")) eqn:Hm;
    [reflexivity|].
  unfold is_trigger in Ht. rewrite Hm in Ht. simpl in Ht. now rewrite Ht.
Qed.

(** A command with a line makes [dispatch] call something. *)
Lemma dispatch_first_event ins cmd quietly echo w :
  splitlines cmd <> [] ->
  exists e evs,
    trace (snd (dispatch cfg igr cc ins cmd quietly echo w)) = trace w ++ e :: evs.
Proof.
  intro Hne. destruct (splitlines cmd) as [|cmd0 [|cmd1 more]] eqn:Hs;
    [contradiction| |].
  - destruct (is_trigger (strip cmd0)) eqn:Ht.
    + rewrite (dispatch_trigger ins cmd cmd0 quietly echo Hs Ht).
      destruct (eqb (strip cmd0) (py"mata") || eqb (strip cmd0) (py"mata:")).
      * destruct (mata_session_opening quietly (strip cmd0) ins w) as (evs & He).
        eexists. eexists. rewrite He. reflexivity.
      * destruct (python_session_opening quietly (strip cmd0) ins w) as (evs & He).
        eexists. eexists. rewrite He. reflexivity.
    + rewrite (dispatch_single cfg igr cc ins cmd cmd0 quietly echo Hs Ht).
      destruct (wrk1_shape cfg (quiet quietly cmd0) echo w) as (post & He & _).
      rewrite He. unfold timer_of. destruct (streamout cfg); eexists; eexists;
        reflexivity.
  - assert (H2 : (2 <= List.length (splitlines cmd))%nat)
      by (rewrite Hs; simpl; lia).
    destruct (utf8_encodable cmd) eqn:Hu.
    + rewrite (dispatch_batch cfg igr cc ins cmd quietly echo w H2 Hu).
      destruct (wrk2_shape cfg igr (include_of quietly (tempname w (ntemp w))) None
                  false 1 (with_staging cmd w)) as (post & He & _).
      rewrite He, trace_with_staging, <- app_assoc. eexists; eexists; reflexivity.
    + rewrite (dispatch_batch_unencodable cfg igr cc ins cmd quietly echo w H2 Hu).
      cbn [snd]. rewrite trace_with_staging. eexists; eexists; reflexivity.
Qed.

End ShapeFacts.

(** X7. [run] does nothing but clear the output buffer exactly when
    the command text is the empty string: then it returns at once, with
    no graph toggle even when [inline] is true; any other text, a lone
    newline or blanks included, makes it go on to a further call. *)
Theorem run_is_idle_only_on_empty_text cfg igr cc ins cmd quietly echo inline inl w :
  resolve_inline cfg inline = Some inl ->
  let r := run cfg igr cc ins cmd quietly echo inline w in
  (cmd = [] -> r = (Ret tt, set_outbuf [] (record ClearOutputBuffer w)))
  /\ (cmd <> [] ->
      exists e evs, trace (snd r) = trace w ++ ClearOutputBuffer :: e :: evs).
Proof.
  intros Hi r. subst r. split.
  - intros ->. unfold run. rewrite Hi. reflexivity.
  - intro Hne.
    assert (Hs : splitlines cmd <> []) by (now rewrite splitlines_nil_iff).
    destruct inl.
    + (* the first call is the graph toggle, interrupted or not *)
      destruct (next_reply w) as [rc chunks|] eqn:Hr.
      * rewrite (run_eq cfg igr cc ins cmd quietly echo inline true w Hi Hs)
          by (intros _; rewrite Hr; discriminate).
        pose proof (bind_epilogue cfg (dispatch cfg igr cc ins cmd quietly echo) true
                      (entered true w)) as Hb.
        cbv zeta in Hb.
        destruct (dispatch_total cfg igr cc ins cmd quietly echo (entered true w))
          as (evs & He & _).
        cbv zeta in He. rewrite trace_entered in He.
        destruct (fst (dispatch cfg igr cc ins cmd quietly echo (entered true w)))
          as [[]|ex].
        -- eexists. eexists. rewrite Hb, He, <- !app_assoc. reflexivity.
        -- eexists. eexists. rewrite Hb. cbn [snd]. rewrite He, <- !app_assoc.
           reflexivity.
      * exists (Execute gr_list_on false), [].
        unfold run. rewrite Hi.
        destruct (splitlines cmd) as [|cmd0 [|cmd1 more]]; [contradiction| |];
          rewrite (bind_eq StataSO_ClearOutputBuffer);
          unfold StataSO_ClearOutputBuffer at 1; cbv beta iota;
          rewrite (bind_eq (graph_prologue true));
          unfold graph_prologue, when; rewrite bind_eq; unfold StataSO_Execute;
          change (next_reply (set_outbuf [] (record ClearOutputBuffer w)))
            with (next_reply w); rewrite Hr; cbn; rewrite <- app_assoc; reflexivity.
    + rewrite (run_eq cfg igr cc ins cmd quietly echo inline false w Hi Hs)
        by discriminate.
      pose proof (bind_epilogue cfg (dispatch cfg igr cc ins cmd quietly echo) false
                    (entered false w)) as Hb.
      cbv zeta in Hb.
      destruct (dispatch_first_event cfg igr cc ins cmd quietly echo (entered false w) Hs)
        as (e & evs & He).
      rewrite trace_entered in He.
      destruct (fst (dispatch cfg igr cc ins cmd quietly echo (entered false w)))
        as [[]|ex].
      * exists e, evs. rewrite Hb, He. unfold epilogue_events.
        rewrite app_nil_r, <- app_assoc. reflexivity.
      * exists e, evs. rewrite Hb. cbn [snd]. rewrite He, <- app_assoc. reflexivity.
Qed.

Lemma run_is_idle_only_on_empty_text_witness :
  resolve_inline blocking (InlineBool true) = Some true
  /\ run blocking plain_result open_paren_check [] [] false false (InlineBool true)
       (world_of [] 0)
     = (Ret tt, set_outbuf [] (record ClearOutputBuffer (world_of [] 0)))
  /\ exists e evs,
       trace (snd (run blocking plain_result open_paren_check [] NL false false
                     (InlineBool true) (world_of [] 0)))
       = trace (world_of [] 0) ++ ClearOutputBuffer :: e :: evs.
Proof.
  assert (H : resolve_inline blocking (InlineBool true) = Some true) by reflexivity.
  split; [exact H|]. split.
  - exact (proj1 (run_is_idle_only_on_empty_text blocking plain_result
                    open_paren_check [] [] false false (InlineBool true) true
                    (world_of [] 0) H) eq_refl).
  - apply (proj2 (run_is_idle_only_on_empty_text blocking plain_result
                    open_paren_check [] NL false false (InlineBool true) true
                    (world_of [] 0) H)).
    discriminate.
Defined.

(** X8. [echo] only matters for a single command: when the text has
    several lines, or is a session trigger, [run] does the same with
    [echo] on and off. *)
Theorem run_echo_only_for_single_command cfg igr cc ins cmd quietly echo echo'
    inline w :
  (forall cmd0, splitlines cmd = [cmd0] -> is_trigger (strip cmd0) = true) ->
  run cfg igr cc ins cmd quietly echo inline w
  = run cfg igr cc ins cmd quietly echo' inline w.
Proof.
  intro H. unfold run.
  destruct (resolve_inline cfg inline) as [inl|]; [|reflexivity].
  destruct (splitlines cmd) as [|cmd0 [|cmd1 more]] eqn:Hs; try reflexivity.
  specialize (H cmd0 eq_refl). cbv zeta.
  destruct (eqb (strip cmd0) (py"mata") || eqb (strip cmd0) (py"mata:")) eqn:Hm;
    [reflexivity|].
  unfold is_trigger in H. rewrite Hm in H. simpl in H. now rewrite H.
Qed.

Lemma run_echo_only_for_single_command_witness :
  let cmd := py"sysuse auto" ++ NL ++ py"summarize" in
  (forall cmd0, splitlines cmd = [cmd0] -> is_trigger (strip cmd0) = true)
  /\ run blocking plain_result open_paren_check [] cmd false true InlineNone
       (world_of [] 0)
     = run blocking plain_result open_paren_check [] cmd false false InlineNone
         (world_of [] 0).
Proof.
  cbv zeta.
  assert (H : forall cmd0,
             splitlines (py"sysuse auto" ++ NL ++ py"summarize") = [cmd0] ->
             is_trigger (strip cmd0) = true).
  { intros cmd0 Hs. vm_compute in Hs. discriminate Hs. }
  split; [exact H|].
  exact (run_echo_only_for_single_command blocking plain_result open_paren_check []
           _ false true false InlineNone (world_of [] 0) H).
Defined.

(** X9. Without streaming and without inline graphs, [run] raises
    [SystemError] only for a command that opens no session and that the
    engine answered with a non-zero return code: inside a nested
    session no answer of the engine, error code or interrupt, makes
    [run] raise [SystemError]. *)
Theorem run_raises_SystemError_only_outside_sessions cfg igr cc ins cmd quietly
    echo inline w msg :
  streamout cfg = false ->
  resolve_inline cfg inline = Some false ->
  fst (run cfg igr cc ins cmd quietly echo inline w) = Raise (SystemError msg) ->
  opens_no_session cmd
  /\ exists rc chunks, next_reply w = Returns rc chunks /\ rc <> 0.
Proof.
  intros Hs Hi Hraise.
  cut (match fst (run cfg igr cc ins cmd quietly echo inline w) with
       | Raise (SystemError _) =>
           opens_no_session cmd
           /\ exists rc chunks, next_reply w = Returns rc chunks /\ rc <> 0
       | _ => True
       end).
  { rewrite Hraise. auto. }
  clear Hraise.
  destruct (splitlines cmd) as [|cmd0 [|cmd1 more]] eqn:Hl.
  - unfold run. rewrite Hi, Hl. exact I.
  - assert (Hne : splitlines cmd <> []) by (rewrite Hl; discriminate).
    rewrite (run_eq cfg igr cc ins cmd quietly echo inline false w Hi Hne)
      by discriminate.
    rewrite bind_eq.
    destruct (is_trigger (strip cmd0)) eqn:Ht.
    + (* a session: it returns or meets the end of the input *)
      rewrite (dispatch_trigger cfg igr cc ins cmd cmd0 quietly echo Hl Ht).
      destruct (eqb (strip cmd0) (py"mata") || eqb (strip cmd0) (py"mata:")).
      * destruct (mata_session_total cfg igr quietly (strip cmd0) ins (entered false w))
          as (evs & _ & Hr). cbv zeta in Hr.
        destruct (mata_session cfg igr quietly (strip cmd0) ins (entered false w))
          as [[[]|ex] w1]; cbn [fst] in *; [exact I|].
        destruct Hr as [Hr|Hr]; [discriminate Hr|]. inversion Hr. exact I.
      * destruct (python_session_total cfg igr cc quietly (strip cmd0) ins
                    (entered false w)) as (evs & _ & Hr). cbv zeta in Hr.
        destruct (python_session cfg igr cc quietly (strip cmd0) ins (entered false w))
          as [[[]|ex] w1]; cbn [fst] in *; [exact I|].
        destruct Hr as [Hr|Hr]; [discriminate Hr|]. inversion Hr. exact I.
    + assert (Hno : opens_no_session cmd).
      { intros c0 Hc. rewrite Hl in Hc. inversion Hc; subst. exact Ht. }
      rewrite (dispatch_single cfg igr cc ins cmd cmd0 quietly echo Hl Ht).
      destruct (next_reply w) as [rc chunks|] eqn:Hr.
      * destruct (wrk1_returns cfg (quiet quietly cmd0) echo (entered false w) rc
                    chunks Hr) as (post & _ & _ & _ & _ & Hoff).
        destruct (Hoff Hs) as (_ & Hz & Hnz).
        destruct (_stata_wrk1 cfg (quiet quietly cmd0) echo (entered false w))
          as [[[]|ex] w1]; cbn [fst] in *; [exact I|].
        destruct (Z.eq_dec rc 0) as [E|E]; [specialize (Hz E); discriminate Hz|].
        destruct (Hnz E) as (_ & msg' & Hm). inversion Hm. eauto.
      * destruct (wrk1_interrupted cfg (quiet quietly cmd0) echo (entered false w) Hr)
          as (Hf & _).
        destruct (_stata_wrk1 cfg (quiet quietly cmd0) echo (entered false w))
          as [[[]|ex] w1]; cbn [fst] in *; [exact I | discriminate Hf].
  - assert (Hne : splitlines cmd <> []) by (rewrite Hl; discriminate).
    assert (H2 : (2 <= List.length (splitlines cmd))%nat)
      by (rewrite Hl; simpl; lia).
    assert (Hno : opens_no_session cmd).
    { intros c0 Hc. rewrite Hl in Hc. discriminate Hc. }
    rewrite (run_eq cfg igr cc ins cmd quietly echo inline false w Hi Hne)
      by discriminate.
    rewrite bind_eq.
    destruct (utf8_encodable cmd) eqn:Hu;
      [|rewrite (dispatch_batch_unencodable cfg igr cc ins cmd quietly echo
                   (entered false w) H2 Hu); exact I].
    rewrite (dispatch_batch cfg igr cc ins cmd quietly echo (entered false w) H2 Hu).
    destruct (next_reply w) as [rc chunks|] eqn:Hr.
    + destruct (wrk2_returns cfg igr
                  (include_of quietly
                     (tempname (entered false w) (ntemp (entered false w))))
                  None false 1 (with_staging cmd (entered false w)) rc chunks Hr)
        as (post & _ & _ & _ & _ & Hoff).
      destruct (Hoff Hs) as (_ & H3 & Hz & _ & Hx).
      destruct (_stata_wrk2 cfg igr _ None false 1 (with_staging cmd (entered false w)))
        as [[[]|ex] w1]; cbn [fst] in *; [exact I|].
      destruct (Z.eq_dec rc 0) as [E|E]; [specialize (Hz E); discriminate Hz|].
      destruct (Z.eq_dec rc 3000) as [E3|E3];
        [destruct (H3 E3) as (_ & Hf); discriminate Hf|].
      destruct (Hx E E3 eq_refl) as (_ & Hm). inversion Hm. eauto.
    + destruct (wrk2_interrupted cfg igr
                  (include_of quietly
                     (tempname (entered false w) (ntemp (entered false w))))
                  None false 1 (with_staging cmd (entered false w)) Hr)
        as (Hf & _).
      destruct (_stata_wrk2 cfg igr _ None false 1 (with_staging cmd (entered false w)))
        as [[[]|ex] w1]; cbn [fst] in *; [exact I | discriminate Hf].
Qed.

(** X9 at a command that the engine rejects with code 601. *)
Lemma run_raises_SystemError_only_outside_sessions_witness :
  let w := world_of [Returns 601 [py"file not found"]] 0 in
  streamout blocking = false
  /\ resolve_inline blocking InlineNone = Some false
  /\ fst (run blocking plain_result open_paren_check [] (py"use nowhere") false false
            InlineNone w)
     = Raise (SystemError (py"file not found"))
  /\ opens_no_session (py"use nowhere")
  /\ exists rc chunks, next_reply w = Returns rc chunks /\ rc <> 0.
Proof.
  cbv zeta.
  assert (H1 : streamout blocking = false) by reflexivity.
  assert (H2 : resolve_inline blocking InlineNone = Some false) by reflexivity.
  assert (H3 : fst (run blocking plain_result open_paren_check [] (py"use nowhere")
                      false false InlineNone
                      (world_of [Returns 601 [py"file not found"]] 0))
               = Raise (SystemError (py"file not found"))) by reflexivity.
  split; [exact H1|]. split; [exact H2|]. split; [exact H3|].
  exact (run_raises_SystemError_only_outside_sessions blocking plain_result
           open_paren_check [] (py"use nowhere") false false InlineNone
           (world_of [Returns 601 [py"file not found"]] 0) (py"file not found")
           H1 H2 H3).
Defined.

(** X10. A single line that strips to a trigger token opens its
    session whatever white space surrounds it: after the buffer is
    cleared (and without inline graphs) [run] echoes the stripped token
    behind [". "], writes the banner of the session's kind and reads
    the first line at the primary prompt of that kind. *)
Theorem run_trigger_opens_session cfg igr cc ins cmd cmd0 quietly echo inline w :
  splitlines cmd = [cmd0] ->
  is_trigger (strip cmd0) = true ->
  resolve_inline cfg inline = Some false ->
  exists evs,
    trace (snd (run cfg igr cc ins cmd quietly echo inline w))
    = trace w ++ ClearOutputBuffer :: opening_of (strip cmd0) ++ evs.
Proof.
  intros Hl Ht Hi.
  assert (Hne : splitlines cmd <> []) by (rewrite Hl; discriminate).
  rewrite (run_eq cfg igr cc ins cmd quietly echo inline false w Hi Hne)
    by discriminate.
  pose proof (bind_epilogue cfg (dispatch cfg igr cc ins cmd quietly echo) false
                (entered false w)) as Hb.
  cbv zeta in Hb.
  assert (Hd : exists evs,
             trace (snd (dispatch cfg igr cc ins cmd quietly echo (entered false w)))
             = trace w ++ ClearOutputBuffer :: opening_of (strip cmd0) ++ evs).
  { rewrite (dispatch_trigger cfg igr cc ins cmd cmd0 quietly echo Hl Ht).
    unfold opening_of.
    destruct (eqb (strip cmd0) (py"mata") || eqb (strip cmd0) (py"mata:")).
    - destruct (mata_session_opening cfg igr quietly (strip cmd0) ins (entered false w))
        as (evs & He).
      exists evs. rewrite He, trace_entered, <- !app_assoc. reflexivity.
    - destruct (python_session_opening cfg igr cc quietly (strip cmd0) ins
                  (entered false w)) as (evs & He).
      exists evs. rewrite He, trace_entered, <- !app_assoc. reflexivity. }
  destruct Hd as (evs & Hd).
  destruct (fst (dispatch cfg igr cc ins cmd quietly echo (entered false w)))
    as [[]|ex].
  - exists evs. rewrite Hb, Hd. unfold epilogue_events. now rewrite app_nil_r.
  - exists evs. rewrite Hb. cbn [snd]. exact Hd.
Qed.

Lemma run_trigger_opens_session_witness :
  let cmd := [32%N; 9%N] ++ py"python:" ++ [32%N] in
  splitlines cmd = [cmd]
  /\ is_trigger (strip cmd) = true
  /\ resolve_inline blocking InlineNone = Some false
  /\ exists evs,
       trace (snd (run blocking plain_result open_paren_check [py"end"] cmd false
                     false InlineNone (world_of [] 0)))
       = [ClearOutputBuffer; Print (py". python:");
          Displayln (py"{hline 47} python (type {cmd:end} to exit) {hline}");
          Input (py">>> ")] ++ evs.
Proof.
  cbv zeta.
  set (cmd := [32%N; 9%N] ++ py"python:" ++ [32%N]).
  assert (H1 : splitlines cmd = [cmd]) by reflexivity.
  assert (H2 : is_trigger (strip cmd) = true) by reflexivity.
  assert (H3 : resolve_inline blocking InlineNone = Some false) by reflexivity.
  repeat (split; [assumption|]).
  destruct (run_trigger_opens_session blocking plain_result open_paren_check
              [py"end"] cmd cmd false false InlineNone (world_of [] 0) H1 H2 H3)
    as (evs & He).
  exists evs. exact He.
Defined.

(* ===================================================================== *)
(** ** Staged units of a run                                              *)
(* ===================================================================== *)

Lemma firstn_add_skipn {X} (a b : nat) (l : list X) :
  firstn (a + b) l = firstn a l ++ firstn b (skipn a l).
Proof.
  revert l. induction a as [|a IH]; intro l; [reflexivity|].
  destruct l as [|x l]; simpl.
  - now rewrite firstn_nil.
  - now rewrite IH.
Qed.

Lemma skipn_add_skipn {X} (a b : nat) (l : list X) :
  skipn (a + b) l = skipn b (skipn a l).
Proof.
  revert l. induction a as [|a IH]; intro l; [reflexivity|].
  destruct l as [|x l]; simpl; [now rewrite skipn_nil | apply IH].
Qed.

Lemma session_delta_refl quietly w : session_delta quietly w w [] 0.
Proof.
  unfold session_delta, fresh_names. simpl.
  rewrite app_nil_r, Nat.add_0_r. repeat split; reflexivity.
Qed.

Lemma session_delta_trans quietly w1 w2 w3 e1 e2 k1 k2 :
  session_delta quietly w1 w2 e1 k1 ->
  session_delta quietly w2 w3 e2 k2 ->
  session_delta quietly w1 w3 (e1 ++ e2) (k1 + k2).
Proof.
  intros (T1 & N1 & C1 & R1 & F1 & S1 & X1 & B1) (T2 & N2 & C2 & R2 & F2 & S2 & X2 & B2).
  assert (Hf : temp_files (e1 ++ e2) = fresh_names w1 (k1 + k2)).
  { unfold temp_files in *. rewrite flat_map_app, F1, F2.
    unfold fresh_names. rewrite N1, C1, seq_app, map_app. reflexivity. }
  unfold session_delta. repeat split.
  - rewrite T2, T1. now rewrite app_assoc.
  - now rewrite N2.
  - rewrite C2, C1. lia.
  - rewrite R2, R1. now rewrite skipn_add_skipn.
  - exact Hf.
  - unfold staged, temp_files in *. rewrite !flat_map_app, map_app, S1, S2.
    reflexivity.
  - unfold executes, temp_files in *. rewrite filter_app, flat_map_app, map_app, X1, X2.
    reflexivity.
  - unfold breaks_requested, interrupts in *.
    rewrite filter_app, length_app, B1, B2, R1, firstn_add_skipn, filter_app, length_app.
    reflexivity.
Qed.

(** A call that is no staging, no [Execute] and no break leaves the
    count of units as it is. *)
Lemma session_delta_record quietly e w :
  is_dialogue e = true -> session_delta quietly w (record e w) [e] 0.
Proof.
  intro H. unfold session_delta, fresh_names. simpl. rewrite Nat.add_0_r.
  destruct e; try discriminate H; repeat split; reflexivity.
Qed.

Section UnitFacts.

Variable cfg : Config.
Variable igr : pystr -> option pystr -> bool -> Z -> pystr.
Variable cc : pystr -> Compile.

Lemma wrk1_drain_frame rc buf :
  forall w,
    replies (snd (wrk1_drain rc buf w)) = replies w
    /\ tempname (snd (wrk1_drain rc buf w)) = tempname w
    /\ ntemp (snd (wrk1_drain rc buf w)) = ntemp w.
Proof.
  induction buf as [|c buf IH]; intro w; simpl.
  - destruct (rc =? 0); auto.
  - destruct (is_empty c); [destruct (rc =? 0); auto|].
    destruct (negb (rc =? 0)); [auto|].
    destruct (IH (record (Output c false) (set_outbuf buf w))) as (H1 & H2 & H3).
    rewrite H1, H2, H3. auto.
Qed.

Lemma wrk2_drain_frame real_cmd colon mode buf :
  forall output w,
    replies (snd (wrk2_drain igr real_cmd colon mode output buf w)) = replies w
    /\ tempname (snd (wrk2_drain igr real_cmd colon mode output buf w)) = tempname w
    /\ ntemp (snd (wrk2_drain igr real_cmd colon mode output buf w)) = ntemp w.
Proof.
  induction buf as [|c buf IH]; intros output w; simpl.
  - destruct (is_empty output); auto.
  - destruct (is_empty output); [auto|].
    destruct (is_empty c); [auto|].
    destruct (IH c (record (wrk2_print igr real_cmd colon mode output false)
                           (set_outbuf buf w))) as (H1 & H2 & H3).
    rewrite H1, H2, H3. auto.
Qed.

(** A worker consumes one answer of the engine and takes no temporary
    name. *)
Lemma wrk1_frame cmd echo w :
  replies (snd (_stata_wrk1 cfg cmd echo w)) = tl (replies w)
  /\ tempname (snd (_stata_wrk1 cfg cmd echo w)) = tempname w
  /\ ntemp (snd (_stata_wrk1 cfg cmd echo w)) = ntemp w.
Proof.
  unfold _stata_wrk1.
  destruct (streamout cfg);
    unfold try_except_KeyboardInterrupt, bind, log, StataSO_SetBreak,
      StataSO_Execute, log, next_reply; simpl;
    destruct (replies w) as [|[rc chunks|] rs]; simpl; auto;
    match goal with |- context [wrk1_drain ?r ?b ?w1] =>
      destruct (wrk1_drain_frame r b w1) as (H1 & H2 & H3);
      destruct (wrk1_drain r b w1) as [[[]|[]] w2]
    end; simpl in *; auto.
Qed.

Lemma wrk2_frame cmd real_cmd colon mode w :
  replies (snd (_stata_wrk2 cfg igr cmd real_cmd colon mode w)) = tl (replies w)
  /\ tempname (snd (_stata_wrk2 cfg igr cmd real_cmd colon mode w)) = tempname w
  /\ ntemp (snd (_stata_wrk2 cfg igr cmd real_cmd colon mode w)) = ntemp w.
Proof.
  unfold _stata_wrk2.
  destruct (streamout cfg);
    unfold try_except_KeyboardInterrupt, bind, log, StataSO_SetBreak,
      StataSO_Execute, set_rc2, get_output, _print_no_streaming_output, log, raise,
      ret, next_reply; simpl;
    destruct (replies w) as [|[rc chunks|] rs]; simpl; auto.
  - (* no scripted answer: success on the buffer as it is *)
    destruct (outbuf w ++ []) as [|o buf]; simpl; auto.
    match goal with |- context [wrk2_drain igr ?r ?c ?m ?o ?b ?w1] =>
      destruct (wrk2_drain_frame r c m b o w1) as (H1 & H2 & H3);
      destruct (wrk2_drain_spec igr r c m o b w1) as (_ & _ & _ & _ & Hf);
      destruct (wrk2_drain igr r c m o b w1) as [[[]|ex] w2]
    end; simpl in *; try discriminate; auto.
  - destruct (outbuf w ++ chunks) as [|o buf]; simpl;
      destruct (negb (rc =? 0)); try destruct (negb (rc =? 3000));
      try destruct (negb (mode =? 1)); simpl; auto;
      match goal with |- context [wrk2_drain igr ?r ?c ?m ?o ?b ?w1] =>
        destruct (wrk2_drain_frame r c m b o w1) as (H1 & H2 & H3);
        destruct (wrk2_drain_spec igr r c m o b w1) as (_ & _ & _ & _ & Hf);
        destruct (wrk2_drain igr r c m o b w1) as [[[]|ex] w2]
      end; simpl in *; try discriminate; auto.
Qed.

Lemma outputs_request_no_break post :
  forallb is_output post = true -> breaks_requested post = 0%nat.
Proof.
  unfold breaks_requested. induction post as [|e post IH]; [reflexivity|].
  simpl. intro H. apply andb_true_iff in H as [He Hp].
  destruct e; try discriminate He. simpl. now apply IH.
Qed.

Lemma interrupts_first w :
  interrupts (firstn 1 (replies w))
  = match next_reply w with Interrupted => 1%nat | Returns _ _ => 0%nat end.
Proof.
  unfold next_reply, interrupts. destruct (replies w) as [|[rc chunks|] rs]; reflexivity.
Qed.

(** What one call of [_stata_wrk1] adds to the trace. *)
Lemma wrk1_delta cmd echo w :
  exists evs,
    trace (snd (_stata_wrk1 cfg cmd echo w)) = trace w ++ evs
    /\ executes evs = [Execute cmd echo]
    /\ temp_files evs = [] /\ staged evs = []
    /\ breaks_requested evs = interrupts (firstn 1 (replies w)).
Proof.
  rewrite interrupts_first.
  destruct (next_reply w) as [rc chunks|] eqn:Hr.
  - destruct (wrk1_returns cfg cmd echo w rc chunks Hr)
      as (post & Ht & Ha & _ & Hon & Hoff).
    destruct (aftermath_quiet post Ha) as (He & _ & Hst & Htf).
    eexists. split; [exact Ht|].
    unfold executes, temp_files, staged, breaks_requested, timer_of in *.
    destruct (streamout cfg) eqn:Es.
    + destruct (Hon eq_refl) as (Hp & _). subst post. simpl. auto.
    + destruct (Hoff eq_refl) as (Ho & _). simpl. rewrite He, Hst, Htf.
      repeat split; auto. apply (outputs_request_no_break post Ho).
  - destruct (wrk1_interrupted cfg cmd echo w Hr) as (_ & Ht & _).
    eexists. split; [exact Ht|].
    unfold timer_of, interrupt_handling. destruct (streamout cfg); simpl; auto.
Qed.

(** What one call of [_stata_wrk2] adds to the trace. *)
Lemma wrk2_delta cmd real_cmd colon mode w :
  exists evs,
    trace (snd (_stata_wrk2 cfg igr cmd real_cmd colon mode w)) = trace w ++ evs
    /\ executes evs = [Execute cmd false]
    /\ temp_files evs = [] /\ staged evs = []
    /\ breaks_requested evs = interrupts (firstn 1 (replies w)).
Proof.
  rewrite interrupts_first.
  destruct (next_reply w) as [rc chunks|] eqn:Hr.
  - destruct (wrk2_returns cfg igr cmd real_cmd colon mode w rc chunks Hr)
      as (post & Ht & Ha & _ & Hon & Hoff).
    destruct (aftermath_quiet post Ha) as (He & _ & Hst & Htf).
    eexists. split; [exact Ht|].
    unfold executes, temp_files, staged, breaks_requested, timer_of in *.
    destruct (streamout cfg) eqn:Es.
    + destruct (Hon eq_refl) as (Hp & _). subst post. simpl. auto.
    + destruct (Hoff eq_refl) as (Ho & _). simpl. rewrite He, Hst, Htf.
      repeat split; auto. apply (outputs_request_no_break post Ho).
  - destruct (wrk2_interrupted cfg igr cmd real_cmd colon mode w Hr) as (_ & Ht & _).
    eexists. split; [exact Ht|].
    unfold timer_of, interrupt_handling. destruct (streamout cfg); simpl; auto.
Qed.

(** A file staged and included is one unit. *)
Lemma staged_unit_delta quietly content real_cmd colon mode w :
  exists evs,
    session_delta quietly w
      (snd (_stata_wrk2 cfg igr (include_of quietly (tempname w (ntemp w))) real_cmd
              colon mode (with_staging content w)))
      evs 1
    /\ staged evs = [(tempname w (ntemp w), content)].
Proof.
  set (p := tempname w (ntemp w)).
  set (ws := with_staging content w).
  destruct (wrk2_delta (include_of quietly p) real_cmd colon mode ws)
    as (evs & Ht & He & Htf & Hst & Hb).
  destruct (wrk2_frame (include_of quietly p) real_cmd colon mode ws)
    as (Hr & Hn & Hc).
  exists ([GetTempFile p; WriteFile p content] ++ evs).
  unfold session_delta, fresh_names.
  unfold executes, temp_files, staged, breaks_requested in *.
  rewrite !flat_map_app, !filter_app, Htf, Hst, He, length_app, Hb.
  subst ws. rewrite Ht, trace_with_staging, Hr, Hn, Hc. fold p. simpl.
  rewrite <- app_assoc. repeat split; auto. lia.
Qed.

Lemma stage_and_include_delta quietly input_cmd src transcript has_colon mode w :
  exists evs,
    session_delta quietly w
      (snd (stage_and_include cfg igr quietly input_cmd src transcript has_colon mode w))
      evs 1
    /\ staged evs = [(tempname w (ntemp w), input_cmd ++ NL ++ src ++ py"end")].
Proof. rewrite stage_and_include_eq. apply staged_unit_delta. Qed.

(** A mata turn is one unit. *)
Lemma mata_turn_delta quietly input_cmd has_colon incmd a w :
  exists evs,
    session_delta quietly w
      (snd (mata_turn cfg igr quietly input_cmd has_colon incmd a w)) evs 1
    /\ staged evs
       = [(tempname w (ntemp w),
           input_cmd ++ NL ++ (incmds1 a ++ incmd ++ NL) ++ py"end")].
Proof.
  rewrite mata_turn_eq. cbv zeta.
  destruct (stage_and_include_delta quietly input_cmd (incmds1 a ++ incmd ++ NL)
              (incmds2 a ++ inprompt a ++ incmd ++ NL) has_colon 2 w)
    as (evs & Hd & Hs).
  exists evs.
  destruct (stage_and_include cfg igr quietly input_cmd (incmds1 a ++ incmd ++ NL)
              (incmds2 a ++ inprompt a ++ incmd ++ NL) has_colon 2 w)
    as [[[]|ex] w1]; cbn [fst snd] in *; auto.
Qed.

(** A python turn is one unit, or none when it asks for a continuation
    line. *)
Lemma python_turn_delta quietly input_cmd has_colon incmd a w :
  exists evs k,
    session_delta quietly w
      (snd (python_turn cfg igr cc quietly input_cmd has_colon incmd a w)) evs k.
Proof.
  unfold python_turn.
  destruct (negb (eqb (prefix 6 (inprompt a ++ incmd)) (py"stata:")));
    [destruct (cc (incmds1 a ++ incmd))|]; cbv beta iota zeta;
    try (exists [], 0%nat; apply session_delta_refl);
    rewrite bind_eq;
    match goal with |- context [stage_and_include ?c ?i ?q ?ic ?s ?t ?h ?m ?w] =>
      destruct (stage_and_include_delta q ic s t h m w) as (evs & Hd & _);
      destruct (stage_and_include c i q ic s t h m w) as [[[]|ex] w1]
    end; cbn [fst snd] in *; exists evs, 1%nat; try exact Hd;
    unfold bind, get_rc2, ret; destruct (negb (rc2 w1 =? 0)); exact Hd.
Qed.

Lemma session_delta_note quietly e w :
  match e with Print _ | Displayln _ | Input _ => True | _ => False end ->
  session_delta quietly w (record e w) [e] 0.
Proof.
  intro H. unfold session_delta, fresh_names. simpl. rewrite Nat.add_0_r.
  destruct e; try contradiction; repeat split; reflexivity.
Qed.

(** What follows a turn: [break], or the next line and the rest of the
    loop. *)
Lemma after_turn_delta quietly (nx : Next) (ins : list pystr)
    (loop : list pystr -> pystr -> Acc -> M unit) (pre : pystr -> pystr) w :
  (forall l ins', ins = l :: ins' ->
      forall incmd a w1,
        exists evs k, session_delta quietly w1 (snd (loop ins' incmd a w1)) evs k) ->
  exists evs k,
    session_delta quietly w
      (snd (match nx with
            | Break => ret tt
            | Ask prompt a' =>
                match ins with
                | [] => l <- _get_user_input prompt None ; ret tt
                | l :: ins' =>
                    l <- _get_user_input prompt (Some l) ; loop ins' (pre l) a'
                end
            end w))
      evs k.
Proof.
  intro IH. destruct nx as [|prompt a'].
  - exists [], 0%nat. apply session_delta_refl.
  - destruct ins as [|l ins']; unfold bind, _get_user_input, log, ret, raise; simpl.
    + exists [Input prompt], 0%nat. now apply session_delta_note.
    + destruct (IH l ins' eq_refl (pre l) a' (record (Input prompt) w))
        as (evs & k & Hd).
      exists ([Input prompt] ++ evs), (0 + k)%nat.
      eapply session_delta_trans; [now apply session_delta_note | exact Hd].
Qed.

Lemma mata_loop_delta quietly input_cmd has_colon ins :
  forall incmd a w,
    exists evs k,
      session_delta quietly w
        (snd (mata_loop cfg igr quietly input_cmd has_colon ins incmd a w)) evs k.
Proof.
  induction ins as [|l0 ins0 IH]; intros incmd a w.
  - rewrite mata_loop_unfold.
    destruct (eqb incmd (py"end")).
    + exists [Displayln (py"{hline}")], 0%nat. now apply session_delta_note.
    + rewrite bind_eq.
      destruct (mata_turn_delta quietly input_cmd has_colon incmd a w) as (e1 & H1 & _).
      destruct (mata_turn cfg igr quietly input_cmd has_colon incmd a w)
        as [[nx|ex] w1]; cbn [snd] in H1.
      * destruct (after_turn_delta quietly nx []
                    (mata_loop cfg igr quietly input_cmd has_colon) strip w1)
          as (e2 & k2 & H2).
        { intros l1 ins' E. discriminate E. }
        exists (e1 ++ e2), (1%nat + k2)%nat. eapply session_delta_trans; eassumption.
      * exists e1, 1%nat. exact H1.
  - rewrite mata_loop_unfold.
    destruct (eqb incmd (py"end")).
    + exists [Displayln (py"{hline}")], 0%nat. now apply session_delta_note.
    + rewrite bind_eq.
      destruct (mata_turn_delta quietly input_cmd has_colon incmd a w) as (e1 & H1 & _).
      destruct (mata_turn cfg igr quietly input_cmd has_colon incmd a w)
        as [[nx|ex] w1]; cbn [snd] in H1.
      * destruct (after_turn_delta quietly nx (l0 :: ins0)
                    (mata_loop cfg igr quietly input_cmd has_colon) strip w1)
          as (e2 & k2 & H2).
        { intros l1 ins' E. inversion E; subst. exact IH. }
        exists (e1 ++ e2), (1%nat + k2)%nat. eapply session_delta_trans; eassumption.
      * exists e1, 1%nat. exact H1.
Qed.

Lemma python_loop_delta quietly input_cmd has_colon ins :
  forall incmd a w,
    exists evs k,
      session_delta quietly w
        (snd (python_loop cfg igr cc quietly input_cmd has_colon ins incmd a w)) evs k.
Proof.
  induction ins as [|l0 ins0 IH]; intros incmd a w.
  - rewrite python_loop_unfold.
    destruct (eqb incmd (py"end")).
    + exists [Displayln (py"{hline}")], 0%nat. now apply session_delta_note.
    + rewrite bind_eq.
      destruct (python_turn_delta quietly input_cmd has_colon incmd a w) as (e1 & k1 & H1).
      destruct (python_turn cfg igr cc quietly input_cmd has_colon incmd a w)
        as [[nx|ex] w1]; cbn [snd] in H1.
      * destruct (after_turn_delta quietly nx []
                    (python_loop cfg igr cc quietly input_cmd has_colon) (fun l => l) w1)
          as (e2 & k2 & H2).
        { intros l1 ins' E. discriminate E. }
        exists (e1 ++ e2), (k1 + k2)%nat. eapply session_delta_trans; eassumption.
      * exists e1, k1. exact H1.
  - rewrite python_loop_unfold.
    destruct (eqb incmd (py"end")).
    + exists [Displayln (py"{hline}")], 0%nat. now apply session_delta_note.
    + rewrite bind_eq.
      destruct (python_turn_delta quietly input_cmd has_colon incmd a w) as (e1 & k1 & H1).
      destruct (python_turn cfg igr cc quietly input_cmd has_colon incmd a w)
        as [[nx|ex] w1]; cbn [snd] in H1.
      * destruct (after_turn_delta quietly nx (l0 :: ins0)
                    (python_loop cfg igr cc quietly input_cmd has_colon) (fun l => l) w1)
          as (e2 & k2 & H2).
        { intros l1 ins' E. inversion E; subst. exact IH. }
        exists (e1 ++ e2), (k1 + k2)%nat. eapply session_delta_trans; eassumption.
      * exists e1, k1. exact H1.
Qed.

End UnitFacts.

Section RunUnits.

Variable cfg : Config.
Variable igr : pystr -> option pystr -> bool -> Z -> pystr.
Variable cc : pystr -> Compile.

Lemma mata_session_delta quietly input_cmd ins w :
  exists evs k,
    session_delta quietly w (snd (mata_session cfg igr quietly input_cmd ins w)) evs k.
Proof.
  pose proof (session_delta_note quietly (Print (py". " ++ input_cmd)) w I) as H1.
  pose proof (session_delta_note quietly
                (Displayln (py"{hline 49} mata (type {cmd:end} to exit) {hline}"))
                (record (Print (py". " ++ input_cmd)) w) I) as H2.
  pose proof (session_delta_note quietly (Input (py": ")) _ I
              : session_delta quietly _
                  (record (Input (py": "))
                     (record (Displayln
                                (py"{hline 49} mata (type {cmd:end} to exit) {hline}"))
                        (record (Print (py". " ++ input_cmd)) w))) _ 0) as H3.
  pose proof (session_delta_trans _ _ _ _ _ _ _ _
                (session_delta_trans _ _ _ _ _ _ _ _ H1 H2) H3) as H.
  destruct ins as [|l ins].
  - eexists. eexists. exact H.
  - rewrite mata_session_cons.
    match goal with |- context [mata_loop _ _ ?q ?ic ?h ?n ?x ?a ?w1] =>
      destruct (mata_loop_delta cfg igr q ic h n x a w1) as (evs & k & Hd)
    end.
    eexists. eexists. eapply session_delta_trans; [exact H | exact Hd].
Qed.

Lemma python_session_delta quietly input_cmd ins w :
  exists evs k,
    session_delta quietly w
      (snd (python_session cfg igr cc quietly input_cmd ins w)) evs k.
Proof.
  pose proof (session_delta_note quietly (Print (py". " ++ input_cmd)) w I) as H1.
  pose proof (session_delta_note quietly
                (Displayln (py"{hline 47} python (type {cmd:end} to exit) {hline}"))
                (record (Print (py". " ++ input_cmd)) w) I) as H2.
  pose proof (session_delta_note quietly (Input (py">>> ")) _ I
              : session_delta quietly _
                  (record (Input (py">>> "))
                     (record (Displayln
                                (py"{hline 47} python (type {cmd:end} to exit) {hline}"))
                        (record (Print (py". " ++ input_cmd)) w))) _ 0) as H3.
  pose proof (session_delta_trans _ _ _ _ _ _ _ _
                (session_delta_trans _ _ _ _ _ _ _ _ H1 H2) H3) as H.
  destruct ins as [|l ins].
  - eexists. eexists. exact H.
  - rewrite python_session_cons.
    match goal with |- context [python_loop _ _ _ ?q ?ic ?h ?n ?x ?a ?w1] =>
      destruct (python_loop_delta cfg igr cc q ic h n x a w1) as (evs & k & Hd)
    end.
    eexists. eexists. eapply session_delta_trans; [exact H | exact Hd].
Qed.

(** A command that is no single plain line is dispatched as a
    sequence of staged units. *)
Lemma dispatch_units ins cmd quietly echo w :
  (forall cmd0, splitlines cmd = [cmd0] -> is_trigger (strip cmd0) = true) ->
  ((2 <= List.length (splitlines cmd))%nat -> utf8_encodable cmd = true) ->
  exists evs k,
    session_delta quietly w (snd (dispatch cfg igr cc ins cmd quietly echo w)) evs k.
Proof.
  intros H Hu. destruct (splitlines cmd) as [|cmd0 [|cmd1 more]] eqn:Hs.
  - unfold dispatch. rewrite Hs. exists [], 0%nat. apply session_delta_refl.
  - rewrite (dispatch_trigger cfg igr cc ins cmd cmd0 quietly echo Hs (H cmd0 eq_refl)).
    destruct (eqb (strip cmd0) (py"mata") || eqb (strip cmd0) (py"mata:")).
    + apply mata_session_delta.
    + apply python_session_delta.
  - assert (H2 : (2 <= List.length (splitlines cmd))%nat)
      by (rewrite Hs; simpl; lia).
    assert (Hu' : utf8_encodable cmd = true) by (apply Hu; simpl; lia).
    rewrite (dispatch_batch cfg igr cc ins cmd quietly echo w H2 Hu').
    destruct (staged_unit_delta cfg igr quietly cmd None false 1 w) as (evs & Hd & _).
    exists evs, 1%nat. exact Hd.
Qed.

(** What dispatching any command does to the temporary names, the
    staging files, the answers of the engine and the breaks. *)
Lemma dispatch_summary ins cmd quietly echo w :
  exists evs k j,
    trace (snd (dispatch cfg igr cc ins cmd quietly echo w)) = trace w ++ evs
    /\ temp_files evs = fresh_names w k
    /\ map fst (staged evs) = temp_files evs
    /\ replies (snd (dispatch cfg igr cc ins cmd quietly echo w)) = skipn j (replies w)
    /\ breaks_requested evs = interrupts (firstn j (replies w)).
Proof.
  destruct (splitlines cmd) as [|cmd0 [|cmd1 more]] eqn:Hs.
  - destruct (dispatch_units ins cmd quietly echo w) as (evs & k & Hd).
    { intros c0 Hc. rewrite Hs in Hc. discriminate Hc. }
    { intro H2. rewrite Hs in H2. simpl in H2. lia. }
    destruct Hd as (T & _ & _ & R & F & S & _ & B). exists evs, k, k. auto.
  - destruct (is_trigger (strip cmd0)) eqn:Ht.
    + destruct (dispatch_units ins cmd quietly echo w) as (evs & k & Hd).
      { intros c0 Hc. rewrite Hs in Hc. inversion Hc; subst. exact Ht. }
      { intro H2. rewrite Hs in H2. simpl in H2. lia. }
      destruct Hd as (T & _ & _ & R & F & S & _ & B). exists evs, k, k. auto.
    + rewrite (dispatch_single cfg igr cc ins cmd cmd0 quietly echo Hs Ht).
      destruct (wrk1_delta cfg (quiet quietly cmd0) echo w) as (evs & T & _ & F & S & B).
      destruct (wrk1_frame cfg (quiet quietly cmd0) echo w) as (R & _).
      exists evs, 0%nat, 1%nat. rewrite F, S, R.
      repeat split; auto.
  - destruct (utf8_encodable cmd) eqn:Hu.
    + destruct (dispatch_units ins cmd quietly echo w) as (evs & k & Hd).
      { intros c0 Hc. rewrite Hs in Hc. discriminate Hc. }
      { intros _. exact Hu. }
      destruct Hd as (T & _ & _ & R & F & S & _ & B). exists evs, k, k. auto.
    + assert (H2 : (2 <= List.length (splitlines cmd))%nat)
        by (rewrite Hs; simpl; lia).
      rewrite (dispatch_batch_unencodable cfg igr cc ins cmd quietly echo w H2 Hu).
      exists [GetTempFile (tempname w (ntemp w)); WriteFile (tempname w (ntemp w)) []],
        1%nat, 0%nat.
      cbn [snd]. rewrite trace_with_staging.
      repeat split; reflexivity.
Qed.

Lemma entered_frame inl w :
  tempname (entered inl w) = tempname w /\ ntemp (entered inl w) = ntemp w.
Proof.
  unfold entered, graph_prologue, when, bind, StataSO_Execute, ret,
    StataSO_ClearOutputBuffer.
  destruct inl; simpl; [|auto].
  destruct (next_reply _); auto.
Qed.

(** What a run that gets past the first graph toggle adds to the
    trace. *)
Lemma run_decompose ins cmd quietly echo inline inl w :
  resolve_inline cfg inline = Some inl ->
  splitlines cmd <> [] ->
  (inl = true -> next_reply w <> Interrupted) ->
  exists devs tail,
    trace (snd (dispatch cfg igr cc ins cmd quietly echo (entered inl w)))
    = trace (entered inl w) ++ devs
    /\ trace (snd (run cfg igr cc ins cmd quietly echo inline w))
       = trace w ++ ClearOutputBuffer
                 :: (if inl then [Execute gr_list_on false] else []) ++ devs ++ tail
    /\ (tail = [] \/ tail = epilogue_events cfg inl).
Proof.
  intros Hi Hne Hr.
  rewrite (run_eq cfg igr cc ins cmd quietly echo inline inl w Hi Hne Hr).
  pose proof (bind_epilogue cfg (dispatch cfg igr cc ins cmd quietly echo) inl
                (entered inl w)) as Hb.
  cbv zeta in Hb.
  destruct (dispatch_total cfg igr cc ins cmd quietly echo (entered inl w))
    as (devs & He & _).
  cbv zeta in He. exists devs.
  destruct (fst (dispatch cfg igr cc ins cmd quietly echo (entered inl w))) as [[]|ex].
  - exists (epilogue_events cfg inl). split; [exact He|]. split; [|now right].
    rewrite Hb, He, trace_entered, <- !app_assoc. reflexivity.
  - exists []. split; [exact He|]. split; [|now left].
    rewrite Hb. cbn [snd]. rewrite He, trace_entered, app_nil_r, <- !app_assoc.
    reflexivity.
Qed.

(** A run that is stopped in the first graph toggle. *)
End RunUnits.

Lemma fresh_names_NoDup w k :
  (forall i j, tempname w i = tempname w j -> i = j) ->
  NoDup (fresh_names w k).
Proof.
  intro Hinj. unfold fresh_names. generalize (ntemp w) as n.
  induction k as [|k IH]; intro n; simpl; constructor; [|apply IH].
  intro Hin. apply in_map_iff in Hin as (m & Hm & Hs).
  apply Hinj in Hm. subst m. apply in_seq in Hs. lia.
Qed.

(** Without inline graphs [run] is: clear the buffer, dispatch. *)
Lemma run_plain_eq cfg igr cc ins cmd quietly echo inline w :
  resolve_inline cfg inline = Some false ->
  splitlines cmd <> [] ->
  run cfg igr cc ins cmd quietly echo inline w
  = dispatch cfg igr cc ins cmd quietly echo (entered false w).
Proof.
  intros Hi Hne.
  rewrite (run_eq cfg igr cc ins cmd quietly echo inline false w Hi Hne)
    by discriminate.
  rewrite bind_eq.
  destruct (dispatch cfg igr cc ins cmd quietly echo (entered false w))
    as [[[]|ex] w1]; reflexivity.
Qed.

Lemma epilogue_events_stage_nothing cfg inl tail :
  tail = [] \/ tail = epilogue_events cfg inl ->
  temp_files tail = [] /\ staged tail = [].
Proof.
  intros [->| ->]; [auto|].
  unfold epilogue_events. destruct inl; [|auto].
  destruct (3 <=? stipython cfg); auto.
Qed.

Lemma run_staging_after_toggle cfg igr cc ins cmd quietly echo inline inl w :
  resolve_inline cfg inline = Some inl ->
  splitlines cmd <> [] ->
  (inl = true -> next_reply w <> Interrupted) ->
  exists evs k,
    trace (snd (run cfg igr cc ins cmd quietly echo inline w)) = trace w ++ evs
    /\ temp_files evs = fresh_names w k
    /\ map fst (staged evs) = temp_files evs.
Proof.
  intros Hi Hne Hgo.
  destruct (run_decompose cfg igr cc ins cmd quietly echo inline inl w Hi Hne Hgo)
    as (devs & tail & Hd & Ht & Htail).
  destruct (dispatch_summary cfg igr cc ins cmd quietly echo (entered inl w))
    as (evs & k & j & T & F & S & _).
  rewrite T in Hd. apply app_inv_head in Hd. subst devs.
  destruct (entered_frame inl w) as (En & Ec).
  unfold fresh_names in F. rewrite En, Ec in F. fold (fresh_names w k) in F.
  destruct (epilogue_events_stage_nothing cfg inl tail Htail) as (Htf & Hst).
  eexists. exists k. split; [exact Ht|].
  assert (Hpro : forall xs,
             temp_files (ClearOutputBuffer
                           :: (if inl then [Execute gr_list_on false] else []) ++ xs)
             = temp_files xs
             /\ staged (ClearOutputBuffer
                          :: (if inl then [Execute gr_list_on false] else []) ++ xs)
                = staged xs)
    by (intro xs; destruct inl; split; reflexivity).
  destruct (Hpro (evs ++ tail)) as (-> & ->).
  unfold temp_files, staged in *.
  rewrite !flat_map_app, Htf, Hst, !app_nil_r, S, F. auto.
Qed.

(** X11. In every run, each staging file is written under a name that
    [getTempFile] handed out in that run, the names are taken one after
    the other from the first unused one on, and each is used for one
    file; so when [getTempFile] never repeats a name, no staging file is
    written twice, across all the units of a session. *)
Theorem run_staging_files_are_fresh cfg igr cc ins cmd quietly echo inline w :
  exists evs k,
    trace (snd (run cfg igr cc ins cmd quietly echo inline w)) = trace w ++ evs
    /\ temp_files evs = fresh_names w k
    /\ map fst (staged evs) = temp_files evs
    /\ ((forall i j, tempname w i = tempname w j -> i = j) ->
        NoDup (map fst (staged evs))).
Proof.
  cut (exists evs k,
          trace (snd (run cfg igr cc ins cmd quietly echo inline w)) = trace w ++ evs
          /\ temp_files evs = fresh_names w k
          /\ map fst (staged evs) = temp_files evs).
  { intros (evs & k & T & F & S). exists evs, k.
    split; [exact T|]. split; [exact F|]. split; [exact S|].
    intro Hinj. rewrite S, F. now apply fresh_names_NoDup. }
  assert (Hidle : forall evs,
             temp_files evs = [] -> staged evs = [] ->
             trace (snd (run cfg igr cc ins cmd quietly echo inline w)) = trace w ++ evs ->
             exists evs k,
               trace (snd (run cfg igr cc ins cmd quietly echo inline w)) = trace w ++ evs
               /\ temp_files evs = fresh_names w k
               /\ map fst (staged evs) = temp_files evs).
  { intros evs Hf Hs Ht. exists evs, 0%nat. rewrite Hf, Hs. auto. }
  destruct (resolve_inline cfg inline) as [inl|] eqn:Hi.
  2:{ apply (Hidle []); auto. unfold run. rewrite Hi. simpl. now rewrite app_nil_r. }
  destruct (splitlines cmd) as [|c0 more] eqn:Hs.
  { apply (Hidle [ClearOutputBuffer]); auto. unfold run. rewrite Hi, Hs. reflexivity. }
  assert (Hne : splitlines cmd <> []) by (rewrite Hs; discriminate).
  destruct (next_reply w) as [rc chunks|] eqn:Hr.
  - apply (run_staging_after_toggle cfg igr cc ins cmd quietly echo inline inl w Hi Hne).
    intros _. rewrite Hr. discriminate.
  - destruct inl.
    + destruct (run_toggle_interrupted cfg igr cc ins cmd quietly echo inline w Hi Hne Hr)
        as (w' & He & Ht).
      apply (Hidle [ClearOutputBuffer; Execute gr_list_on false]); auto.
      rewrite He. exact Ht.
    + apply (run_staging_after_toggle cfg igr cc ins cmd quietly echo inline false w Hi Hne).
      discriminate.
Qed.



(** X13. Without inline graphs, whatever the command and the session
    lines, [run] asks the engine to break exactly as many times as the
    engine calls it made were interrupted. *)
Theorem run_breaks_once_per_interrupt cfg igr cc ins cmd quietly echo inline w :
  resolve_inline cfg inline = Some false ->
  let r := run cfg igr cc ins cmd quietly echo inline w in
  exists evs j,
    trace (snd r) = trace w ++ evs
    /\ replies (snd r) = skipn j (replies w)
    /\ breaks_requested evs = interrupts (firstn j (replies w)).
Proof.
  intros Hi r. subst r.
  destruct (splitlines cmd) as [|c0 more] eqn:Hs.
  { exists [ClearOutputBuffer], 0%nat. unfold run. rewrite Hi, Hs. simpl. auto. }
  assert (Hne : splitlines cmd <> []) by (rewrite Hs; discriminate).
  rewrite (run_plain_eq cfg igr cc ins cmd quietly echo inline w Hi Hne).
  destruct (dispatch_summary cfg igr cc ins cmd quietly echo (entered false w))
    as (evs & k & j & T & _ & _ & R & B).
  exists (ClearOutputBuffer :: evs), j. rewrite T, R.
  split; [|split; [reflexivity|exact B]].
  unfold entered, graph_prologue, when, bind, StataSO_ClearOutputBuffer, ret, record, log.
  simpl. now rewrite <- app_assoc.
Qed.

(** X13 at a python session whose second unit is interrupted. *)
Lemma run_breaks_once_per_interrupt_witness :
  let r := run blocking plain_result open_paren_check
             [py"x = 1"; py"y = 2"; py"end"] (py"python") false false
             (InlineBool false) (world_of [Returns 0 []; Interrupted] 0) in
  resolve_inline blocking (InlineBool false) = Some false
  /\ breaks_requested (trace (snd r)) = 1%nat
  /\ replies (snd r) = [].
Proof.
  cbv zeta.
  assert (H1 : resolve_inline blocking (InlineBool false) = Some false) by reflexivity.
  split; [exact H1|].
  destruct (run_breaks_once_per_interrupt blocking plain_result open_paren_check
              [py"x = 1"; py"y = 2"; py"end"] (py"python") false false
              (InlineBool false) (world_of [Returns 0 []; Interrupted] 0) H1)
    as (evs & j & _).
  split; reflexivity.
Defined.

(** X14. With inline graphs, an interrupt that arrives while
    ["qui _gr_list on"] is executed is not handled: [run] raises
    [KeyboardInterrupt] at once; it asks for no break, prints no notice,
    stages and executes nothing of the command and does not switch
    capture off. *)
Theorem run_interrupted_toggle_escapes cfg igr cc ins cmd quietly echo inline w :
  resolve_inline cfg inline = Some true ->
  splitlines cmd <> [] ->
  next_reply w = Interrupted ->
  let r := run cfg igr cc ins cmd quietly echo inline w in
  fst r = Raise KeyboardInterrupt
  /\ trace (snd r) = trace w ++ [ClearOutputBuffer; Execute gr_list_on false].
Proof.
  intros Hi Hne Hr r. subst r.
  destruct (run_toggle_interrupted cfg igr cc ins cmd quietly echo inline w Hi Hne Hr)
    as (w' & -> & Ht).
  split; [reflexivity|exact Ht].
Qed.

(** X14 at a single command. *)
Lemma run_interrupted_toggle_escapes_witness :
  let w := world_of [Interrupted] 0 in
  resolve_inline blocking (InlineBool true) = Some true
  /\ splitlines (py"scatter y x") <> []
  /\ next_reply w = Interrupted
  /\ fst (run blocking plain_result open_paren_check [] (py"scatter y x") false false
            (InlineBool true) w) = Raise KeyboardInterrupt.
Proof.
  cbv zeta.
  assert (H1 : resolve_inline blocking (InlineBool true) = Some true) by reflexivity.
  assert (H2 : splitlines (py"scatter y x") <> []) by (vm_compute; discriminate).
  assert (H3 : next_reply (world_of [Interrupted] 0) = Interrupted) by reflexivity.
  split; [exact H1|]. split; [exact H2|]. split; [exact H3|].
  exact (proj1 (run_interrupted_toggle_escapes blocking plain_result open_paren_check
                  [] (py"scatter y x") false false (InlineBool true)
                  (world_of [Interrupted] 0) H1 H2 H3)).
Defined.

(* ===================================================================== *)
(** ** Session turns and the return code they read                        *)
(* ===================================================================== *)

Section TurnFacts.

Variable cfg : Config.
Variable igr : pystr -> option pystr -> bool -> Z -> pystr.
Variable cc : pystr -> Compile.



End TurnFacts.

(** X15. Without streaming, a session unit whose [Execute] is
    interrupted leaves [rc2] as the engine call before it set it, and
    the turn decides on that value: after an earlier success the session goes on at its primary
    prompt with the lines of the unit dropped; after an earlier failure
    the session is left; in a mata session after an earlier 3000 the
    unit is kept and continued. *)
Theorem interrupted_unit_is_judged_by_earlier_code cfg igr cc quietly input_cmd
    has_colon incmd a w :
  streamout cfg = false ->
  next_reply w = Interrupted ->
  fst (mata_turn cfg igr quietly input_cmd has_colon incmd a w)
  = Ret (if rc2 w =? 0 then Ask (py": ") (fresh_acc (py": "))
         else if rc2 w =? 3000 then
                Ask (py"> ") (mkAcc (incmds1 a ++ incmd ++ NL)
                                (incmds2 a ++ inprompt a ++ incmd ++ NL) (py"> "))
         else Break)
  /\ (inprompt a = py">>> " \/ inprompt a = py"... " ->
      cc (incmds1 a ++ incmd) <> NoneIncomplete ->
      fst (python_turn cfg igr cc quietly input_cmd has_colon incmd a w)
      = Ret (if rc2 w =? 0 then Ask (py">>> ") (fresh_acc (py">>> ")) else Break)).
Proof.
  intros _ Hr. split.
  - rewrite mata_turn_eq. cbv zeta.
    destruct (stage_and_include_interrupted cfg igr quietly input_cmd
                (incmds1 a ++ incmd ++ NL) (incmds2 a ++ inprompt a ++ incmd ++ NL)
                has_colon 2 w Hr) as (Hf & Hc).
    cbv zeta in Hf, Hc. rewrite Hf, Hc. cbn [fst].
    destruct (rc2 w =? 0); [reflexivity|].
    destruct (rc2 w =? 3000); reflexivity.
  - intros Hp Hcc.
    rewrite (python_turn_eq cfg igr cc quietly input_cmd has_colon incmd a w Hp).
    cbv zeta.
    assert (Hex : forall s t,
               fst (python_execute cfg igr quietly input_cmd has_colon s t w)
               = Ret (if rc2 w =? 0 then Ask (py">>> ") (fresh_acc (py">>> "))
                      else Break)).
    { intros s t. unfold python_execute, bind, get_rc2, ret.
      destruct (stage_and_include_interrupted cfg igr quietly input_cmd s t
                  has_colon 3 w Hr) as (Hf & Hc).
      cbv zeta in Hf, Hc.
      destruct (stage_and_include cfg igr quietly input_cmd s t has_colon 3 w)
        as [[[]|ex] w1]; cbn [fst snd] in *; [|discriminate Hf].
      rewrite Hc. destruct (rc2 w =? 0); reflexivity. }
    destruct (cc (incmds1 a ++ incmd)); [apply Hex|contradiction|apply Hex].
Qed.

(** X15 at a python unit interrupted after an earlier call had failed
    with code 198: the session is left. *)
Lemma interrupted_unit_is_judged_by_earlier_code_witness :
  let w := world_of [Interrupted] 198 in
  streamout blocking = false
  /\ next_reply w = Interrupted
  /\ fst (python_turn blocking plain_result open_paren_check false (py"python") false
            (py"x = 1") (fresh_acc (py">>> ")) w) = Ret Break.
Proof.
  cbv zeta.
  assert (H1 : streamout blocking = false) by reflexivity.
  assert (H2 : next_reply (world_of [Interrupted] 198) = Interrupted) by reflexivity.
  split; [exact H1|]. split; [exact H2|].
  destruct (interrupted_unit_is_judged_by_earlier_code blocking plain_result
              open_paren_check false (py"python") false (py"x = 1")
              (fresh_acc (py">>> ")) (world_of [Interrupted] 198) H1 H2) as (_ & Hp).
  rewrite Hp; [reflexivity | left; reflexivity | vm_compute; discriminate].
Defined.

(* ===================================================================== *)
(** ** The units of a mata session                                        *)
(* ===================================================================== *)





Section MataUnits.

Variable cfg : Config.
Variable igr : pystr -> option pystr -> bool -> Z -> pystr.



End MataUnits.








(* ===================================================================== *)
(** ** Loading data                                                       *)
(* ===================================================================== *)

Section LoadFacts.

Variable cfg : Config.
Variable igr : pystr -> option pystr -> bool -> Z -> pystr.
Variable cc : pystr -> Compile.
Variable pk : Packages.
Variable changed : Z.
Variable A : Type.

(** [run('clear')] without inline graphs is one call of [_stata_wrk1]. *)
Lemma run_clear_eq ins w :
  grshow cfg = false ->
  run cfg igr cc ins (py"clear") false false InlineNone w
  = _stata_wrk1 cfg (py"clear") false (entered false w).
Proof.
  intro Hg.
  assert (Hi : resolve_inline cfg InlineNone = Some false)
    by (unfold resolve_inline; now rewrite Hg).
  rewrite (run_plain_eq cfg igr cc ins (py"clear") false false InlineNone w Hi)
    by (vm_compute; discriminate).
  rewrite (dispatch_single cfg igr cc ins (py"clear") (py"clear") false false);
    reflexivity.
Qed.

(** The two data loaders differ in the package they ask for and in the
    transfer they end with. *)
Lemma data_loaders_eq ins (x : A) prefix force w :
  (pknum pk = true ->
   nparray_to_data cfg igr cc pk changed A ins x prefix force w
   = (clear_for_load cfg igr cc changed ins force ;;
      ret (array_to_stata x None prefix)) w)
  /\ (pkpand pk = true ->
      pdataframe_to_data cfg igr cc pk changed A ins x force w
      = (clear_for_load cfg igr cc changed ins force ;;
         ret (dataframe_to_stata x None)) w).
Proof.
  unfold nparray_to_data, pdataframe_to_data.
  split; intros ->; reflexivity.
Qed.

(** What [run('clear')] leaves of a load, without streaming and without
    inline graphs. *)
Lemma load_after_clear ins force (t : Transfer A) w :
  streamout cfg = false ->
  grshow cfg = false ->
  (changed =? 0) || is_True force = true ->
  let r := (clear_for_load cfg igr cc changed ins force ;; ret t) w in
  match next_reply w with
  | Returns rc chunks =>
      if rc =? 0 then fst r = Ret t
      else (exists msg, fst r = Raise (SystemError msg))
           /\ trace (snd r)
              = trace w ++ [ClearOutputBuffer; Execute (py"clear") false]
  | Interrupted =>
      fst r = Ret t
      /\ trace (snd r)
         = trace w ++ [ClearOutputBuffer; Execute (py"clear") false; SetBreak;
                       Print KeyboardInterrupt_notice]
  end.
Proof.
  intros Hs Hg Hc r.
  subst r. unfold clear_for_load.
  assert (Hn : (changed =? 1) && is_False force = false).
  { apply orb_true_iff in Hc as [Hc|Hc].
    - apply Z.eqb_eq in Hc. subst changed. reflexivity.
    - destruct force as [[|]|]; try discriminate Hc. apply andb_false_r. }
  rewrite Hn, Hc, bind_eq, (run_clear_eq ins w Hg).
  assert (Hnext : next_reply (entered false w) = next_reply w) by reflexivity.
  destruct (next_reply w) as [rc chunks|] eqn:Hr.
  - destruct (wrk1_returns cfg (py"clear") false (entered false w) rc chunks Hnext)
      as (post & Ht & _ & _ & _ & Hoff).
    destruct (Hoff Hs) as (_ & Hz & Hnz).
    destruct (Z.eqb_spec rc 0) as [E|E].
    + rewrite (surjective_pairing (_stata_wrk1 cfg (py"clear") false (entered false w))).
      rewrite (Hz E). reflexivity.
    + destruct (Hnz E) as (Hp & msg & Hm).
      rewrite (surjective_pairing (_stata_wrk1 cfg (py"clear") false (entered false w))).
      rewrite Hm. cbn [fst snd]. split; [exists msg; reflexivity|].
      rewrite (wrk1_error cfg (py"clear") false (entered false w) msg Hm).
      rewrite trace_entered. cbn [app]. now rewrite <- app_assoc.
  - destruct (wrk1_interrupted cfg (py"clear") false (entered false w) Hnext)
      as (Hf & Ht & _).
    rewrite (surjective_pairing (_stata_wrk1 cfg (py"clear") false (entered false w))).
    rewrite Hf. cbn [fst snd ret]. split; [reflexivity|].
    rewrite Ht, trace_entered. unfold timer_of, interrupt_handling. rewrite Hs.
    cbn [app]. now rewrite <- app_assoc.
Qed.

End LoadFacts.

(** X18. Without streaming and without inline graphs, when the dataset
    in memory is unchanged or [force] is [True], both data loaders first
    run [clear] and what follows depends on its fate: when the engine
    accepts it the data are transferred; when the engine rejects it the
    loader raises [SystemError] right after that one [Execute] and
    nothing is transferred; when the user interrupts it the loader asks
    for a break, prints the notice and transfers the data all the
    same. *)
Theorem data_load_follows_clear cfg igr cc pk changed (A : Type) ins
    (arr df : A) prefix force w :
  streamout cfg = false ->
  grshow cfg = false ->
  (changed =? 0) || is_True force = true ->
  let fate (r : Res (Transfer A) * World) (t : Transfer A) :=
    match next_reply w with
    | Returns rc chunks =>
        if rc =? 0 then fst r = Ret t
        else (exists msg, fst r = Raise (SystemError msg))
             /\ trace (snd r)
                = trace w ++ [ClearOutputBuffer; Execute (py"clear") false]
    | Interrupted =>
        fst r = Ret t
        /\ trace (snd r)
           = trace w ++ [ClearOutputBuffer; Execute (py"clear") false; SetBreak;
                         Print KeyboardInterrupt_notice]
    end in
  (pknum pk = true ->
   fate (nparray_to_data cfg igr cc pk changed A ins arr prefix force w)
        (array_to_stata arr None prefix))
  /\ (pkpand pk = true ->
      fate (pdataframe_to_data cfg igr cc pk changed A ins df force w)
           (dataframe_to_stata df None)).
Proof.
  intros Hs Hg Hc fate. subst fate. cbv beta.
  split; intro Hp.
  - rewrite (proj1 (data_loaders_eq cfg igr cc pk changed A ins arr prefix force w) Hp).
    apply (load_after_clear cfg igr cc changed A ins force
             (array_to_stata arr None prefix) w Hs Hg Hc).
  - rewrite (proj2 (data_loaders_eq cfg igr cc pk changed A ins df prefix force w) Hp).
    apply (load_after_clear cfg igr cc changed A ins force
             (dataframe_to_stata df None) w Hs Hg Hc).
Qed.

(** X18 at a forced load during which the user interrupts [clear]. *)
Lemma data_load_follows_clear_witness :
  let w := world_of [Interrupted] 0 in
  streamout blocking = false
  /\ grshow blocking = false
  /\ (1 =? 0) || is_True (ForceBool true) = true
  /\ fst (nparray_to_data blocking plain_result open_paren_check
            (mkPackages true false) 1 nat [] 7%nat (py"v") (ForceBool true) w)
     = Ret (array_to_stata 7%nat None (py"v")).
Proof.
  cbv zeta.
  assert (H1 : streamout blocking = false) by reflexivity.
  assert (H2 : grshow blocking = false) by reflexivity.
  assert (H3 : (1 =? 0) || is_True (ForceBool true) = true) by reflexivity.
  split; [exact H1|]. split; [exact H2|]. split; [exact H3|].
  exact (proj1 (proj1 (data_load_follows_clear blocking plain_result open_paren_check
                         (mkPackages true false) 1 nat [] 7%nat 7%nat (py"v")
                         (ForceBool true) (world_of [Interrupted] 0) H1 H2 H3)
                  eq_refl)).
Defined.

Section ClearFacts.

Variable cfg : Config.
Variable igr : pystr -> option pystr -> bool -> Z -> pystr.
Variable cc : pystr -> Compile.
Variable changed : Z.
Variable A : Type.

(** The engine commands of a load are [clear] or none. *)
Lemma load_executes ins force (t : Transfer A) w :
  grshow cfg = false ->
  let r := (clear_for_load cfg igr cc changed ins force ;; ret t) w in
  exists evs,
    trace (snd r) = trace w ++ evs
    /\ (if (changed =? 0) || is_True force
        then executes evs = [Execute (py"clear") false]
             /\ staged evs = []
             /\ filter is_dialogue evs = []
        else evs = []
             /\ fst r = if (changed =? 1) && is_False force
                        then Raise (SystemError dataset_changed)
                        else Ret t).
Proof.
  intros Hg r. subst r. unfold clear_for_load.
  destruct ((changed =? 0) || is_True force) eqn:Hc.
  - assert (Hn : (changed =? 1) && is_False force = false).
    { apply orb_true_iff in Hc as [Hc|Hc].
      - apply Z.eqb_eq in Hc. subst changed. reflexivity.
      - destruct force as [[|]|]; try discriminate Hc. apply andb_false_r. }
    rewrite Hn, bind_eq, (run_clear_eq cfg igr cc ins w Hg).
    destruct (wrk1_shape cfg (py"clear") false (entered false w))
      as (post & Ht & Ha & _).
    destruct (aftermath_quiet post Ha) as (He & _ & Hst & _).
    assert (Hd : filter is_dialogue post = []).
    { clear - Ha. induction post as [|e post IH]; [reflexivity|].
      simpl in Ha. apply andb_true_iff in Ha as [He Hp].
      simpl. rewrite (IH Hp). destruct e; simpl in *; try discriminate; reflexivity. }
    exists (ClearOutputBuffer :: timer_of cfg 1 None None None
              ++ Execute (py"clear") false :: post).
    split.
    + destruct (_stata_wrk1 cfg (py"clear") false (entered false w)) as [[[]|ex] w1];
        cbn [fst snd ret] in *; rewrite Ht, trace_entered;
        cbn [app]; now rewrite <- app_assoc.
    + unfold executes, staged, timer_of in *.
      destruct (streamout cfg); cbn [filter flat_map app is_execute is_dialogue];
        rewrite ?He, ?Hst, ?Hd; auto.
  - exists []. rewrite app_nil_r.
    destruct ((changed =? 1) && is_False force); auto.
Qed.

End ClearFacts.

(** X19. Without inline graphs, [clear] is the only engine command a
    data loader issues, and it issues it exactly when the dataset in
    memory is unchanged or [force] is [True]; it then stages no file and
    asks the user nothing. In every other case the loader makes no call
    at all: it refuses when the dataset has changed and [force] is
    [False], and for any other [force] that is not [True] it transfers
    the data without clearing. *)
Theorem data_load_clears_only_when_allowed cfg igr cc pk changed (A : Type) ins
    (arr df : A) prefix force w :
  grshow cfg = false ->
  let calls (r : Res (Transfer A) * World) (t : Transfer A) :=
    exists evs,
      trace (snd r) = trace w ++ evs
      /\ (if (changed =? 0) || is_True force
          then executes evs = [Execute (py"clear") false]
               /\ staged evs = []
               /\ filter is_dialogue evs = []
          else evs = []
               /\ fst r = if (changed =? 1) && is_False force
                          then Raise (SystemError dataset_changed)
                          else Ret t) in
  (pknum pk = true ->
   calls (nparray_to_data cfg igr cc pk changed A ins arr prefix force w)
         (array_to_stata arr None prefix))
  /\ (pkpand pk = true ->
      calls (pdataframe_to_data cfg igr cc pk changed A ins df force w)
            (dataframe_to_stata df None)).
Proof.
  intros Hg calls. subst calls. cbv beta.
  split; intro Hp.
  - rewrite (proj1 (data_loaders_eq cfg igr cc pk changed A ins arr prefix force w) Hp).
    apply (load_executes cfg igr cc changed A ins force
             (array_to_stata arr None prefix) w Hg).
  - rewrite (proj2 (data_loaders_eq cfg igr cc pk changed A ins df prefix force w) Hp).
    apply (load_executes cfg igr cc changed A ins force
             (dataframe_to_stata df None) w Hg).
Qed.

(** X19 at a changed dataset and [force=1]: the frame is loaded on top
    of it, nothing is cleared. *)
Lemma data_load_clears_only_when_allowed_witness :
  let w := world_of [] 0 in
  grshow streaming = false
  /\ pdataframe_to_data streaming plain_result open_paren_check
       (mkPackages true true) 1 nat [] 7%nat ForceOther w
     = (Ret (dataframe_to_stata 7%nat None), w).
Proof.
  cbv zeta.
  assert (H1 : grshow streaming = false) by reflexivity.
  split; [exact H1|].
  destruct (proj2 (data_load_clears_only_when_allowed streaming plain_result
                     open_paren_check (mkPackages true true) 1 nat [] 7%nat 7%nat
                     (py"v") ForceOther (world_of [] 0) H1) eq_refl)
    as (evs & Ht & Hc).
  cbn [Z.eqb is_True orb andb is_False] in Hc.
  reflexivity.
Defined.

(* ===================================================================== *)
(** ** Loading into a frame                                               *)
(* ===================================================================== *)

(** X20. Both frame loaders, once their package is there, raise exactly
    when the frame exists and [force] is [False], and then nothing has
    been dropped; otherwise they end with the transfer into the named
    frame, preceded by the drop of that frame exactly when it existed.
    Any [force] other than [False], boolean or not, lets an existing
    frame be replaced. *)
Theorem frame_load_replaces_unless_force_is_False pk Frame_connect (A : Type)
    (arr df : A) stfr prefix force :
  let outcome (r : Res (list (FrameCall A))) (t : Transfer A) :=
    if Frame_connect stfr && is_False force
    then r = Raise (SystemError (stfr ++ py" already exists."))
    else r = Ret ((if Frame_connect stfr then [FrameDrop stfr] else [])
                    ++ [FrameLoad t]) in
  (pknum pk = true ->
   outcome (nparray_to_frame pk Frame_connect A arr stfr prefix force)
           (array_to_stata arr (Some stfr) prefix))
  /\ (pkpand pk = true ->
      outcome (pdataframe_to_frame pk Frame_connect A df stfr force)
              (dataframe_to_stata df (Some stfr))).
Proof.
  cbv zeta. unfold nparray_to_frame, pdataframe_to_frame, replace_frame.
  split; intros ->; cbn [negb];
    destruct (Frame_connect stfr), (is_False force); reflexivity.
Qed.

(** X20 at an existing frame and [force=1]. *)
Lemma frame_load_replaces_unless_force_is_False_witness :
  pknum (mkPackages true false) = true
  /\ nparray_to_frame (mkPackages true false) (fun _ => true) nat 7%nat (py"fr")
       (py"v") ForceOther
     = Ret [FrameDrop (py"fr"); FrameLoad (array_to_stata 7%nat (Some (py"fr")) (py"v"))].
Proof.
  split; [reflexivity|].
  exact (proj1 (frame_load_replaces_unless_force_is_False (mkPackages true false)
                  (fun _ => true) nat 7%nat 7%nat (py"fr") (py"v") ForceOther)
           eq_refl).
Defined.

(* ===================================================================== *)
(** ** Dictionaries of stored results                                     *)
(* ===================================================================== *)

Lemma eqb_refl (a : pystr) : eqb a a = true.
Proof. now apply eqb_eq. Qed.

Lemma split_from_words cur x w :
  forallb (fun c => negb (isspace c)) cur = true ->
  In w (PyText.split_from cur x) ->
  w <> [] /\ forallb (fun c => negb (isspace c)) w = true.
Proof.
  revert cur. induction x as [|c r IH]; intros cur Hcur Hin; simpl in Hin.
  - destruct cur as [|c0 cur0]; [contradiction|].
    destruct Hin as [<-|[]]. split.
    + intro E. apply (f_equal (@List.length _)) in E.
      rewrite length_rev in E. discriminate E.
    + rewrite forallb_forall in *. intros y Hy. apply Hcur. now apply in_rev.
  - destruct (isspace c) eqn:Ec.
    + destruct cur as [|c0 cur0]; [now apply (IH [])|].
      destruct Hin as [<-|Hin]; [|now apply (IH [])]. split.
      * intro E. apply (f_equal (@List.length _)) in E.
        rewrite length_rev in E. discriminate E.
      * rewrite forallb_forall in *. intros y Hy. apply Hcur. now apply in_rev.
    + apply (IH (c :: cur)); [|exact Hin]. simpl. now rewrite Ec, Hcur.
Qed.

(** The words of [x.split()] are not empty and hold no white space. *)
Lemma split_words x w :
  In w (PyText.split x) ->
  w <> [] /\ forallb (fun c => negb (isspace c)) w = true.
Proof. apply split_from_words. reflexivity. Qed.

Lemma result_name_inj (open n n' : pystr) :
  open ++ n ++ py")" = open ++ n' ++ py")" -> n = n'.
Proof. intro H. apply app_inv_head in H. now apply app_inv_tail in H. Qed.

Section DictFacts.

Variables Num Arr : Type.

Implicit Types (d res : Dict Num Arr) (v : Value Num Arr) (k : pystr).

Lemma dict_get_set_same d k v : dict_get (dict_set d k v) k = Some v.
Proof.
  induction d as [|[k' v'] d IH]; simpl.
  - now rewrite eqb_refl.
  - destruct (eqb k' k) eqn:E; simpl; rewrite E; [reflexivity|exact IH].
Qed.

Lemma dict_get_set_other d k k0 v :
  k0 <> k -> dict_get (dict_set d k v) k0 = dict_get d k0.
Proof.
  intro Hne. induction d as [|[k' v'] d IH]; simpl.
  - destruct (eqb k k0) eqn:E; [apply eqb_eq in E; congruence|reflexivity].
  - destruct (eqb k' k) eqn:E; simpl.
    + apply eqb_eq in E. subst k'.
      destruct (eqb k k0) eqn:E0; [apply eqb_eq in E0; congruence|reflexivity].
    + destruct (eqb k' k0); [reflexivity|exact IH].
Qed.

Lemma dict_keys_set d k v :
  dict_keys (dict_set d k v)
  = if existsb (fun k' => eqb k' k) (dict_keys d) then dict_keys d
    else dict_keys d ++ [k].
Proof.
  unfold dict_keys. induction d as [|[k' v'] d IH]; simpl; [reflexivity|].
  destruct (eqb k' k) eqn:E; simpl; [reflexivity|].
  rewrite IH. destruct (existsb _ (map fst d)); reflexivity.
Qed.

Lemma existsb_eqb_In (ks : list pystr) k :
  existsb (fun k' => eqb k' k) ks = true <-> In k ks.
Proof.
  rewrite existsb_exists. split.
  - intros (x & Hx & E). apply eqb_eq in E. now subst.
  - intro H. exists k. split; [exact H|apply eqb_refl].
Qed.

Lemma dict_keys_set_In d k v k0 :
  In k0 (dict_keys (dict_set d k v)) <-> k0 = k \/ In k0 (dict_keys d).
Proof.
  rewrite dict_keys_set.
  destruct (existsb (fun k' => eqb k' k) (dict_keys d)) eqn:E.
  - apply existsb_eqb_In in E. split; [auto|]. intros [->|H]; assumption.
  - rewrite in_app_iff. simpl. split.
    + intros [H|[H|[]]]; auto.
    + intros [->|H]; auto.
Qed.

Lemma dict_keys_set_NoDup d k v :
  NoDup (dict_keys d) -> NoDup (dict_keys (dict_set d k v)).
Proof.
  intro Hnd. rewrite dict_keys_set.
  destruct (existsb (fun k' => eqb k' k) (dict_keys d)) eqn:E; [exact Hnd|].
  apply NoDup_app; [exact Hnd | repeat constructor; intros [] | ].
  intros x Hx [<-|[]].
  apply existsb_eqb_In in Hx. congruence.
Qed.

(** A dictionary is a function of its keys: looking a key up finds a
    value exactly when the key is there. *)
Lemma dict_get_In d k : In k (dict_keys d) <-> exists v, dict_get d k = Some v.
Proof.
  unfold dict_keys. induction d as [|[k' v'] d IH]; simpl.
  - split; [intros [] | intros (v & H); discriminate H].
  - destruct (eqb k' k) eqn:E.
    + apply eqb_eq in E. split; [intros _; now exists v' | auto].
    + rewrite <- IH. split; [|auto].
      intros [H|H]; [|exact H]. subst k'. rewrite eqb_refl in E. discriminate E.
Qed.

Section Loops.

Variable open : pystr.
Variable val : pystr -> Value Num Arr.

Lemma store_all_cons n names res :
  store_all open val (n :: names) res
  = store_all open val names
      (dict_set res (open ++ n ++ py")") (val (open ++ n ++ py")"))).
Proof. reflexivity. Qed.

Lemma store_all_keys names : forall res k,
  In k (dict_keys (store_all open val names res))
  <-> In k (dict_keys res) \/ exists n, In n names /\ k = open ++ n ++ py")".
Proof.
  induction names as [|n names IH]; intros res k.
  - simpl. split; [auto|]. intros [H|(n & [] & _)]. exact H.
  - rewrite store_all_cons, IH, dict_keys_set_In. split.
    + intros [[->|H]|(n' & Hn & ->)]; eauto using in_eq, in_cons.
    + intros [H|(n' & [<-|Hn] & ->)]; eauto.
Qed.

Lemma store_all_NoDup names : forall res,
  NoDup (dict_keys res) -> NoDup (dict_keys (store_all open val names res)).
Proof.
  induction names as [|n names IH]; intros res H; [exact H|].
  rewrite store_all_cons. apply IH. now apply dict_keys_set_NoDup.
Qed.

(** Any other key is left as it was. *)
Lemma store_all_get_out names : forall res k,
  (forall n, In n names -> k <> open ++ n ++ py")") ->
  dict_get (store_all open val names res) k = dict_get res k.
Proof.
  induction names as [|n0 names IH]; intros res k H; [reflexivity|].
  rewrite store_all_cons, IH by (intros n Hn; apply H; now right).
  apply dict_get_set_other. apply H. now left.
Qed.

Lemma store_all_get_not_in names res n :
  ~ In n names ->
  dict_get (store_all open val names res) (open ++ n ++ py")")
  = dict_get res (open ++ n ++ py")").
Proof.
  intro H. apply store_all_get_out. intros n' Hn' E.
  apply result_name_inj in E. now subst.
Qed.

(** A name of the list is stored with the value read for it. *)
Lemma store_all_get_in names : forall res n,
  In n names ->
  dict_get (store_all open val names res) (open ++ n ++ py")")
  = Some (val (open ++ n ++ py")")).
Proof.
  induction names as [|n0 names IH]; intros res n Hin; [contradiction|].
  rewrite store_all_cons.
  destruct (in_dec (list_eq_dec N.eq_dec) n names) as [Hl|Hl]; [now apply IH|].
  destruct Hin as [->|Hin]; [|contradiction].
  rewrite store_all_get_not_in by exact Hl.
  apply dict_get_set_same.
Qed.

End Loops.

End DictFacts.

Section ReturnFacts.

Variables Num Arr : Type.
Variable st : Stored Num Arr.

(** The three loops of the [r()] and [e()] branches. *)
Lemma get_return_val_three res cat open :
  (cat = py"r()" /\ open = py"r(") \/ (cat = py"e()" /\ open = py"e(") ->
  _get_return_val st res cat
  = store_kind st cat open (py"matrix") (fun n => Matrix (Matrix_array st n))
      (store_kind st cat open (py"macro") (fun n => Macro (Macro_getGlobal st n))
         (store_kind st cat open (py"scalar")
            (fun n => Scalar (Scalar_getValue st n)) res)).
Proof. intros [(-> & ->)|(-> & ->)]; reflexivity. Qed.

Lemma get_return_val_macros res :
  _get_return_val st res (py"s()")
  = store_kind st (py"s()") (py"s(") (py"macro")
      (fun n => Macro (Macro_getGlobal st n)) res.
Proof. reflexivity. Qed.

Lemma three_kinds_keys cat open :
  (cat = py"r()" /\ open = py"r(") \/ (cat = py"e()" /\ open = py"e(") ->
  let d := _get_return_val st [] cat in
  NoDup (dict_keys d)
  /\ forall k,
       In k (dict_keys d)
       <-> exists n kind,
             In kind [py"scalar"; py"macro"; py"matrix"]
             /\ In n (PyText.split (listReturn st cat kind))
             /\ k = open ++ n ++ py")".
Proof.
  intros H d. subst d. rewrite (get_return_val_three [] cat open H).
  unfold store_kind. split.
  - repeat apply store_all_NoDup. constructor.
  - intro k. rewrite !store_all_keys. simpl. split.
    + intros [[[[]|(n & Hn & ->)]|(n & Hn & ->)]|(n & Hn & ->)];
        exists n; eauto 8.
    + intros (n & kind & [<-|[<-|[<-|[]]]] & Hn & ->); eauto 8.
Qed.

Lemma three_kinds_lookup cat open n :
  (cat = py"r()" /\ open = py"r(") \/ (cat = py"e()" /\ open = py"e(") ->
  let d := _get_return_val st [] cat in
  let key := open ++ n ++ py")" in
  let listed kind := in_dec (list_eq_dec N.eq_dec) n
                       (PyText.split (listReturn st cat kind)) in
  dict_get d key
  = if listed (py"matrix") then Some (Matrix (Matrix_array st key))
    else if listed (py"macro") then Some (Macro (Macro_getGlobal st key))
    else if listed (py"scalar") then Some (Scalar (Scalar_getValue st key))
    else None.
Proof.
  intros H d key listed. subst d key listed.
  rewrite (get_return_val_three [] cat open H). unfold store_kind. cbv beta.
  destruct (in_dec _ n (PyText.split (listReturn st cat (py"matrix")))) as [H3|H3];
    [now rewrite store_all_get_in|rewrite store_all_get_not_in by exact H3].
  destruct (in_dec _ n (PyText.split (listReturn st cat (py"macro")))) as [H2|H2];
    [now rewrite store_all_get_in|rewrite store_all_get_not_in by exact H2].
  destruct (in_dec _ n (PyText.split (listReturn st cat (py"scalar")))) as [H1|H1];
    [now rewrite store_all_get_in|rewrite store_all_get_not_in by exact H1].
  reflexivity.
Qed.

End ReturnFacts.

(** X21. With NumPy there, [get_return] and [get_ereturn] return a
    dictionary whose keys are exactly the names [r(n)], respectively
    [e(n)], for the words [n] of the three lists the engine reports for
    the category (scalars, macros, matrices), each key once; the words
    are not empty and hold no white space. *)
Theorem result_keys_are_the_listed_names (Num Arr : Type) (st : Stored Num Arr) pk :
  pknum pk = true ->
  let keys_of (r : Res (Dict Num Arr)) (cat open : pystr) :=
    exists d,
      r = Ret d
      /\ NoDup (dict_keys d)
      /\ forall k,
           In k (dict_keys d)
           <-> exists n kind,
                 In kind [py"scalar"; py"macro"; py"matrix"]
                 /\ In n (PyText.split (listReturn st cat kind))
                 /\ (n <> [] /\ forallb (fun c => negb (isspace c)) n = true)
                 /\ k = open ++ n ++ py")" in
  keys_of (get_return st pk) (py"r()") (py"r(")
  /\ keys_of (get_ereturn st pk) (py"e()") (py"e(").
Proof.
  intros Hp keys_of. subst keys_of. cbv beta.
  unfold get_return, get_ereturn. rewrite Hp. cbn [negb].
  split; eexists; (split; [reflexivity|]).
  - destruct (three_kinds_keys Num Arr st (py"r()") (py"r(")) as (Hnd & Hk); [auto|].
    split; [exact Hnd|]. intro k. rewrite (Hk k). split.
    + intros (n & kind & Hkind & Hn & E). exists n, kind.
      pose proof (split_words _ _ Hn). auto.
    + intros (n & kind & Hkind & Hn & _ & E). exists n, kind. auto.
  - destruct (three_kinds_keys Num Arr st (py"e()") (py"e(")) as (Hnd & Hk); [auto|].
    split; [exact Hnd|]. intro k. rewrite (Hk k). split.
    + intros (n & kind & Hkind & Hn & E). exists n, kind.
      pose proof (split_words _ _ Hn). auto.
    + intros (n & kind & Hkind & Hn & _ & E). exists n, kind. auto.
Qed.

(** X21 at the sample results: four keys for five listed words. *)
Lemma result_keys_are_the_listed_names_witness :
  pknum (mkPackages true false) = true
  /\ exists d,
       get_return stored_sample (mkPackages true false) = Ret d
       /\ dict_keys d = [py"r(N)"; py"r(mean)"; py"r(cmd)"; py"r(table)"].
Proof.
  split; [reflexivity|].
  destruct (proj1 (result_keys_are_the_listed_names Z (list Z) stored_sample
                     (mkPackages true false) eq_refl)) as (d & Hd & _).
  exists d. split; [exact Hd|].
  injection Hd as <-. reflexivity.
Defined.

(** X22. A name that the engine lists under several kinds is stored
    once, under the last kind read: with NumPy there, the value that
    [get_return] and [get_ereturn] hold for [r(n)] or [e(n)] is the
    matrix when [n] is listed as a matrix, else the macro when it is
    listed as a macro, else the scalar when it is listed as a scalar,
    and the key is absent otherwise. *)
Theorem result_lookup_prefers_the_last_kind (Num Arr : Type) (st : Stored Num Arr)
    pk n :
  pknum pk = true ->
  let lookup (r : Res (Dict Num Arr)) (cat open : pystr) :=
    let key := open ++ n ++ py")" in
    let listed kind := in_dec (list_eq_dec N.eq_dec) n
                         (PyText.split (listReturn st cat kind)) in
    exists d,
      r = Ret d
      /\ dict_get d key
         = if listed (py"matrix") then Some (Matrix (Matrix_array st key))
           else if listed (py"macro") then Some (Macro (Macro_getGlobal st key))
           else if listed (py"scalar") then Some (Scalar (Scalar_getValue st key))
           else None in
  lookup (get_return st pk) (py"r()") (py"r(")
  /\ lookup (get_ereturn st pk) (py"e()") (py"e(").
Proof.
  intros Hp lookup. subst lookup. cbv beta zeta.
  unfold get_return, get_ereturn. rewrite Hp. cbn [negb].
  split; eexists; (split; [reflexivity|]).
  - apply (three_kinds_lookup Num Arr st (py"r()") (py"r(") n). auto.
  - apply (three_kinds_lookup Num Arr st (py"e()") (py"e(") n). auto.
Qed.

(** X22 at the sample results: [mean] is a scalar and a macro, and the
    dictionary holds the macro. *)
Lemma result_lookup_prefers_the_last_kind_witness :
  pknum (mkPackages true false) = true
  /\ exists d,
       get_return stored_sample (mkPackages true false) = Ret d
       /\ dict_get d (py"r(mean)") = Some (Macro (py"summarize"))
       /\ dict_get d (py"r(N)") = Some (Scalar 74).
Proof.
  split; [reflexivity|].
  destruct (proj1 (result_lookup_prefers_the_last_kind Z (list Z) stored_sample
                     (mkPackages true false) (py"mean") eq_refl)) as (d & Hd & _).
  exists d. split; [exact Hd|].
  injection Hd as <-. split; reflexivity.
Defined.

(** X23. [get_sreturn] reads macros only: with NumPy there, what it
    holds for a key is the macro of that name, and its keys are the
    names [s(n)] of the listed macros; it builds no array, and yet
    without NumPy it raises [SystemError] like the two others. *)
Theorem get_sreturn_holds_macros_only (Num Arr : Type) (st : Stored Num Arr) pk :
  if pknum pk then
    exists d,
      get_sreturn st pk = Ret d
      /\ NoDup (dict_keys d)
      /\ forall k v,
           dict_get d k = Some v
           <-> (exists n, In n (PyText.split (listReturn st (py"s()") (py"macro")))
                          /\ k = py"s(" ++ n ++ py")")
               /\ v = Macro (Macro_getGlobal st k)
  else
    get_sreturn st pk = Raise (SystemError numpy_required)
    /\ get_return st pk = Raise (SystemError numpy_required)
    /\ get_ereturn st pk = Raise (SystemError numpy_required).
Proof.
  unfold get_sreturn, get_return, get_ereturn.
  destruct (pknum pk); cbn [negb]; [|auto].
  eexists. split; [reflexivity|].
  rewrite get_return_val_macros. unfold store_kind.
  set (names := PyText.split (listReturn st (py"s()") (py"macro"))).
  split; [apply store_all_NoDup; constructor|].
  intros k v. split.
  - intro Hg.
    assert (Hk : In k (dict_keys (store_all (py"s(")
                                    (fun n => Macro (Macro_getGlobal st n)) names [])))
      by (apply dict_get_In; now exists v).
    apply store_all_keys in Hk as [[]|(n & Hn & ->)].
    split; [now exists n|].
    rewrite store_all_get_in in Hg by exact Hn. congruence.
  - intros ((n & Hn & ->) & ->). now apply store_all_get_in.
Qed.
